(** * immutable-class-tester: the conformance checker [testImmutableClass]

    A shallow embedding of [testImmutableClass] (index.ts) and of the classes
    of its test file (index.mocha.ts) over a small model of JavaScript
    objects: a heap of objects with prototypes, own properties and function
    objects, calls that may mutate the heap or throw, and the assertions of
    chai that the checker uses.

    What is outside the repository is kept apart from the checker:
    - the bodies of the functions of the class under test are a table [code]
      (function identifier to heap transformer);
    - [JSON.stringify], [JSON.parse], chai's deep equality and chai's
      rendering of values in messages are the fields of a record [Host].
    The theorems hold for every [code] and every [Host]; a reference host
    ([ref_host]) and the classes of the test file instantiate them.

    Limits of the object model: numbers are integers (no NaN, no fractions),
    text is a sequence of bytes, properties are data properties (no getters,
    setters or proxies), keys are enumerated in insertion order, and the
    array of samples is read once on entry (the class under test is handed
    its elements, never the array itself). *)

From Stdlib Require Import ZArith Ascii String DecimalString.
From stdpp Require Import base numbers strings list.

Set Warnings "-register-all".

(** ** Values, objects and the heap *)

Definition loc := nat.

Inductive value : Type :=
| VUndefined
| VNull
| VBool (b : bool)
| VNum (n : Z)
| VStr (s : string)
| VRef (l : loc).

Global Instance value_eq_dec : EqDecision value.
Proof. solve_decision. Defined.

(** Identifier of a function body in the code table. *)
Definition fid := string.

Inductive okind : Type :=
| KObject
| KArray (elems : list value)
| KFunction (name : string) (body : fid).

Record prop := mk_prop { p_value : value; p_enumerable : bool }.

Record object := mk_object {
  o_kind : okind;
  o_proto : value;
  o_props : list (string * prop)
}.

Abbreviation heap := (list object).

(** Well-known objects of the realm, at fixed addresses. *)
Definition Object_prototype : loc := 0.
Definition Function_prototype : loc := 1.
Definition Array_prototype : loc := 2.
Definition String_prototype : loc := 3.
Definition Number_prototype : loc := 4.
Definition Boolean_prototype : loc := 5.

(** ** What a computation can throw *)

Inductive error_class := PlainError | TypeError | SyntaxError | RangeError | AssertionError.

Inductive thrown : Type :=
| JsError (c : error_class) (message : string)
| JsValue (v : value).

Inductive outcome (A : Type) : Type :=
| Ok (a : A)
| Throw (e : thrown).
Arguments Ok {A} a.
Arguments Throw {A} e.

(** [thrown instanceof Error] *)
Definition is_Error (e : thrown) : bool :=
  match e with JsError _ _ => true | JsValue _ => false end.

(** ** State and exception monad *)

Definition ST (St A : Type) : Type := St -> outcome A * St.

Definition ret {St A} (a : A) : ST St A := fun s => (Ok a, s).

Definition throw {St A} (e : thrown) : ST St A := fun s => (Throw e, s).

Definition bind {St A B} (m : ST St A) (k : A -> ST St B) : ST St B :=
  fun s => match m s with
           | (Ok a, s') => k a s'
           | (Throw e, s') => (Throw e, s')
           end.

Notation "x <- m ;; k" := (bind m (fun x => k))
  (at level 100, m at next level, right associativity, only parsing).
Notation "m ;;; k" := (bind m (fun _ => k))
  (at level 100, right associativity, only parsing).

Definition read {St A} (f : St -> A) : ST St A := fun s => (Ok (f s), s).

Fixpoint for_each {St A} (l : list A) (body : A -> ST St unit) : ST St unit :=
  match l with
  | [] => ret tt
  | x :: rest => body x ;;; for_each rest body
  end.

(** [for (let i = start; i < start + count; i++) body(i)] *)
Fixpoint for_upto {St} (count start : nat) (body : nat -> ST St unit) : ST St unit :=
  match count with
  | O => ret tt
  | S count' => body start ;;; for_upto count' (S start) body
  end.

(** [for (let i = from; i < to; i++) body(i)] *)
Definition for_range {St} (from to : nat) (body : nat -> ST St unit) : ST St unit :=
  for_upto (to - from) from body.

(** ** Text *)

Definition show_nat (n : nat) : string := NilZero.string_of_uint (Nat.to_uint n).
Definition show_Z (n : Z) : string := NilZero.string_of_int (Z.to_int n).

Definition lower_ascii (c : ascii) : ascii :=
  let n := nat_of_ascii c in
  if (65 <=? n) && (n <=? 90) then ascii_of_nat (n + 32) else c.

(** [s[0].toLowerCase() + s.substring(1)] for a non-empty [s] *)
Definition lower_first (s : string) : string :=
  match s with
  | EmptyString => EmptyString
  | String c rest => String (lower_ascii c) rest
  end.

Fixpoint assoc {A} (key : string) (l : list (string * A)) : option A :=
  match l with
  | [] => None
  | (k, a) :: rest => if String.eqb k key then Some a else assoc key rest
  end.

(** The array index that the property key [key] denotes, below [n]. *)
Definition index_of_key (n : nat) (key : string) : option nat :=
  find (fun i => String.eqb (show_nat i) key) (seq 0 n).

Definition string_at (s : string) (i : nat) : option value :=
  match String.get i s with
  | Some c => Some (VStr (String c EmptyString))
  | None => None
  end.

(** ** Reading objects *)

Definition truthy (v : value) : bool :=
  match v with
  | VUndefined | VNull => false
  | VBool b => b
  | VNum n => negb (Z.eqb n 0)
  | VStr s => negb (String.eqb s "")
  | VRef _ => true
  end.

(** [a === b] *)
Definition strict_equal (a b : value) : bool := bool_decide (a = b).

Definition function_of (h : heap) (v : value) : option (string * fid) :=
  match v with
  | VRef l =>
      match h !! l with
      | Some (mk_object (KFunction name body) _ _) => Some (name, body)
      | _ => None
      end
  | _ => None
  end.

(** [typeof v === 'function'] *)
Definition is_function (h : heap) (v : value) : bool :=
  match function_of h v with Some _ => true | None => false end.

(** [f.name] of a function object ([""] for anything else). *)
Definition function_name (h : heap) (v : value) : string :=
  match function_of h v with Some (name, _) => name | None => "" end.

Definition array_elems (h : heap) (v : value) : option (list value) :=
  match v with
  | VRef l =>
      match h !! l with
      | Some (mk_object (KArray elems) _ _) => Some elems
      | _ => None
      end
  | _ => None
  end.

(** [Array.isArray(v)] *)
Definition Array_isArray (h : heap) (v : value) : bool :=
  match array_elems h v with Some _ => true | None => false end.

(** The value of an own property of an object, exotic ones included. *)
Definition get_own (o : object) (key : string) : option value :=
  match o_kind o with
  | KArray elems =>
      if String.eqb key "length" then Some (VNum (Z.of_nat (length elems)))
      else match index_of_key (length elems) key with
           | Some i => elems !! i
           | None => p_value <$> assoc key (o_props o)
           end
  | KFunction name _ =>
      if String.eqb key "name" then Some (VStr name)
      else p_value <$> assoc key (o_props o)
  | KObject => p_value <$> assoc key (o_props o)
  end.

(** Property lookup along the prototype chain, starting at object [v]. *)
Fixpoint lookup_chain (fuel : nat) (h : heap) (v : value) (key : string) : value :=
  match fuel, v with
  | S fuel', VRef l =>
      match h !! l with
      | Some o =>
          match get_own o key with
          | Some x => x
          | None => lookup_chain fuel' h (o_proto o) key
          end
      | None => VUndefined
      end
  | _, _ => VUndefined
  end.

(** A chain without repetition is no longer than the heap. *)
Definition chain_fuel (h : heap) : nat := S (length h).

Definition show_nullish (v : value) : string :=
  match v with VNull => "null" | _ => "undefined" end.

(** The prototype of a value: what [v.__proto__] reads. *)
Definition proto_of (h : heap) (v : value) : value :=
  match v with
  | VRef l => match h !! l with Some o => o_proto o | None => VUndefined end
  | VStr _ => VRef String_prototype
  | VNum _ => VRef Number_prototype
  | VBool _ => VRef Boolean_prototype
  | VUndefined | VNull => VUndefined
  end.

(** [v.key], [v[key]] *)
Definition get (v : value) (key : string) : ST heap value :=
  fun h =>
    match v with
    | VUndefined | VNull =>
        (Throw (JsError TypeError
           ("Cannot read property '" +:+ key +:+ "' of " +:+ show_nullish v)), h)
    | VRef _ =>
        if String.eqb key "__proto__" then (Ok (proto_of h v), h)
        else (Ok (lookup_chain (chain_fuel h) h v key), h)
    | VStr s =>
        if String.eqb key "__proto__" then (Ok (proto_of h v), h)
        else if String.eqb key "length" then (Ok (VNum (Z.of_nat (String.length s))), h)
        else match index_of_key (String.length s) key with
             | Some i => (Ok (default VUndefined (string_at s i)), h)
             | None => (Ok (lookup_chain (chain_fuel h) h (proto_of h v) key), h)
             end
    | VNum _ | VBool _ =>
        if String.eqb key "__proto__" then (Ok (proto_of h v), h)
        else (Ok (lookup_chain (chain_fuel h) h (proto_of h v) key), h)
    end.

Definition enumerable_keys (props : list (string * prop)) : list string :=
  fst <$> filter (fun kp => p_enumerable (snd kp) = true) props.

(** Own enumerable string keys of an object, in enumeration order. *)
Definition own_enumerable_keys (o : object) : list string :=
  match o_kind o with
  | KArray elems => (show_nat <$> seq 0 (length elems)) ++ enumerable_keys (o_props o)
  | _ => enumerable_keys (o_props o)
  end.

(** Own keys of an object, enumerable or not. *)
Definition own_keys (o : object) : list string :=
  match o_kind o with
  | KArray elems => (show_nat <$> seq 0 (length elems)) ++ ("length" :: (fst <$> o_props o))
  | KFunction _ _ => "name" :: (fst <$> o_props o)
  | KObject => fst <$> o_props o
  end.

Definition mem (key : string) (l : list string) : bool :=
  existsb (String.eqb key) l.

(** [Object.prototype.hasOwnProperty.call(v, key)] (the has-own-prop package) *)
Definition hasOwnProp (h : heap) (v : value) (key : string) : bool :=
  match v with
  | VRef l => match h !! l with Some o => mem key (own_keys o) | None => false end
  | VStr s =>
      String.eqb key "length"
      || match index_of_key (String.length s) key with Some _ => true | None => false end
  | _ => false
  end.

(** The keys that [for (key in v)] visits: own enumerable keys, then those of
    the prototypes that no nearer object shadows. *)
Fixpoint for_in_chain (fuel : nat) (h : heap) (v : value) (seen : list string) : list string :=
  match fuel, v with
  | S fuel', VRef l =>
      match h !! l with
      | Some o =>
          filter (fun k => mem k seen = false) (own_enumerable_keys o)
          ++ for_in_chain fuel' h (o_proto o) (own_keys o ++ seen)
      | None => []
      end
  | _, _ => []
  end.

Definition for_in_keys (h : heap) (v : value) : list string :=
  match v with
  | VRef _ => for_in_chain (chain_fuel h) h v []
  | VStr s => show_nat <$> seq 0 (String.length s)
  | _ => []
  end.

(** [Object.keys(v)] *)
Definition Object_keys (v : value) : ST heap (list string) :=
  fun h =>
    match v with
    | VUndefined | VNull =>
        (Throw (JsError TypeError "Cannot convert undefined or null to object"), h)
    | VRef l =>
        (Ok (match h !! l with Some o => own_enumerable_keys o | None => [] end), h)
    | VStr s => (Ok (show_nat <$> seq 0 (String.length s)), h)
    | _ => (Ok [], h)
    end.

(** ** Writing objects *)

Definition alloc (o : object) : ST heap value :=
  fun h => (Ok (VRef (length h)), h ++ [o]).

(** [{ k1: v1, ... }] *)
Definition object_literal (fields : list (string * value)) : object :=
  mk_object KObject (VRef Object_prototype)
            ((fun kv => (fst kv, mk_prop (snd kv) true)) <$> fields).

(** [[v1, ...]] *)
Definition array_literal (elems : list value) : object :=
  mk_object (KArray elems) (VRef Array_prototype) [].

Fixpoint update_prop (key : string) (v : value) (props : list (string * prop))
  : list (string * prop) :=
  match props with
  | [] => [(key, mk_prop v true)]
  | (k, p) :: rest =>
      if String.eqb k key then (k, mk_prop v (p_enumerable p)) :: rest
      else (k, p) :: update_prop key v rest
  end.

Definition is_ref (v : value) : bool :=
  match v with VRef _ => true | _ => false end.

(** [target[key] = v] on an ordinary object: the own data property is written
    or created; the key [__proto__] goes to the setter of [Object.prototype]. *)
Definition set (target : value) (key : string) (v : value) : ST heap unit :=
  fun h =>
    match target with
    | VUndefined | VNull =>
        (Throw (JsError TypeError
           ("Cannot set property '" +:+ key +:+ "' of " +:+ show_nullish target)), h)
    | VRef l =>
        match h !! l with
        | Some o =>
            if String.eqb key "__proto__" then
              if is_ref v || bool_decide (v = VNull)
              then (Ok tt, <[l := mk_object (o_kind o) v (o_props o)]> h)
              else (Ok tt, h)
            else
              (Ok tt, <[l := mk_object (o_kind o) (o_proto o) (update_prop key v (o_props o))]> h)
        | None => (Ok tt, h)
        end
    | _ => (Ok tt, h)
    end.

(** [x instanceof C] without the TypeError cases: the walk along the
    prototypes of [x] looking for the object [target]. *)
Fixpoint proto_chain_has (fuel : nat) (h : heap) (v : value) (target : loc) : bool :=
  match fuel, v with
  | S fuel', VRef l =>
      match h !! l with
      | Some o =>
          match o_proto o with
          | VRef p => Nat.eqb p target || proto_chain_has fuel' h (VRef p) target
          | _ => false
          end
      | None => false
      end
  | _, _ => false
  end.

(** [x instanceof C] *)
Definition instanceof (x C : value) : ST heap bool :=
  fun h =>
    if negb (is_function h C) then
      (Throw (JsError TypeError "Right-hand side of 'instanceof' is not callable"), h)
    else
      match lookup_chain (chain_fuel h) h C "prototype" with
      | VRef p => (Ok (proto_chain_has (chain_fuel h) h x p), h)
      | _ =>
          if is_ref x then
            (Throw (JsError TypeError "Function has non-object prototype in instanceof check"), h)
          else (Ok false, h)
      end.

(** ** Calls *)

(** The bodies of the functions that live in the heap: [code body this args]. *)
Definition code_table := fid -> value -> list value -> ST heap value.

Section Calls.
Variable code : code_table.

(** [f.call(this, ...args)]; [what] names the callee in the TypeError. *)
Definition invoke (f this : value) (args : list value) (what : string) : ST heap value :=
  fun h =>
    match function_of h f with
    | Some (_, body) => code body this args h
    | None => (Throw (JsError TypeError (what +:+ " is not a function")), h)
    end.

(** [obj.key(...args)] *)
Definition call_method (obj : value) (key : string) (args : list value) : ST heap value :=
  f <- get obj key ;;
  invoke f obj args key.

(** [new C(...args)]: a fresh object whose prototype is [C.prototype] is
    handed to the body as [this]; an object returned by the body wins. *)
Definition construct (C : value) (args : list value) : ST heap value :=
  fun h =>
    match function_of h C with
    | Some (_, body) =>
        (proto <- get C "prototype" ;;
         this <- alloc (mk_object KObject
                          (if is_ref proto then proto else VRef Object_prototype) []) ;;
         r <- code body this args ;;
         ret (if is_ref r then r else this)) h
    | None => (Throw (JsError TypeError "ClassFn is not a constructor"), h)
    end.
End Calls.

(** ** The host: JSON and chai's structural comparison and rendering *)

Record Host := mk_host {
  (** [JSON.stringify(v)]: text, or [undefined] *)
  JSON_stringify : value -> ST heap value;
  (** [JSON.parse(text)] *)
  JSON_parse : value -> ST heap value;
  (** chai's deep equality *)
  deep_eql : heap -> value -> value -> bool;
  (** how chai shows a value in a failure message *)
  inspect : heap -> value -> string
}.

(** ** The state of a run of the checker *)

(** The calls that the checker itself makes, in order. *)
Inductive call_event : Type :=
| Called (receiver : value) (method : string) (args : list value)
| Constructed (ctor : value) (args : list value).

Record world := mk_world {
  w_heap : heap;
  w_calls : list call_event
}.

Definition M := ST world.

Definition lift {A} (m : ST heap A) : M A :=
  fun w => let '(r, h') := m (w_heap w) in (r, mk_world h' (w_calls w)).

Definition record (ev : call_event) : M unit :=
  fun w => (Ok tt, mk_world (w_heap w) (w_calls w ++ [ev])).

Section Checker.
Variable code : code_table.
Variable host : Host.

(** [obj.key(...args)] made by the checker *)
Definition call (obj : value) (key : string) (args : list value) : M value :=
  f <- lift (get obj key) ;;
  callable <- read (fun w => is_function (w_heap w) f) ;;
  if callable : bool then
    record (Called obj key args) ;;;
    lift (invoke code f obj args key)
  else throw (JsError TypeError (key +:+ " is not a function")).

(** [new C(...args)] made by the checker *)
Definition new_ (C : value) (args : list value) : M value :=
  callable <- read (fun w => is_function (w_heap w) C) ;;
  if callable : bool then
    record (Constructed C args) ;;;
    lift (construct code C args)
  else throw (JsError TypeError "ClassFn is not a constructor").

(** *** chai *)

(** The message of a failed assertion: the message given to [expect], a
    colon, and the text that the assertion generates. *)
Definition chai_message (msg generated : string) : string :=
  if String.eqb msg "" then generated else msg +:+ ": " +:+ generated.

Definition expect (passes : heap -> bool) (msg : string) (generated : heap -> string)
  : M unit :=
  fun w =>
    if passes (w_heap w) then (Ok tt, w)
    else (Throw (JsError AssertionError (chai_message msg (generated (w_heap w)))), w).

Definition type_detect (h : heap) (v : value) : string :=
  match v with
  | VUndefined => "undefined"
  | VNull => "null"
  | VBool _ => "boolean"
  | VNum _ => "number"
  | VStr _ => "string"
  | VRef _ =>
      if is_function h v then "function"
      else if Array_isArray h v then "array"
      else "object"
  end.

Definition article (ty : string) : string :=
  match ty with
  | String c _ => if mem (String c EmptyString) ["a"; "e"; "i"; "o"; "u"] then "an " else "a "
  | EmptyString => "a "
  end.

(** [expect(actual, msg).to.be.a(ty)] *)
Definition expect_a (actual : value) (msg : string) (ty : string) : M unit :=
  expect (fun h => String.eqb (type_detect h actual) ty) msg
         (fun h => "expected " +:+ inspect host h actual +:+ " to be " +:+ article ty +:+ ty).

(** [expect(actual, msg).to.equal(expected)] *)
Definition expect_equal (actual : value) (msg : string) (expected : value) : M unit :=
  expect (fun _ => strict_equal actual expected) msg
         (fun h => "expected " +:+ inspect host h actual
                   +:+ " to equal " +:+ inspect host h expected).

(** [expect(actual, msg).to.not.equal(unexpected)] *)
Definition expect_not_equal (actual : value) (msg : string) (unexpected : value) : M unit :=
  expect (fun _ => negb (strict_equal actual unexpected)) msg
         (fun h => "expected " +:+ inspect host h actual
                   +:+ " to not equal " +:+ inspect host h unexpected).

(** [expect(actual, msg).to.deep.equal(expected)] *)
Definition expect_deep_equal (actual : value) (msg : string) (expected : value) : M unit :=
  expect (fun h => deep_eql host h actual expected) msg
         (fun h => "expected " +:+ inspect host h actual
                   +:+ " to deeply equal " +:+ inspect host h expected).

(** [expect(haystack).to.include(needle)] for an array of strings longer
    than chai's truncation threshold *)
Definition expect_include (haystack : list string) (needle : string) : M unit :=
  expect (fun _ => mem needle haystack) ""
         (fun h => "expected [ Array(" +:+ show_nat (length haystack) +:+ ") ] to include "
                   +:+ inspect host h (VStr needle)).

(** [expect(actual, msg).to.be.instanceOf(C)] *)
Definition expect_instanceOf (actual : value) (msg : string) (C : value) : M unit :=
  is_instance <- lift (instanceof actual C) ;;
  expect (fun _ => is_instance) msg
         (fun h => "expected " +:+ inspect host h actual
                   +:+ " to be an instance of " +:+ function_name h C).

(** [expect(() => { thunk }, msg).to.throw(Error)] *)
Definition expect_throw (thunk : M value) (msg : string) : M unit :=
  fun w =>
    match thunk w with
    | (Ok _, w') =>
        (Throw (JsError AssertionError
                  (chai_message msg "expected [Function] to throw Error")), w')
    | (Throw e, w') =>
        if is_Error e then (Ok tt, w')
        else (Throw (JsError AssertionError
                       (chai_message msg
                          ("expected [Function] to throw 'Error' but "
                           +:+ match e with
                               | JsValue v => inspect host (w_heap w') v
                               | JsError _ m => m
                               end
                           +:+ " was thrown"))), w')
    end.

(** *** index.ts *)

Record TesterOptions := mk_options {
  newThrows : option bool;
  context : value
}.

(** [options = {}] *)
Definition no_options : TesterOptions := mk_options None VUndefined.

Definition PROPERTY_KEYS : list string :=
  [ "name"; "defaultValue"; "possibleValues"; "validate"; "immutableClass";
    "immutableClassArray"; "immutableClassLookup"; "equal"; "toJS"; "type";
    "contextTransform"; "preserveUndefined"; "emptyArrayIsOk" ].

Section Run.
Variable ClassFn : value.
(** [objects], once it is known to be an array: its elements. *)
Variable samples : list value.
Variable options : TesterOptions.
Variable className : string.

(** [objects[i]] *)
Definition objects_at (i : nat) : value := nth i samples VUndefined.

Definition instanceName : string := lower_first className.

(** Lines 283-293: static methods, then instance methods on an instance
    made from the first sample. *)
Definition check_methods : M unit :=
  fromJS <- lift (get ClassFn "fromJS") ;;
  expect_a fromJS (className +:+ ".fromJS should exist") "function" ;;;
  instance <- call ClassFn "fromJS" [objects_at 0; context options] ;;
  let objectProto := VRef Object_prototype in
  valueOf <- lift (get instance "valueOf") ;;
  protoValueOf <- lift (get objectProto "valueOf") ;;
  expect_not_equal valueOf "Instance should implement valueOf" protoValueOf ;;;
  toString <- lift (get instance "toString") ;;
  protoToString <- lift (get objectProto "toString") ;;
  expect_not_equal toString "Instance should implement toString" protoToString ;;;
  toJS <- lift (get instance "toJS") ;;
  expect_a toJS "Instance should have a toJS function" "function" ;;;
  toJSON <- lift (get instance "toJSON") ;;
  expect_a toJSON "Instance should have a toJSON function" "function" ;;;
  equals <- lift (get instance "equals") ;;
  expect_a equals "Instance should have an equals function" "function".

(** Lines 295-304: the property descriptors, for classes that have them. *)
Definition check_properties : M unit :=
  PROPERTIES <- lift (get ClassFn "PROPERTIES") ;;
  if truthy PROPERTIES then
    expect_a PROPERTIES "PROPERTIES should be an array" "array" ;;;
    descriptors <- read (fun w => default [] (array_elems (w_heap w) PROPERTIES)) ;;
    for_each descriptors (fun property =>
      keys <- lift (Object_keys property) ;;
      for_each keys (fun key =>
        expect_include PROPERTY_KEYS key ;;;
        name <- lift (get property "name") ;;
        expect_a name "" "string"))
  else ret tt.

(** Lines 347-351: the own enumerable properties of [inst], copied one by
    one into [instLazyCopy]. *)
Fixpoint copy_own_props (inst instLazyCopy : value) (keys : list string)
  : ST heap unit :=
  match keys with
  | [] => ret tt
  | key :: rest =>
      own <- read (fun h => hasOwnProp h inst key) ;;
      if own : bool then
        v <- get inst key ;;
        set instLazyCopy key v ;;;
        copy_own_props inst instLazyCopy rest
      else copy_own_props inst instLazyCopy rest
  end.

(** Lines 308-379: the body of the loop over the samples. *)
Definition check_sample (i : nat) : M unit :=
  let where_ := "[in object " +:+ show_nat i +:+ "]" in
  objectJSON <- lift (JSON_stringify host (objects_at i)) ;;
  objectCopy1 <- lift (JSON_parse host objectJSON) ;;
  objectCopy2 <- lift (JSON_parse host objectJSON) ;;

  inst <- call ClassFn "fromJS" [objectCopy1; context options] ;;
  expect_deep_equal objectCopy1
    (className +:+ ".fromJS function modified its input :-(") objectCopy2 ;;;

  expect_instanceOf inst
    (className +:+ ".fromJS did not return a " +:+ className +:+ " instance " +:+ where_)
    ClassFn ;;;

  str <- call inst "toString" [] ;;
  expect_a str (instanceName +:+ ".toString() must return a string " +:+ where_)
    "string" ;;;

  eqNull <- call inst "equals" [VNull] ;;
  expect_equal eqNull (instanceName +:+ ".equals(null) should be false " +:+ where_)
    (VBool false) ;;;

  emptyArray <- lift (alloc (array_literal [])) ;;
  eqEmpty <- call inst "equals" [emptyArray] ;;
  expect_equal eqEmpty (instanceName +:+ ".equals([]) should be false " +:+ where_)
    (VBool false) ;;;

  js <- call inst "toJS" [] ;;
  expect_deep_equal js
    (className
     +:+ ".fromJS(obj).toJS() was not a fixed point (did not deep equal obj) " +:+ where_)
    (objects_at i) ;;;

  instValueOf <- call inst "valueOf" [] ;;
  eqValueOf <- call inst "equals" [instValueOf] ;;
  expect_equal eqValueOf ("inst.equals(inst.valueOf()) " +:+ where_) (VBool false) ;;;

  instLazyCopy <- lift (alloc (object_literal [])) ;;
  keys <- read (fun w => for_in_keys (w_heap w) inst) ;;
  lift (copy_own_props inst instLazyCopy keys) ;;;

  eqLazyCopy <- call inst "equals" [instLazyCopy] ;;
  expect_equal eqLazyCopy
    ("inst.equals(*an object with the same values*) " +:+ where_) (VBool false) ;;;

  (if default false (newThrows options) then
     expect_throw (new_ ClassFn [instValueOf])
       ("new " +:+ className +:+ " did not throw as indicated " +:+ where_)
   else
     instValueCopy <- new_ ClassFn [instValueOf] ;;
     eqValueCopy <- call inst "equals" [instValueCopy] ;;
     expect_equal eqValueCopy
       ("new " +:+ className +:+ "().toJS() is not equal to the original " +:+ where_)
       (VBool true) ;;;
     copyJS <- call instValueCopy "toJS" [] ;;
     instJS <- call inst "toJS" [] ;;
     expect_deep_equal copyJS
       ("new " +:+ className +:+ "(" +:+ instanceName
        +:+ ".valueOf()).toJS() returned something bad " +:+ where_)
       instJS) ;;;

  instJSON <- lift (JSON_stringify host inst) ;;
  instParsed <- lift (JSON_parse host instJSON) ;;
  instJSONCopy <- call ClassFn "fromJS" [instParsed; context options] ;;
  eqJSONCopy <- call inst "equals" [instJSONCopy] ;;
  expect_equal eqJSONCopy ("JS Copy does not equal original " +:+ where_) (VBool true) ;;;
  copyJS <- call instJSONCopy "toJS" [] ;;
  instJS <- call inst "toJS" [] ;;
  expect_deep_equal copyJS
    (className +:+ ".fromJS(JSON.parse(JSON.stringify(" +:+ instanceName
     +:+ "))).toJS() returned something bad " +:+ where_)
    instJS.

(** Lines 386-390: the body of the inner loop over [k]. *)
Definition check_pair (j : nat) (objectJ : value) (k : nat) : M unit :=
  objectK <- call ClassFn "fromJS" [objects_at k; context options] ;;
  eqJK <- call objectJ "equals" [objectK] ;;
  expect_equal eqJK
    ("Equality of objects " +:+ show_nat j +:+ " and " +:+ show_nat k +:+ " was wrong")
    (VBool (Nat.eqb j k)).

(** Lines 384-391: the body of the outer loop over [j]. *)
Definition check_equalities (j : nat) : M unit :=
  objectJ <- call ClassFn "fromJS" [objects_at j; context options] ;;
  for_range j (length samples) (check_pair j objectJ).
End Run.

(** Lines 271-280: the arguments; yields the samples and the class name. *)
Definition check_arguments (ClassFn objects : value) : M (list value * string) :=
  is_fn <- read (fun w => is_function (w_heap w) ClassFn) ;;
  if negb is_fn then throw (JsError TypeError "ClassFn must be a constructor function")
  else
    elems <- read (fun w => array_elems (w_heap w) objects) ;;
    match elems with
    | None | Some [] =>
        throw (JsError TypeError "objects must be a non-empty array of js to test")
    | Some samples =>
        className <- read (fun w => function_name (w_heap w) ClassFn) ;;
        if (String.length className <? 1)%nat
        then throw (JsError PlainError "Class must have a name of at least 1 letter")
        else ret (samples, className)
    end.

Definition testImmutableClass (ClassFn objects : value) (options : TesterOptions)
  : M unit :=
  accepted <- check_arguments ClassFn objects ;;
  let '(samples, className) := accepted in
  check_methods ClassFn samples options className ;;;
  check_properties ClassFn ;;;
  (* Preserves *)
  for_range 0 (length samples) (check_sample ClassFn samples options className) ;;;
  (* Objects are equal only to themselves *)
  for_range 0 (length samples) (check_equalities ClassFn samples options).
End Checker.

(** * A reference host

    [JSON.stringify], [JSON.parse], chai's deep equality and chai's display of
    values, for undefined, null, booleans, integers, text, arrays, plain
    objects, instances and functions. *)

Fixpoint join (sep : string) (parts : list string) : string :=
  match parts with
  | [] => ""
  | [x] => x
  | x :: rest => x +:+ sep +:+ join sep rest
  end.

Definition dquote : ascii := ascii_of_nat 34.
Definition squote : ascii := ascii_of_nat 39.
Definition backslash : ascii := ascii_of_nat 92.

Definition hex_digit (n : nat) : ascii :=
  if (n <? 10)%nat then ascii_of_nat (48 + n) else ascii_of_nat (87 + n).

(** The escape that JSON text uses for the character [c], if it needs one. *)
Definition json_escape (c : ascii) : option string :=
  let n := nat_of_ascii c in
  if Ascii.eqb c dquote then Some (String backslash (String dquote ""))
  else if Ascii.eqb c backslash then Some (String backslash (String backslash ""))
  else if Nat.eqb n 8 then Some (String backslash "b")
  else if Nat.eqb n 9 then Some (String backslash "t")
  else if Nat.eqb n 10 then Some (String backslash "n")
  else if Nat.eqb n 12 then Some (String backslash "f")
  else if Nat.eqb n 13 then Some (String backslash "r")
  else if (n <? 32)%nat then
    Some (String backslash ("u00" +:+ String (hex_digit (n / 16)) (String (hex_digit (n mod 16)) "")))
  else None.

Fixpoint json_escape_all (s : string) : string :=
  match s with
  | EmptyString => ""
  | String c rest =>
      match json_escape c with
      | Some e => e +:+ json_escape_all rest
      | None => String c (json_escape_all rest)
      end
  end.

Definition json_quote (s : string) : string :=
  String dquote (json_escape_all s +:+ String dquote "").

(** ** JSON text *)

Inductive json : Type :=
| JNull
| JBool (b : bool)
| JNum (n : Z)
| JStr (s : string)
| JArr (items : list json)
| JObj (members : list (string * json)).

Fixpoint json_text (j : json) : string :=
  match j with
  | JNull => "null"
  | JBool true => "true"
  | JBool false => "false"
  | JNum n => show_Z n
  | JStr s => json_quote s
  | JArr items => "[" +:+ join "," (List.map json_text items) +:+ "]"
  | JObj members =>
      "{" +:+ join "," (List.map (fun kv => json_quote (fst kv) +:+ ":" +:+ json_text (snd kv))
                                 members) +:+ "}"
  end.

(** How deep the engine lets calls nest. *)
Definition stack_limit : nat := 1000.

Section Stringify.
Variable code : code_table.

(** SerializeJSONProperty: [toJSON] of an object is called first; arrays
    and objects are walked with the stack of the objects being written, a
    repetition being a cycle; functions and [undefined] have no JSON. *)
Fixpoint serialize (fuel : nat) (stack : list loc) (key : string) (v : value)
  : ST heap (option json) :=
  match fuel with
  | O => throw (JsError RangeError "Maximum call stack size exceeded")
  | S fuel' =>
      v <- (if is_ref v then
              toJSON <- get v "toJSON" ;;
              callable <- read (fun h => is_function h toJSON) ;;
              if callable : bool then invoke code toJSON v [VStr key] "toJSON" else ret v
            else ret v) ;;
      match v with
      | VUndefined => ret None
      | VNull => ret (Some JNull)
      | VBool b => ret (Some (JBool b))
      | VNum n => ret (Some (JNum n))
      | VStr s => ret (Some (JStr s))
      | VRef l =>
          o <- read (fun h : heap => h !! l) ;;
          match o with
          | None => ret None
          | Some o =>
              match o_kind o with
              | KFunction _ _ => ret None
              | KArray elems =>
                  if existsb (Nat.eqb l) stack
                  then throw (JsError TypeError "Converting circular structure to JSON")
                  else
                    items <- (fix walk (keys : list string) : ST heap (list json) :=
                                match keys with
                                | [] => ret []
                                | k :: rest =>
                                    x <- get v k ;;
                                    r <- serialize fuel' (l :: stack) k x ;;
                                    more <- walk rest ;;
                                    ret (default JNull r :: more)
                                end) (show_nat <$> seq 0 (length elems)) ;;
                    ret (Some (JArr items))
              | KObject =>
                  if existsb (Nat.eqb l) stack
                  then throw (JsError TypeError "Converting circular structure to JSON")
                  else
                    members <- (fix walk (keys : list string)
                                  : ST heap (list (string * json)) :=
                                  match keys with
                                  | [] => ret []
                                  | k :: rest =>
                                      x <- get v k ;;
                                      r <- serialize fuel' (l :: stack) k x ;;
                                      more <- walk rest ;;
                                      ret (match r with
                                           | Some j => (k, j) :: more
                                           | None => more
                                           end)
                                  end) (own_enumerable_keys o) ;;
                    ret (Some (JObj members))
              end
          end
      end
  end.

Definition ref_stringify (v : value) : ST heap value :=
  r <- serialize stack_limit [] "" v ;;
  ret (match r with Some j => VStr (json_text j) | None => VUndefined end).
End Stringify.

(** ** Reading JSON text *)

Definition is_ws (c : ascii) : bool :=
  let n := nat_of_ascii c in
  Nat.eqb n 32 || Nat.eqb n 9 || Nat.eqb n 10 || Nat.eqb n 13.

Fixpoint skip_ws (s : string) : string :=
  match s with
  | String c rest => if is_ws c then skip_ws rest else s
  | EmptyString => s
  end.

Definition digit_of (c : ascii) : option nat :=
  let n := nat_of_ascii c in
  if (48 <=? n) && (n <=? 57) then Some (n - 48) else None.

Definition hex_of (c : ascii) : option nat :=
  let n := nat_of_ascii c in
  if (48 <=? n) && (n <=? 57) then Some (n - 48)
  else if (97 <=? n) && (n <=? 102) then Some (n - 87)
  else if (65 <=? n) && (n <=? 70) then Some (n - 55)
  else None.

(** The character that a one-letter escape stands for. *)
Definition unescape (c : ascii) : option ascii :=
  if Ascii.eqb c dquote then Some dquote
  else if Ascii.eqb c backslash then Some backslash
  else if Ascii.eqb c "/" then Some "/"%char
  else if Ascii.eqb c "b" then Some (ascii_of_nat 8)
  else if Ascii.eqb c "t" then Some (ascii_of_nat 9)
  else if Ascii.eqb c "n" then Some (ascii_of_nat 10)
  else if Ascii.eqb c "f" then Some (ascii_of_nat 12)
  else if Ascii.eqb c "r" then Some (ascii_of_nat 13)
  else None.

(** The characters of a string literal after its opening quote, and what
    follows the closing quote. Escapes above one byte are not read. *)
Fixpoint parse_chars (s : string) : option (string * string) :=
  match s with
  | EmptyString => None
  | String c rest =>
      if Ascii.eqb c dquote then Some ("", rest)
      else if Ascii.eqb c backslash then
        match rest with
        | String e rest' =>
            match unescape e with
            | Some c' =>
                match parse_chars rest' with
                | Some (body, after) => Some (String c' body, after)
                | None => None
                end
            | None =>
                match rest' with
                | String a (String b (String x (String y rest'')))  =>
                    match Ascii.eqb e "u", hex_of a, hex_of b, hex_of x, hex_of y with
                    | true, Some 0%nat, Some 0%nat, Some hi, Some lo =>
                        match parse_chars rest'' with
                        | Some (body, after) =>
                            Some (String (ascii_of_nat (16 * hi + lo)) body, after)
                        | None => None
                        end
                    | _, _, _, _, _ => None
                    end
                | _ => None
                end
            end
        | EmptyString => None
        end
      else if (nat_of_ascii c <? 32)%nat then None
      else
        match parse_chars rest with
        | Some (body, after) => Some (String c body, after)
        | None => None
        end
  end.

Fixpoint parse_digits (acc : nat) (s : string) : nat * string :=
  match s with
  | String c rest =>
      match digit_of c with
      | Some d => parse_digits (10 * acc + d) rest
      | None => (acc, s)
      end
  | EmptyString => (acc, s)
  end.

Definition starts_with_digit (s : string) : bool :=
  match s with
  | String c _ => match digit_of c with Some _ => true | None => false end
  | EmptyString => false
  end.

(** An integer; a fraction or an exponent is not read. *)
Definition parse_number (s : string) : option (Z * string) :=
  let '(negative, s') :=
    match s with
    | String c rest => if Ascii.eqb c "-" then (true, rest) else (false, s)
    | EmptyString => (false, s)
    end in
  if starts_with_digit s' then
    let '(n, after) := parse_digits 0 s' in
    match after with
    | String c _ =>
        if Ascii.eqb c "." || Ascii.eqb c "e" || Ascii.eqb c "E" then None
        else Some (if negative : bool then (- Z.of_nat n)%Z else Z.of_nat n, after)
    | EmptyString => Some (if negative : bool then (- Z.of_nat n)%Z else Z.of_nat n, after)
    end
  else None.

Fixpoint strip_prefix (word s : string) : option string :=
  match word, s with
  | EmptyString, _ => Some s
  | String a word', String b s' => if Ascii.eqb a b then strip_prefix word' s' else None
  | String _ _, EmptyString => None
  end.

Fixpoint parse_value (fuel : nat) (s : string) {struct fuel} : option (json * string) :=
  match fuel with
  | O => None
  | S fuel' =>
      match skip_ws s with
      | EmptyString => None
      | String c rest =>
          if Ascii.eqb c "n" then (fun r => (JNull, r)) <$> strip_prefix "ull" rest
          else if Ascii.eqb c "t" then (fun r => (JBool true, r)) <$> strip_prefix "rue" rest
          else if Ascii.eqb c "f" then (fun r => (JBool false, r)) <$> strip_prefix "alse" rest
          else if Ascii.eqb c dquote then
            (fun br => (JStr (fst br), snd br)) <$> parse_chars rest
          else if Ascii.eqb c "[" then
            match skip_ws rest with
            | String c' rest' =>
                if Ascii.eqb c' "]" then Some (JArr [], rest')
                else (fun ir => (JArr (fst ir), snd ir)) <$> parse_elements fuel' rest
            | EmptyString => None
            end
          else if Ascii.eqb c "{" then
            match skip_ws rest with
            | String c' rest' =>
                if Ascii.eqb c' "}" then Some (JObj [], rest')
                else (fun mr => (JObj (fst mr), snd mr)) <$> parse_members fuel' rest
            | EmptyString => None
            end
          else (fun nr => (JNum (fst nr), snd nr)) <$> parse_number (String c rest)
      end
  end
with parse_elements (fuel : nat) (s : string) {struct fuel} : option (list json * string) :=
  match fuel with
  | O => None
  | S fuel' =>
      match parse_value fuel' s with
      | Some (item, after) =>
          match skip_ws after with
          | String c rest =>
              if Ascii.eqb c "," then
                (fun ir => (item :: fst ir, snd ir)) <$> parse_elements fuel' rest
              else if Ascii.eqb c "]" then Some ([item], rest)
              else None
          | EmptyString => None
          end
      | None => None
      end
  end
with parse_members (fuel : nat) (s : string) {struct fuel}
  : option (list (string * json) * string) :=
  match fuel with
  | O => None
  | S fuel' =>
      match skip_ws s with
      | String q rest =>
          if Ascii.eqb q dquote then
            match parse_chars rest with
            | Some (key, after_key) =>
                match skip_ws after_key with
                | String colon after_colon =>
                    if Ascii.eqb colon ":" then
                      match parse_value fuel' after_colon with
                      | Some (item, after) =>
                          match skip_ws after with
                          | String c rest' =>
                              if Ascii.eqb c "," then
                                (fun mr => ((key, item) :: fst mr, snd mr))
                                  <$> parse_members fuel' rest'
                              else if Ascii.eqb c "}" then Some ([(key, item)], rest')
                              else None
                          | EmptyString => None
                          end
                      | None => None
                      end
                    else None
                | EmptyString => None
                end
            | None => None
            end
          else None
      | EmptyString => None
      end
  end.

(** The whole text as one JSON value. *)
Definition parse_json (text : string) : option json :=
  match parse_value (2 * String.length text + 2) text with
  | Some (j, rest) =>
      match skip_ws rest with
      | EmptyString => Some j
      | String _ _ => None
      end
  | None => None
  end.

(** The objects and arrays of a JSON value, allocated afresh. *)
Fixpoint revive (j : json) : ST heap value :=
  match j with
  | JNull => ret VNull
  | JBool b => ret (VBool b)
  | JNum n => ret (VNum n)
  | JStr s => ret (VStr s)
  | JArr items =>
      elems <- (fix walk (l : list json) : ST heap (list value) :=
                  match l with
                  | [] => ret []
                  | x :: rest => v <- revive x ;; more <- walk rest ;; ret (v :: more)
                  end) items ;;
      alloc (array_literal elems)
  | JObj members =>
      props <- (fix walk (l : list (string * json)) (acc : list (string * prop))
                  : ST heap (list (string * prop)) :=
                  match l with
                  | [] => ret acc
                  | (k, x) :: rest => v <- revive x ;; walk rest (update_prop k v acc)
                  end) members [] ;;
      alloc (mk_object KObject (VRef Object_prototype) props)
  end.

Definition ref_parse (text : value) : ST heap value :=
  match text with
  | VStr s =>
      match parse_json s with
      | Some j => revive j
      | None => throw (JsError SyntaxError "Unexpected token in JSON")
      end
  | _ => throw (JsError SyntaxError "Unexpected token in JSON")
  end.

(** ** chai's deep equality *)

(** Equal primitives and identical references are equal; two arrays, or two
    objects that are not functions, are equal when [for-in] gives them the
    same keys with equal values. The fuel bounds the nesting: values that
    contain themselves compare unequal. *)
Fixpoint deep_eql_upto (fuel : nat) (h : heap) (a b : value) : bool :=
  strict_equal a b
  || match fuel with
     | O => false
     | S fuel' =>
         match a, b with
         | VRef la, VRef lb =>
             match h !! la, h !! lb with
             | Some oa, Some ob =>
                 match o_kind oa, o_kind ob with
                 | KArray _, KArray _ | KObject, KObject =>
                     let ka := for_in_keys h a in
                     let kb := for_in_keys h b in
                     Nat.eqb (length ka) (length kb)
                     && forallb (fun k =>
                          mem k kb
                          && deep_eql_upto fuel' h
                               (lookup_chain (chain_fuel h) h a k)
                               (lookup_chain (chain_fuel h) h b k)) ka
                 | _, _ => false
                 end
             | _, _ => false
             end
         | _, _ => false
         end
     end.

Definition ref_deep_eql (h : heap) (a b : value) : bool :=
  deep_eql_upto (S (length h)) h a b.

(** ** chai's display of values *)

Definition is_letter (c : ascii) : bool :=
  let n := nat_of_ascii c in
  ((65 <=? n) && (n <=? 90)) || ((97 <=? n) && (n <=? 122)) || Nat.eqb n 95.

Definition is_letter_or_digit (c : ascii) : bool :=
  is_letter c || match digit_of c with Some _ => true | None => false end.

Fixpoint all_chars (p : ascii -> bool) (s : string) : bool :=
  match s with
  | EmptyString => true
  | String c rest => p c && all_chars p rest
  end.

Definition is_identifier (k : string) : bool :=
  match k with
  | EmptyString => false
  | String c rest => is_letter c && all_chars is_letter_or_digit rest
  end.

Fixpoint display_chars (s : string) : string :=
  match s with
  | EmptyString => ""
  | String c rest =>
      if Ascii.eqb c squote then String backslash (String squote (display_chars rest))
      else if Ascii.eqb c dquote then String dquote (display_chars rest)
      else match json_escape c with
           | Some e => e +:+ display_chars rest
           | None => String c (display_chars rest)
           end
  end.

Definition display_string (s : string) : string :=
  String squote (display_chars s +:+ String squote "").

Definition function_label (name : string) : string :=
  if String.eqb name "" then "[Function]" else "[Function: " +:+ name +:+ "]".

(** chai's [inspect]: [depth] more levels of objects are shown. *)
Fixpoint display_value (depth : nat) (seen : list loc) (h : heap) (v : value) : string :=
  match v with
  | VUndefined => "undefined"
  | VNull => "null"
  | VBool true => "true"
  | VBool false => "false"
  | VNum n => show_Z n
  | VStr s => display_string s
  | VRef l =>
      match h !! l with
      | None => "{}"
      | Some o =>
          let count := match o_kind o with KArray elems => length elems | _ => O end in
          let keys := for_in_keys h v in
          let named := drop count keys in
          let base := match o_kind o with
                      | KFunction name _ => function_label name
                      | _ => ""
                      end in
          let opening := match o_kind o with KArray _ => "[" | _ => "{" end in
          let closing := match o_kind o with KArray _ => "]" | _ => "}" end in
          match keys, o_kind o with
          | [], KFunction _ _ => base
          | [], _ => opening +:+ closing
          | _ :: _, _ =>
              match depth with
              | O => "[Object]"
              | S depth' =>
                  let show key :=
                    let x := lookup_chain (chain_fuel h) h v key in
                    match x with
                    | VRef l' =>
                        if existsb (Nat.eqb l') (l :: seen) then "[Circular]"
                        else display_value depth' (l :: seen) h x
                    | _ => display_value depth' (l :: seen) h x
                    end in
                  let field key :=
                    (if is_identifier key then key else display_string key)
                    +:+ ": " +:+ show key in
                  opening
                  +:+ (if String.eqb base "" then "" else " " +:+ base)
                  +:+ " "
                  +:+ join ", " (List.map show (take count keys) ++ List.map field named)
                  +:+ " " +:+ closing
              end
          end
      end
  end.

(** chai's [objDisplay]: what a message shows, long arrays and objects cut. *)
Definition ref_inspect (h : heap) (v : value) : string :=
  let str := display_value 3 [] h v in
  if (String.length str <? 40)%nat then str
  else
    match v with
    | VRef l =>
        match h !! l with
        | Some o =>
            match o_kind o with
            | KFunction name _ => function_label name
            | KArray elems => "[ Array(" +:+ show_nat (length elems) +:+ ") ]"
            | KObject =>
                let keys := own_enumerable_keys o in
                "{ Object ("
                +:+ (if (2 <? length keys)%nat then join ", " (take 2 keys) +:+ ", ..."
                     else join ", " keys)
                +:+ ") }"
            end
        | None => str
        end
    | _ => str
    end.

Definition ref_host (code : code_table) : Host :=
  mk_host (ref_stringify code) ref_parse ref_deep_eql ref_inspect.

(** * The realm and the classes of index.mocha.ts *)

Definition hidden (v : value) : prop := mk_prop v false.

(** [Object.defineProperty(target, key, p)] on an ordinary object *)
Definition define_prop (target : value) (key : string) (p : prop) : ST heap unit :=
  fun h =>
    match target with
    | VRef l =>
        match h !! l with
        | Some o =>
            (Ok tt, <[l := mk_object (o_kind o) (o_proto o)
                              (filter (fun kp => negb (String.eqb (fst kp) key)) (o_props o)
                               ++ [(key, p)])]> h)
        | None => (Ok tt, h)
        end
    | _ => (Ok tt, h)
    end.

Definition function_object (name : string) (body : fid) : object :=
  mk_object (KFunction name body) (VRef Function_prototype) [].

(** The well-known prototypes with the methods that the checker looks at. *)
Definition realm : heap :=
  [ (* 0 *) mk_object KObject VNull
              [("valueOf", hidden (VRef 6)); ("toString", hidden (VRef 7))];
    (* 1 *) mk_object (KFunction "" "Function.prototype") (VRef Object_prototype) [];
    (* 2 *) mk_object (KArray []) (VRef Object_prototype) [];
    (* 3 *) mk_object KObject (VRef Object_prototype)
              [("valueOf", hidden (VRef 8)); ("toString", hidden (VRef 8))];
    (* 4 *) mk_object KObject (VRef Object_prototype)
              [("valueOf", hidden (VRef 8)); ("toString", hidden (VRef 9))];
    (* 5 *) mk_object KObject (VRef Object_prototype)
              [("valueOf", hidden (VRef 8)); ("toString", hidden (VRef 9))];
    (* 6 *) function_object "valueOf" "Object.prototype.valueOf";
    (* 7 *) function_object "toString" "Object.prototype.toString";
    (* 8 *) function_object "valueOf" "primitive.valueOf";
    (* 9 *) function_object "toString" "primitive.toString" ].

Definition to_text (v : value) : string :=
  match v with
  | VUndefined => "undefined"
  | VNull => "null"
  | VBool true => "true"
  | VBool false => "false"
  | VNum n => show_Z n
  | VStr s => s
  | VRef _ => "[object Object]"
  end.

(** The bodies of the functions of the realm. *)
Definition realm_code : list (fid * (value -> list value -> ST heap value)) :=
  [ ("Function.prototype", fun _ _ => ret VUndefined);
    ("Object.prototype.valueOf", fun this _ => ret this);
    ("Object.prototype.toString", fun this _ =>
       array <- read (fun h => Array_isArray h this) ;;
       ret (VStr (if array : bool then "[object Array]" else "[object Object]")));
    ("primitive.valueOf", fun this _ => ret this);
    ("primitive.toString", fun this _ => ret (VStr (to_text this))) ].

(** A code table from a list of named bodies. *)
Definition table (bodies : list (fid * (value -> list value -> ST heap value)))
  : code_table :=
  fun body this args =>
    match assoc body bodies with
    | Some f => f this args
    | None => throw (JsError PlainError ("no body for " +:+ body))
    end.

(** [class name { constructor...; static ...; methods... }]: the prototype
    object, the constructor function and one function object per member;
    the body of member [m] has the identifier [name.m]. *)
Definition define_class (name : string) (statics methods : list string) : ST heap value :=
  proto <- alloc (mk_object KObject (VRef Object_prototype) []) ;;
  C <- alloc (mk_object (KFunction name name) (VRef Function_prototype)
                        [("prototype", hidden proto)]) ;;
  define_prop proto "constructor" (hidden C) ;;;
  for_each methods (fun m =>
    f <- alloc (function_object m (name +:+ "." +:+ m)) ;;
    define_prop proto m (hidden f)) ;;;
  for_each statics (fun m =>
    f <- alloc (function_object m (name +:+ "." +:+ m)) ;;
    define_prop C m (hidden f)) ;;;
  ret C.

(** [new C(...)] inside a body of the code table, the constructor body given. *)
Definition instantiate (C : value) (init : value -> ST heap value) : ST heap value :=
  proto <- get C "prototype" ;;
  this <- alloc (mk_object KObject
                   (if is_ref proto then proto else VRef Object_prototype) []) ;;
  r <- init this ;;
  ret (if is_ref r then r else this).

Definition arg (n : nat) (args : list value) : value := nth n args VUndefined.

(** ToPropertyKey *)
Definition to_key (v : value) : string := to_text v.

(** [isInstanceOf(thing, constructor)] (index.mocha.ts, lines 22-34) *)
Fixpoint same_name_upchain (fuel : nat) (thingProto : value) (constructorName : string)
  : ST heap bool :=
  match fuel with
  | O => ret false
  | S fuel' =>
      if truthy thingProto then
        ctor <- get thingProto "constructor" ;;
        if truthy ctor then
          name <- get ctor "name" ;;
          if strict_equal name (VStr constructorName) then ret true
          else
            next <- get thingProto "__proto__" ;;
            same_name_upchain fuel' next constructorName
        else ret false
      else ret false
  end.

Definition isInstanceOf (thing constructor : value) : ST heap bool :=
  is_fn <- read (fun h => is_function h constructor) ;;
  if negb is_fn then throw (JsError TypeError "constructor must be a function")
  else
    direct <- instanceof thing constructor ;;
    if direct : bool then ret true
    else if bool_decide (thing = VNull) || bool_decide (thing = VUndefined) then ret false
    else
      constructorName <- read (fun h => function_name h constructor) ;;
      if String.eqb constructorName "" then ret false
      else
        thingProto <- get thing "__proto__" ;;
        fuel <- read chain_fuel ;;
        same_name_upchain fuel thingProto constructorName.

(** [name.replace(/^#/, '')] *)
Definition strip_hash (name : value) : ST heap value :=
  match name with
  | VStr (String c rest) => ret (VStr (if Ascii.eqb c "#" then rest else String c rest))
  | VStr EmptyString => ret name
  | VUndefined | VNull => throw (JsError TypeError "Cannot read property 'replace' of undefined")
  | _ => throw (JsError TypeError "name.replace is not a function")
  end.

(** [this.name = name] (the constructors of the three Animal classes) *)
Definition name_constructor (this : value) (args : list value) : ST heap value :=
  set this "name" (arg 0 args) ;;;
  ret VUndefined.

(** [isX(other) && this.name === other.name] *)
Definition equals_by_name (C this other : value) : ST heap value :=
  same_class <- isInstanceOf other C ;;
  if same_class : bool then
    mine <- get this "name" ;;
    theirs <- get other "name" ;;
    ret (VBool (strict_equal mine theirs))
  else ret (VBool false).

(** The heap after the four class declarations of index.mocha.ts. *)
Definition declare_test_classes : ST heap (list value) :=
  Animal <- define_class "Animal" ["fromJS"; "isAnimal"]
              ["toString"; "valueOf"; "toJS"; "toJSON"; "equals"] ;;
  AnimalNoFromJS <- define_class "AnimalNoFromJS" ["isAnimalNoFromJS"] [] ;;
  AnimalBadToJS <- define_class "AnimalBadToJS" ["fromJS"; "isAnimalBadToJS"]
                     ["toString"; "valueOf"; "toJS"; "toJSON"; "equals"] ;;
  AnimalWithContext <- define_class "AnimalWithContext" ["fromJS"; "isAnimalWithContext"]
                         ["toString"; "valueOf"; "toJS"; "toJSON"; "equals"] ;;
  ret [Animal; AnimalNoFromJS; AnimalBadToJS; AnimalWithContext].

Definition test_heap : heap := snd (declare_test_classes realm).

Definition Animal : value := VRef 11.
Definition AnimalNoFromJS : value := VRef 20.
Definition AnimalBadToJS : value := VRef 23.
Definition AnimalWithContext : value := VRef 32.

Definition this_name (this : value) (_ : list value) : ST heap value := get this "name".

Definition test_bodies : list (fid * (value -> list value -> ST heap value)) :=
  realm_code ++
  [ (* class Animal *)
    ("Animal", name_constructor);
    ("Animal.fromJS", fun _ args =>
       name <- strip_hash (arg 0 args) ;;
       instantiate Animal (fun this => name_constructor this [name]));
    ("Animal.isAnimal", fun _ args => b <- isInstanceOf (arg 0 args) Animal ;; ret (VBool b));
    ("Animal.toString", this_name);
    ("Animal.valueOf", this_name);
    ("Animal.toJS", this_name);
    ("Animal.toJSON", this_name);
    ("Animal.equals", fun this args => equals_by_name Animal this (arg 0 args));
    (* class AnimalNoFromJS *)
    ("AnimalNoFromJS", name_constructor);
    ("AnimalNoFromJS.isAnimalNoFromJS", fun _ args =>
       b <- isInstanceOf (arg 0 args) AnimalNoFromJS ;; ret (VBool b));
    (* class AnimalBadToJS *)
    ("AnimalBadToJS", name_constructor);
    ("AnimalBadToJS.fromJS", fun _ args =>
       instantiate AnimalBadToJS (fun this => name_constructor this [arg 0 args]));
    ("AnimalBadToJS.isAnimalBadToJS", fun _ args =>
       b <- isInstanceOf (arg 0 args) AnimalBadToJS ;; ret (VBool b));
    ("AnimalBadToJS.toString", this_name);
    ("AnimalBadToJS.valueOf", this_name);
    ("AnimalBadToJS.toJS", fun this _ =>
       name <- get this "name" ;; ret (VStr ("Bad " +:+ to_text name)));
    ("AnimalBadToJS.toJSON", this_name);
    ("AnimalBadToJS.equals", fun this args => equals_by_name AnimalBadToJS this (arg 0 args));
    (* class AnimalWithContext *)
    ("AnimalWithContext", fun this args =>
       n <- get (arg 0 args) "n" ;;
       set this "name" n ;;;
       w <- get (arg 0 args) "w" ;;
       set this "weight" w ;;;
       ret VUndefined);
    ("AnimalWithContext.fromJS", fun _ args =>
       let name := arg 0 args in
       w <- get (arg 1 args) (to_key name) ;;
       if negb (truthy w) then throw (JsError PlainError "unknown animal (it has no weight)")
       else
         p <- alloc (object_literal [("n", name); ("w", w)]) ;;
         instantiate AnimalWithContext (fun this =>
           n <- get p "n" ;;
           set this "name" n ;;;
           w <- get p "w" ;;
           set this "weight" w ;;;
           ret VUndefined));
    ("AnimalWithContext.isAnimalWithContext", fun _ args =>
       b <- isInstanceOf (arg 0 args) AnimalWithContext ;; ret (VBool b));
    ("AnimalWithContext.toString", this_name);
    ("AnimalWithContext.valueOf", fun this _ =>
       name <- get this "name" ;; alloc (object_literal [("n", name)]));
    ("AnimalWithContext.toJS", this_name);
    ("AnimalWithContext.toJSON", this_name);
    ("AnimalWithContext.equals", fun this args =>
       equals_by_name AnimalWithContext this (arg 0 args)) ].

Definition test_code : code_table := table test_bodies.

(** The start of a call [testImmutableClass(C, [samples...], options)] in
    heap [h]: the array literal is allocated at address [length h]. *)
Definition start (h : heap) (samples : list value) : world :=
  mk_world (h ++ [array_literal samples]) [].

Definition run_checker (code : code_table) (h : heap) (C : value) (samples : list value)
  (options : TesterOptions) : outcome unit * world :=
  testImmutableClass code (ref_host code) C (VRef (length h)) options (start h samples).

Definition verdict (r : outcome unit * world) : outcome unit := fst r.

(** * Further classes

    [Visitor.fromJS] counts its visits in its argument; [Sneaky.fromJS] does
    so from its fourth call on; [Maybe] wraps a value that may be missing;
    the constructor of [Guarded] refuses callers other than [fromJS]. *)

Definition standard_methods : list string :=
  ["toString"; "valueOf"; "toJS"; "toJSON"; "equals"].

Definition declare_example_classes : ST heap (list value) :=
  Visitor <- define_class "Visitor" ["fromJS"] standard_methods ;;
  Sneaky <- define_class "Sneaky" ["fromJS"] standard_methods ;;
  set Sneaky "calls" (VNum 0) ;;;
  Maybe <- define_class "Maybe" ["fromJS"] standard_methods ;;
  Guarded <- define_class "Guarded" ["fromJS"] standard_methods ;;
  token <- alloc (object_literal []) ;;
  set Guarded "token" token ;;;
  ret [Visitor; Sneaky; Maybe; Guarded].

Definition example_heap : heap := snd (declare_example_classes test_heap).

Definition Visitor : value := VRef 41.
Definition Sneaky : value := VRef 49.
Definition Maybe : value := VRef 57.
Definition Guarded : value := VRef 65.

(** [js.visits = (js.visits || 0) + 1] *)
Definition count_visit (js : value) : ST heap unit :=
  visits <- get js "visits" ;;
  match (if truthy visits then visits else VNum 0) with
  | VNum n => set js "visits" (VNum (n + 1))
  | other => set js "visits" (VStr (to_text other +:+ "1"))
  end.

(** [{ name: this.name }] *)
Definition name_record (this : value) (_ : list value) : ST heap value :=
  name <- get this "name" ;;
  alloc (object_literal [("name", name)]).

Definition example_bodies : list (fid * (value -> list value -> ST heap value)) :=
  test_bodies ++
  [ (* class Visitor *)
    ("Visitor", name_constructor);
    ("Visitor.fromJS", fun _ args =>
       let js := arg 0 args in
       count_visit js ;;;
       name <- get js "name" ;;
       instantiate Visitor (fun this => name_constructor this [name]));
    ("Visitor.toString", fun this _ => name <- get this "name" ;; ret (VStr (to_text name)));
    ("Visitor.valueOf", this_name);
    ("Visitor.toJS", name_record);
    ("Visitor.toJSON", name_record);
    ("Visitor.equals", fun this args => equals_by_name Visitor this (arg 0 args));
    (* class Sneaky *)
    ("Sneaky", name_constructor);
    ("Sneaky.fromJS", fun _ args =>
       let js := arg 0 args in
       calls <- get Sneaky "calls" ;;
       let calls' := match calls with VNum n => (n + 1)%Z | _ => 1%Z end in
       set Sneaky "calls" (VNum calls') ;;;
       (if (3 <? calls')%Z then count_visit js else ret tt) ;;;
       name <- get js "name" ;;
       instantiate Sneaky (fun this => name_constructor this [name]));
    ("Sneaky.toString", fun this _ => name <- get this "name" ;; ret (VStr (to_text name)));
    ("Sneaky.valueOf", this_name);
    ("Sneaky.toJS", name_record);
    ("Sneaky.toJSON", name_record);
    ("Sneaky.equals", fun this args => equals_by_name Sneaky this (arg 0 args));
    (* class Maybe *)
    ("Maybe", fun this args => set this "v" (arg 0 args) ;;; ret VUndefined);
    ("Maybe.fromJS", fun _ args =>
       v <- get (arg 0 args) "v" ;;
       instantiate Maybe (fun this => set this "v" v ;;; ret VUndefined));
    ("Maybe.toString", fun this _ => v <- get this "v" ;; ret (VStr (to_text v)));
    ("Maybe.valueOf", fun this _ => get this "v");
    ("Maybe.toJS", fun this _ => v <- get this "v" ;; alloc (object_literal [("v", v)]));
    ("Maybe.toJSON", fun this _ => v <- get this "v" ;; alloc (object_literal [("v", v)]));
    ("Maybe.equals", fun this args =>
       same_class <- instanceof (arg 0 args) Maybe ;;
       if same_class : bool then
         mine <- get this "v" ;;
         theirs <- get (arg 0 args) "v" ;;
         ret (VBool (strict_equal mine theirs))
       else ret (VBool false));
    (* class Guarded *)
    ("Guarded", fun this args =>
       token <- get Guarded "token" ;;
       if strict_equal (arg 1 args) token then set this "name" (arg 0 args) ;;; ret VUndefined
       else throw (JsError TypeError "can not call `new Guarded` directly use Guarded.fromJS"));
    ("Guarded.fromJS", fun _ args =>
       token <- get Guarded "token" ;;
       instantiate Guarded (fun this => set this "name" (arg 0 args) ;;; ret VUndefined));
    ("Guarded.toString", this_name);
    ("Guarded.valueOf", this_name);
    ("Guarded.toJS", this_name);
    ("Guarded.toJSON", this_name);
    ("Guarded.equals", fun this args => equals_by_name Guarded this (arg 0 args)) ].

Definition example_code : code_table := table example_bodies.

(** [Animal.PROPERTIES = [{}]] *)
Definition heap_with_empty_descriptor : heap :=
  snd ((descriptor <- alloc (object_literal []) ;;
        PROPERTIES <- alloc (array_literal [descriptor]) ;;
        set Animal "PROPERTIES" PROPERTIES) test_heap).

(** [Animal.PROPERTIES = [{ name: 'name' }]] and [[{ title: 'name' }]] *)
Definition heap_with_descriptor (key : string) : heap :=
  snd ((descriptor <- alloc (object_literal [(key, VStr "name")]) ;;
        PROPERTIES <- alloc (array_literal [descriptor]) ;;
        set Animal "PROPERTIES" PROPERTIES) test_heap).

(** The heap [h] with one more object, a sample [{ k1: v1, ... }], at address
    [length h]. *)
Definition with_sample (fields : list (string * value)) (h : heap) : heap :=
  h ++ [object_literal fields].

(** Whether [s] contains [needle]. *)
Fixpoint starts_with (needle s : string) : bool :=
  match needle, s with
  | EmptyString, _ => true
  | String a needle', String b s' => Ascii.eqb a b && starts_with needle' s'
  | String _ _, EmptyString => false
  end.

Fixpoint contains (needle s : string) : bool :=
  starts_with needle s
  || match s with
     | EmptyString => false
     | String _ s' => contains needle s'
     end.

(** The message of what was thrown. *)
Definition message_of (r : outcome unit) : string :=
  match r with
  | Throw (JsError _ m) => m
  | _ => ""
  end.

(** * How far a run gets

    The hypotheses of the theorems about failures: everything before the
    assertion in question has passed. *)

Section Progress.
Variable code : code_table.
Variable host : Host.
Variable ClassFn : value.
Variable objects : value.
Variable options : TesterOptions.

(** The arguments are accepted and the checks of the methods and of the
    property descriptors pass: the run is about to enter the loop over the
    samples, in state [w]. *)
Definition reaches_samples (w0 : world) (samples : list value) (className : string)
  (w : world) : Prop :=
  check_arguments ClassFn objects w0 = (Ok (samples, className), w0)
  /\ exists w1,
       check_methods code host ClassFn samples options className w0 = (Ok tt, w1)
       /\ check_properties host ClassFn w1 = (Ok tt, w).

(** ... and the samples before sample [i] pass: the run is about to check
    sample [i], in state [w]. *)
Definition reaches_sample (i : nat) (w0 : world) (samples : list value)
  (className : string) (w : world) : Prop :=
  (i < length samples)%nat
  /\ exists w1,
       reaches_samples w0 samples className w1
       /\ for_range 0 i (check_sample code host ClassFn samples options className) w1
          = (Ok tt, w).

(** ... and all samples pass: the run is about to compare the samples with
    each other, in state [w]. *)
Definition reaches_equalities (w0 : world) (samples : list value) (className : string)
  (w : world) : Prop :=
  exists w1,
    reaches_samples w0 samples className w1
    /\ for_range 0 (length samples)
         (check_sample code host ClassFn samples options className) w1
       = (Ok tt, w).

Section Sample.
Variable samples : list value.
Variable i : nat.

(** Lines 309-313: the sample is written as JSON text, the text is read
    twice, and [fromJS] makes [inst] from the first copy. *)
Definition sample_built (w0 : world) (copy1 copy2 inst : value) (w : world) : Prop :=
  exists text w1 w2 w3,
    lift (JSON_stringify host (nth i samples VUndefined)) w0 = (Ok text, w1)
    /\ lift (JSON_parse host text) w1 = (Ok copy1, w2)
    /\ lift (JSON_parse host text) w2 = (Ok copy2, w3)
    /\ call code ClassFn "fromJS" [copy1; context options] w3 = (Ok inst, w).

(** Lines 309-337: the checks before the fixed point assertion pass, and
    [inst.toJS()] gives [js]. *)
Definition reaches_fixed_point_check (w0 : world) (inst js : value) (w : world)
  : Prop :=
  exists copy1 copy2 w1 str w2 w3 empty w4 w5,
    sample_built w0 copy1 copy2 inst w1
    /\ deep_eql host (w_heap w1) copy1 copy2 = true
    /\ instanceof inst ClassFn (w_heap w1) = (Ok true, w_heap w1)
    /\ call code inst "toString" [] w1 = (Ok (VStr str), w2)
    /\ call code inst "equals" [VNull] w2 = (Ok (VBool false), w3)
    /\ lift (alloc (array_literal [])) w3 = (Ok empty, w4)
    /\ call code inst "equals" [empty] w4 = (Ok (VBool false), w5)
    /\ call code inst "toJS" [] w5 = (Ok js, w).
End Sample.

(** Lines 383-388 for the pair [(j, k)]: the pairs before it pass, and
    [objectJ.equals(objectK)] gives [r]. *)
Definition reaches_pair (j k : nat) (w0 : world) (samples : list value)
  (className : string) (objectJ objectK r : value) (w : world) : Prop :=
  (j <= k < length samples)%nat
  /\ exists w1 w2 w3 w4 w5,
       reaches_equalities w0 samples className w1
       /\ for_range 0 j (check_equalities code host ClassFn samples options) w1
          = (Ok tt, w2)
       /\ call code ClassFn "fromJS" [nth j samples VUndefined; context options] w2
          = (Ok objectJ, w3)
       /\ for_range j k (check_pair code host ClassFn samples options j objectJ) w3
          = (Ok tt, w4)
       /\ call code ClassFn "fromJS" [nth k samples VUndefined; context options] w4
          = (Ok objectK, w5)
       /\ call code objectJ "equals" [objectK] w5 = (Ok r, w).
End Progress.

(** ** Properties of a host *)

(** [JSON.parse] allocates the object that it returns. *)
Definition parse_allocates (host : Host) : Prop :=
  forall (text : value) (h h' : heap) (l : loc),
    JSON_parse host text h = (Ok (VRef l), h') ->
    (length h <= l < length h')%nat.

(** The JSON round trip of [v] in heap [h] gives a value that deep-equals [v]. *)
Definition roundtrip_invariant (host : Host) (h : heap) (v : value) : bool :=
  match JSON_stringify host v h with
  | (Ok text, h1) =>
      match JSON_parse host text h1 with
      | (Ok copy, h2) => deep_eql host h2 copy v
      | (Throw _, _) => false
      end
  | (Throw _, _) => false
  end.

(** The calls of method [name] among [events]. *)
Definition calls_of (name : string) (events : list call_event) : list call_event :=
  List.filter (fun ev => match ev with
                         | Called _ m _ => String.eqb m name
                         | Constructed _ _ => false
                         end) events.

(** ** What the theorems speak of *)

(** The own fields of an ordinary object, by key. *)
Definition fields_of (c : object) (k : string) : option value :=
  p_value <$> assoc k (o_props c).

(** A plain object that holds exactly the own enumerable fields of [o]. *)
Definition shallow_clone_of (h : heap) (clone : value) (o : object) : Prop :=
  exists l c,
    clone = VRef l
    /\ h !! l = Some c
    /\ o_kind c = KObject
    /\ forall k, k <> "__proto__" ->
                 get_own c k = if mem k (own_enumerable_keys o) then get_own o k else None.

(** A call [ClassFn.fromJS(objects[m], context)]: on an element of the
    array of samples itself. *)
Definition original_sample_call (ClassFn : value) (options : TesterOptions)
  (samples : list value) (ev : call_event) : Prop :=
  exists m,
    (m < length samples)%nat
    /\ ev = Called ClassFn "fromJS" [nth m samples VUndefined; context options].

(** From [w] to [w'] the log grows by calls of [fromJS] on samples only. *)
Definition logs_originals (ClassFn : value) (options : TesterOptions)
  (samples : list value) (w w' : world) : Prop :=
  exists d,
    calls_of "fromJS" (w_calls w') = calls_of "fromJS" (w_calls w) ++ d
    /\ Forall (original_sample_call ClassFn options samples) d.

(** ** Inputs of the examples *)

Definition koalas : list value := [VStr "Koala"; VStr "Snake"; VStr "Dog"; VStr "Cat"].
Definition hash_cat : list value := [VStr "Koala"; VStr "Snake"; VStr "Dog"; VStr "#Cat"].
Definition twice_koala : list value := [VStr "Koala"; VStr "Snake"; VStr "Koala"].

(** [{ Koala: 5, Snake: 4, Dog: 12 }] *)
Definition animalWeights : object :=
  object_literal [("Koala", VNum 5); ("Snake", VNum 4); ("Dog", VNum 12)].

(** * What the further theorems speak of *)

(** ** Counting calls *)

(** [c start + c (start + 1) + ...], [count] terms *)
Fixpoint sum_upto (count start : nat) (c : nat -> nat) : nat :=
  match count with
  | O => O
  | S count' => c start + sum_upto count' (S start) c
  end.

(** How many calls of method [name] the log [w] holds. *)
Definition count_calls (name : string) (w : world) : nat :=
  length (calls_of name (w_calls w)).

(** ** [isInstanceOf]: prototypes and a second copy of the class [Animal] *)

(** The prototypes of [v], nearest first: [v.__proto__],
    [v.__proto__.__proto__], ... *)
Fixpoint prototypes (fuel : nat) (h : heap) (v : value) : list value :=
  match fuel with
  | O => []
  | S fuel' =>
      let p := proto_of h v in
      if truthy p then p :: prototypes fuel' h p else []
  end.

(** The class [Animal] declared a second time, as when the module is loaded
    twice: the second constructor is at address 41, its prototype at 40. *)
Definition heap_with_two_Animals : heap :=
  snd (define_class "Animal" ["fromJS"; "isAnimal"]
         ["toString"; "valueOf"; "toJS"; "toJSON"; "equals"] test_heap).

(** ... and an instance of the second class, at address 49. *)
Definition heap_with_foreign_Animal : heap :=
  heap_with_two_Animals
  ++ [mk_object KObject (VRef 40) [("name", mk_prop (VStr "Koala") true)]].

(** ** Classes that fail one check each

    [Impostor.fromJS] returns an [Animal]; [Mute.toString] returns the
    length of the name, a number. *)

Definition declare_failing_classes : ST heap (list value) :=
  Impostor <- define_class "Impostor" ["fromJS"] [] ;;
  Mute <- define_class "Mute" ["fromJS"] standard_methods ;;
  ret [Impostor; Mute].

Definition failing_heap : heap := snd (declare_failing_classes example_heap).

Definition Impostor : value := VRef 74.
Definition Mute : value := VRef 77.

Definition failing_bodies : list (fid * (value -> list value -> ST heap value)) :=
  example_bodies ++
  [ (* class Impostor *)
    ("Impostor", name_constructor);
    ("Impostor.fromJS", fun _ args =>
       instantiate Animal (fun this => name_constructor this [arg 0 args]));
    (* class Mute *)
    ("Mute", name_constructor);
    ("Mute.fromJS", fun _ args =>
       instantiate Mute (fun this => name_constructor this [arg 0 args]));
    ("Mute.toString", fun this _ => name <- get this "name" ;; get name "length");
    ("Mute.valueOf", this_name);
    ("Mute.toJS", this_name);
    ("Mute.toJSON", this_name);
    ("Mute.equals", fun this args => equals_by_name Mute this (arg 0 args)) ].

Definition failing_code : code_table := table failing_bodies.

(** [Animal.PROPERTIES = v] *)
Definition heap_with_PROPERTIES (v : value) : heap :=
  snd (set Animal "PROPERTIES" v test_heap).

(** An instance of [Animal] with the name Koala. *)
Definition named_koala : object :=
  mk_object KObject (VRef 10) [("name", mk_prop (VStr "Koala") true)].

(** ** Later heaps *)

(** The heap [h] is [base] with further objects after it: the objects of
    [base] are where they were, and as they were. *)
Definition extends (base h : heap) : Prop := exists more, h = base ++ more.

(** [s.replace(/^#/, '')] *)
Definition without_hashtag (s : string) : string :=
  match s with
  | String c rest => if Ascii.eqb c "#" then rest else s
  | EmptyString => s
  end.

(** What a constructor that runs [this.name = name] leaves: an object with
    the prototype at [proto] and the one field [name]. *)
Definition named_instance (proto : loc) (name : value) : object :=
  mk_object KObject (VRef proto) [("name", mk_prop name true)].

(** [lookup_chain] that says when its fuel runs out. *)
Fixpoint lookup_within (fuel : nat) (h : heap) (v : value) (key : string) : option value :=
  match v with
  | VRef l =>
      match fuel with
      | O => None
      | S fuel' =>
          match h !! l with
          | Some o =>
              match get_own o key with
              | Some x => Some x
              | None => lookup_within fuel' h (o_proto o) key
              end
          | None => Some VUndefined
          end
      end
  | _ => Some VUndefined
  end.

(** The prototypes of the objects of [h] are objects of [h]. *)
Definition prototypes_within (h : heap) : bool :=
  forallb (fun o => match o_proto o with
                    | VRef p => (p <? length h)%nat
                    | _ => true
                    end) h.

(** ** Classes that keep a name

    What the classes [Animal] and [AnimalBadToJS] of index.mocha.ts have in
    common, read off the heap and the bodies of the tests: the constructor
    at [c] with the prototype at [p]; [fromJS(name)] is
    [new C(pre(name))]; the constructor stores the name; [toString],
    [valueOf] and [toJSON] return the name, [toJS] returns [post(name)];
    [equals] compares names of instances. *)
Record named_class (c p : loc) (cname : string) (pre post : string -> string) : Prop := {
  nc_constructor : function_of test_heap (VRef c) = Some (cname, cname);
  nc_name : cname <> "";
  nc_new : forall this args, test_code cname this args = name_constructor this args;
  nc_prototype : lookup_within 3 test_heap (VRef c) "prototype" = Some (VRef p);
  nc_where : (c < 40)%nat /\ (p < 40)%nat /\ p <> Object_prototype /\ p <> Array_prototype;
  nc_no_PROPERTIES : lookup_within 3 test_heap (VRef c) "PROPERTIES" = Some VUndefined;
  nc_hidden_members : forall fuel seen, for_in_chain fuel test_heap (VRef p) seen = [];
  nc_fromJS :
    exists f body,
      lookup_within 3 test_heap (VRef c) "fromJS" = Some (VRef f)
      /\ function_of test_heap (VRef f) = Some ("fromJS", body)
      /\ forall this s rest (h : heap),
           test_code body this (VStr s :: rest) h
           = instantiate (VRef c) (fun this => name_constructor this [VStr (pre s)]) h;
  nc_reader :
    forall key, In key ["toString"; "valueOf"; "toJSON"] ->
      exists f body,
        lookup_within 3 test_heap (VRef p) key = Some (VRef f)
        /\ function_of test_heap (VRef f) = Some (key, body)
        /\ f <> 6%nat /\ f <> 7%nat
        /\ forall this args, test_code body this args = get this "name";
  nc_toJS :
    exists f body,
      lookup_within 3 test_heap (VRef p) "toJS" = Some (VRef f)
      /\ function_of test_heap (VRef f) = Some ("toJS", body)
      /\ forall this args (h : heap) n,
           get this "name" h = (Ok (VStr n), h) ->
           test_code body this args h = (Ok (VStr (post n)), h);
  nc_equals :
    exists f body,
      lookup_within 3 test_heap (VRef p) "equals" = Some (VRef f)
      /\ function_of test_heap (VRef f) = Some ("equals", body)
      /\ forall this args, test_code body this args = equals_by_name (VRef c) this (arg 0 args)
}.

(** The classes of index.mocha.ts are in the heap of the run, as declared. *)
Definition classes_intact (w : world) : Prop := extends test_heap (w_heap w).

Section Verdicts.
Variables pre post : string -> string.
Variable options : TesterOptions.
Variable names : list string.

(** Whether the checks of a sample pass for a class that keeps a name. *)
Definition sample_verdict (s : string) : bool :=
  String.eqb (post (pre s)) s
  && negb (default false (newThrows options))
  && String.eqb (pre (pre s)) (pre s).

Definition name_at (i : nat) : string := nth i names "".

(** Whether the check of the pair [(j, k)] passes. *)
Definition pair_verdict (j k : nat) : bool :=
  Bool.eqb (String.eqb (pre (name_at j)) (pre (name_at k))) (Nat.eqb j k).

Definition equalities_verdict (j : nat) : bool :=
  forallb (pair_verdict j) (seq j (length names - j)).

(** What the run on the samples [names] comes to. *)
Definition run_verdict : bool :=
  negb (Nat.eqb (length names) 0)
  && forallb (fun i => sample_verdict (name_at i)) (seq 0 (length names))
  && forallb equalities_verdict (seq 0 (length names)).
End Verdicts.

(** ** The class [AnimalWithContext] *)

(** What the constructor of [AnimalWithContext] leaves: an object with the
    prototype of the class and the fields [name] and [weight], in the order
    of the assignments. *)
Definition weighted_instance (name weight : value) : object :=
  mk_object KObject (VRef 31)
    [("name", mk_prop name true); ("weight", mk_prop weight true)].

(** * Theorems *)

(** ** The monad and the loops *)

Section MonadFacts.
Context {St : Type}.

Lemma bind_ok_inv {A B} (m : ST St A) (k : A -> ST St B) s b s' :
  bind m k s = (Ok b, s') ->
  exists a s1, m s = (Ok a, s1) /\ k a s1 = (Ok b, s').
Proof.
  unfold bind. destruct (m s) as [[a | e] s1]; intros H.
  - exists a, s1. split; [reflexivity | exact H].
  - discriminate H.
Qed.

Lemma bind_ok {A B} (m : ST St A) (k : A -> ST St B) s a s1 :
  m s = (Ok a, s1) -> bind m k s = k a s1.
Proof. unfold bind. intros ->. reflexivity. Qed.

Lemma bind_throw {A B} (m : ST St A) (k : A -> ST St B) s e s1 :
  m s = (Throw e, s1) -> bind m k s = (Throw e, s1).
Proof. unfold bind. intros ->. reflexivity. Qed.

Lemma for_upto_ok_inv (body : nat -> ST St unit) n :
  forall start s s',
    for_upto n start body s = (Ok tt, s') ->
    forall i, (start <= i < start + n)%nat ->
              exists si si', body i si = (Ok tt, si').
Proof.
  induction n as [| n IH]; intros start s s' H i Hi; [lia |].
  simpl in H. apply bind_ok_inv in H as ([] & s1 & Hbody & Hrest).
  destruct (decide (i = start)) as [-> | Hne].
  - eauto.
  - apply (IH _ _ _ Hrest). lia.
Qed.

Lemma for_upto_throw (body : nat -> ST St unit) i :
  forall n start s si e s',
    (i < n)%nat ->
    for_upto i start body s = (Ok tt, si) ->
    body (start + i)%nat si = (Throw e, s') ->
    for_upto n start body s = (Throw e, s').
Proof.
  induction i as [| i IH]; intros n start s si e s' Hlt Hpre Hbody.
  - simpl in Hpre. injection Hpre as <-. destruct n; [lia |].
    simpl. rewrite Nat.add_0_r in Hbody. apply bind_throw. exact Hbody.
  - destruct n; [lia |]. simpl in Hpre |- *.
    apply bind_ok_inv in Hpre as ([] & s1 & Hfirst & Hrest).
    rewrite (bind_ok _ _ _ _ _ Hfirst).
    apply (IH n (S start) s1 si e s'); [lia | exact Hrest |].
    replace (S start + i)%nat with (start + S i)%nat by lia. exact Hbody.
Qed.

Lemma for_range_ok_inv (body : nat -> ST St unit) from to s s' :
  for_range from to body s = (Ok tt, s') ->
  forall i, (from <= i < to)%nat -> exists si si', body i si = (Ok tt, si').
Proof.
  unfold for_range. intros H i Hi. apply (for_upto_ok_inv _ _ _ _ _ H). lia.
Qed.

Lemma for_range_throw (body : nat -> ST St unit) from to i s si e s' :
  (from <= i < to)%nat ->
  for_range from i body s = (Ok tt, si) ->
  body i si = (Throw e, s') ->
  for_range from to body s = (Throw e, s').
Proof.
  unfold for_range. intros Hi Hpre Hbody.
  apply (for_upto_throw body (i - from) _ _ _ si); [lia | exact Hpre |].
  replace (from + (i - from))%nat with i by lia. exact Hbody.
Qed.
End MonadFacts.

(** One step of a run that ends well: the first computation of a [bind]
    ended well. *)
Ltac step H :=
  let a := fresh "v" in
  let w := fresh "w" in
  let E := fresh "E" in
  apply bind_ok_inv in H; destruct H as (a & w & E & H); cbv beta in H.

(** ** The checker *)

Section CheckerFacts.
Variable code : code_table.
Variable host : Host.

Lemma world_eta (w : world) : mk_world (w_heap w) (w_calls w) = w.
Proof. destruct w; reflexivity. Qed.

Lemma expect_ok_inv passes msg generated w u w' :
  expect passes msg generated w = (Ok u, w') ->
  passes (w_heap w) = true /\ w' = w.
Proof.
  unfold expect. destruct (passes (w_heap w)); intros H; [| discriminate H].
  injection H as _ <-. auto.
Qed.

Lemma expect_pass passes msg generated w :
  passes (w_heap w) = true -> expect passes msg generated w = (Ok tt, w).
Proof. unfold expect. intros ->. reflexivity. Qed.

Lemma expect_fail passes msg generated w :
  passes (w_heap w) = false ->
  expect passes msg generated w
  = (Throw (JsError AssertionError (chai_message msg (generated (w_heap w)))), w).
Proof. unfold expect. intros ->. reflexivity. Qed.

Lemma read_inv {A} (f : world -> A) w a w' :
  read f w = (Ok a, w') -> a = f w /\ w' = w.
Proof. unfold read. intros H. injection H as <- <-. auto. Qed.

(** What [check_arguments] accepts. *)
Lemma check_arguments_ok_inv ClassFn objects w samples className w' :
  check_arguments ClassFn objects w = (Ok (samples, className), w') ->
  w' = w
  /\ is_function (w_heap w) ClassFn = true
  /\ array_elems (w_heap w) objects = Some samples
  /\ samples <> []
  /\ className = function_name (w_heap w) ClassFn
  /\ className <> "".
Proof.
  unfold check_arguments, bind, read, throw, ret.
  destruct (is_function (w_heap w) ClassFn); simpl; [| discriminate].
  destruct (array_elems (w_heap w) objects) as [[| x l] |]; try discriminate.
  destruct (function_name (w_heap w) ClassFn) as [| c s] eqn:En; simpl; [discriminate |].
  intros H. injection H as <- <- <-. repeat split; congruence.
Qed.

Lemma check_arguments_ok ClassFn objects w samples :
  is_function (w_heap w) ClassFn = true ->
  array_elems (w_heap w) objects = Some samples ->
  samples <> [] ->
  function_name (w_heap w) ClassFn <> "" ->
  check_arguments ClassFn objects w
  = (Ok (samples, function_name (w_heap w) ClassFn), w).
Proof.
  intros Hf Ha Hs Hn. unfold check_arguments, bind, read, throw, ret.
  rewrite Hf. simpl. rewrite Ha. destruct samples as [| x l]; [congruence |]. simpl.
  destruct (function_name (w_heap w) ClassFn); [congruence | reflexivity].
Qed.

(** ** The preconditions (C6) *)

(** C6. The three preconditions are checked in order, each with its own
    error: a class that is not a function is a TypeError about the
    constructor; otherwise samples that are not a non-empty array are a
    TypeError; otherwise a class without a name is an error that asks for a
    name of at least one letter. In each case the run ends in the state it
    started in: the heap is untouched and no call has been made. *)
Theorem preconditions_checked_first (ClassFn objects : value) (options : TesterOptions)
  (w : world) :
  (is_function (w_heap w) ClassFn = false ->
   testImmutableClass code host ClassFn objects options w
   = (Throw (JsError TypeError "ClassFn must be a constructor function"), w))
  /\ (is_function (w_heap w) ClassFn = true ->
      (array_elems (w_heap w) objects = None \/ array_elems (w_heap w) objects = Some []) ->
      testImmutableClass code host ClassFn objects options w
      = (Throw (JsError TypeError "objects must be a non-empty array of js to test"), w))
  /\ (is_function (w_heap w) ClassFn = true ->
      (exists first rest, array_elems (w_heap w) objects = Some (first :: rest)) ->
      function_name (w_heap w) ClassFn = "" ->
      testImmutableClass code host ClassFn objects options w
      = (Throw (JsError PlainError "Class must have a name of at least 1 letter"), w)).
Proof.
  unfold testImmutableClass, check_arguments, bind, read, throw.
  repeat split.
  - intros ->. reflexivity.
  - intros -> [H | H]; simpl; rewrite H; reflexivity.
  - intros -> (first & rest & H) Hname. simpl. rewrite H, Hname. reflexivity.
Qed.
End CheckerFacts.

Section AssertionFacts.
Variable code : code_table.
Variable host : Host.

Lemma lift_calls {A} (m : ST heap A) w r w' :
  lift m w = (r, w') -> w_calls w' = w_calls w.
Proof.
  unfold lift. destruct (m (w_heap w)) as [r' h']. intros H.
  injection H as _ <-. reflexivity.
Qed.

Lemma lift_run {A} (m : ST heap A) w r w' :
  lift m w = (r, w') -> m (w_heap w) = (r, w_heap w').
Proof.
  unfold lift. destruct (m (w_heap w)) as [r' h']. intros H.
  injection H as <- <-. reflexivity.
Qed.

Lemma call_calls obj key args w v w' :
  call code obj key args w = (Ok v, w') ->
  w_calls w' = w_calls w ++ [Called obj key args].
Proof.
  unfold call. intros H. step H. step H.
  apply lift_calls in E. apply read_inv in E0 as [-> ->].
  destruct (is_function (w_heap w0) v0); [| discriminate H].
  step H. apply lift_calls in H. unfold record in E0. injection E0 as _ <-.
  simpl in H. congruence.
Qed.

Lemma expect_a_ok_inv actual msg ty w u w' :
  expect_a host actual msg ty w = (Ok u, w') ->
  type_detect (w_heap w) actual = ty /\ w' = w.
Proof.
  unfold expect_a. intros H. apply expect_ok_inv in H as [H ->].
  split; [| reflexivity]. apply String.eqb_eq. exact H.
Qed.

Lemma expect_equal_ok_inv actual msg expected w u w' :
  expect_equal host actual msg expected w = (Ok u, w') ->
  actual = expected /\ w' = w.
Proof.
  unfold expect_equal, strict_equal. intros H. apply expect_ok_inv in H as [H ->].
  split; [| reflexivity]. exact (bool_decide_eq_true_1 _ H).
Qed.

Lemma expect_not_equal_ok_inv actual msg unexpected w u w' :
  expect_not_equal host actual msg unexpected w = (Ok u, w') ->
  actual <> unexpected /\ w' = w.
Proof.
  unfold expect_not_equal, strict_equal. intros H. apply expect_ok_inv in H as [H ->].
  split; [| reflexivity]. apply negb_true_iff in H. exact (bool_decide_eq_false_1 _ H).
Qed.

Lemma expect_deep_equal_ok_inv actual msg expected w u w' :
  expect_deep_equal host actual msg expected w = (Ok u, w') ->
  deep_eql host (w_heap w) actual expected = true /\ w' = w.
Proof. unfold expect_deep_equal. apply expect_ok_inv. Qed.

Lemma instanceof_pure x C h r h' : instanceof x C h = (r, h') -> h' = h.
Proof.
  unfold instanceof. destruct (negb (is_function h C)).
  - intros H. injection H as _ <-. reflexivity.
  - destruct (lookup_chain (chain_fuel h) h C "prototype");
      try destruct (is_ref x); intros H; injection H as _ <-; reflexivity.
Qed.

Lemma expect_instanceOf_ok_inv actual msg C w u w' :
  expect_instanceOf host actual msg C w = (Ok u, w') ->
  instanceof actual C (w_heap w) = (Ok true, w_heap w) /\ w' = w.
Proof.
  unfold expect_instanceOf. intros H. step H.
  apply expect_ok_inv in H as [-> ->].
  pose proof (lift_calls _ _ _ _ E) as Hc. apply lift_run in E.
  pose proof (instanceof_pure _ _ _ _ _ E) as Hh.
  assert (w0 = w) as ->.
  { destruct w0, w. simpl in *. congruence. }
  auto.
Qed.
End AssertionFacts.

(** The assertions that passed, as facts. *)
Ltac passed :=
  repeat match goal with
    | E : expect_equal _ _ _ _ _ = (Ok _, _) |- _ => apply expect_equal_ok_inv in E as [? ->]
    | E : expect_deep_equal _ _ _ _ _ = (Ok _, _) |- _ =>
        apply expect_deep_equal_ok_inv in E as [? ->]
    | E : expect_a _ _ _ _ _ = (Ok _, _) |- _ => apply expect_a_ok_inv in E as [? ->]
    | E : expect_not_equal _ _ _ _ _ = (Ok _, _) |- _ =>
        apply expect_not_equal_ok_inv in E as [? ->]
    | E : expect_instanceOf _ _ _ _ _ = (Ok _, _) |- _ =>
        apply expect_instanceOf_ok_inv in E as [? ->]
    | E : read _ _ = (Ok _, _) |- _ => apply read_inv in E as [-> ->]
    end.


(** The run of the body of the loop over the samples, as facts. *)
Ltac invert_sample H :=
  unfold check_sample in H; cbv zeta in H; repeat step H; passed; subst.

Section RunFacts.
Variable code : code_table.
Variable host : Host.
Variable ClassFn : value.
Variable objects : value.
Variable options : TesterOptions.

(** A run that ends well went through every phase. *)
Lemma run_ok_inv w0 wf :
  testImmutableClass code host ClassFn objects options w0 = (Ok tt, wf) ->
  exists samples className w1 w2,
    array_elems (w_heap w0) objects = Some samples
    /\ reaches_samples code host ClassFn objects options w0 samples className w1
    /\ for_range 0 (length samples)
         (check_sample code host ClassFn samples options className) w1 = (Ok tt, w2)
    /\ for_range 0 (length samples)
         (check_equalities code host ClassFn samples options) w2 = (Ok tt, wf).
Proof.
  intros H. unfold testImmutableClass in H. step H. destruct v as [samples className].
  repeat step H.
  pose proof (check_arguments_ok_inv _ _ _ _ _ _ E) as (-> & _ & Ha & _).
  destruct v, v0, v1.
  exists samples, className, w2, w3. unfold reaches_samples. eauto 10.
Qed.

(** The first failure ends the run: in the loop over the samples ... *)
Lemma run_throws_in_sample i w0 samples className w e w' :
  reaches_sample code host ClassFn objects options i w0 samples className w ->
  check_sample code host ClassFn samples options className i w = (Throw e, w') ->
  testImmutableClass code host ClassFn objects options w0 = (Throw e, w').
Proof.
  intros (Hi & w1 & (Ha & w2 & Hm & Hp) & Hloop) Hbody.
  unfold testImmutableClass.
  rewrite (bind_ok _ _ _ _ _ Ha). cbv beta iota.
  rewrite (bind_ok _ _ _ _ _ Hm). rewrite (bind_ok _ _ _ _ _ Hp).
  apply bind_throw. apply (for_range_throw _ 0 (length samples) i w1 w); auto. lia.
Qed.

(** ... and in the loops over the pairs. *)
Lemma run_throws_in_pair j k w0 samples className objectJ objectK r w e :
  reaches_pair code host ClassFn objects options j k w0 samples className
               objectJ objectK r w ->
  expect_equal host r
    ("Equality of objects " +:+ show_nat j +:+ " and " +:+ show_nat k +:+ " was wrong")
    (VBool (Nat.eqb j k)) w = (Throw e, w) ->
  testImmutableClass code host ClassFn objects options w0 = (Throw e, w).
Proof.
  intros (Hjk & w1 & w2 & w3 & w4 & w5 & (w6 & (Ha & w7 & Hm & Hp) & Hs) & Hj & HJ & Hk & HK & Hr)
         Hexp.
  unfold testImmutableClass.
  rewrite (bind_ok _ _ _ _ _ Ha). cbv beta iota.
  rewrite (bind_ok _ _ _ _ _ Hm). rewrite (bind_ok _ _ _ _ _ Hp).
  rewrite (bind_ok _ _ _ _ _ Hs).
  apply (for_range_throw _ 0 (length samples) j w1 w2); [lia | exact Hj |].
  unfold check_equalities. rewrite (bind_ok _ _ _ _ _ HJ).
  apply (for_range_throw _ j (length samples) k w3 w4); [lia | exact Hk |].
  unfold check_pair. rewrite (bind_ok _ _ _ _ _ HK). rewrite (bind_ok _ _ _ _ _ Hr).
  exact Hexp.
Qed.

(** The loops over the pairs, when they end well: both instances of every
    pair were made from the samples themselves, and [equals] gave the
    expected boolean. *)
Lemma equalities_ok_inv samples w w' :
  for_range 0 (length samples)
    (check_equalities code host ClassFn samples options) w = (Ok tt, w') ->
  forall j k, (j <= k < length samples)%nat ->
    exists objectJ objectK w1 w2 w3 w4 w5,
      call code ClassFn "fromJS" [nth j samples VUndefined; context options] w1
      = (Ok objectJ, w2)
      /\ call code ClassFn "fromJS" [nth k samples VUndefined; context options] w3
         = (Ok objectK, w4)
      /\ call code objectJ "equals" [objectK] w4 = (Ok (VBool (Nat.eqb j k)), w5).
Proof.
  intros He j k Hjk.
  destruct (for_range_ok_inv _ _ _ _ _ He j) as (wj & wj' & Hj); [lia |].
  unfold check_equalities in Hj. step Hj.
  destruct (for_range_ok_inv _ _ _ _ _ Hj k) as (wk & wk' & Hk); [lia |].
  unfold check_pair in Hk. repeat step Hk. passed. subst.
  eauto 10.
Qed.
End RunFacts.

Section Passing.
Variable host : Host.

Lemma expect_equal_pass v msg w : expect_equal host v msg v w = (Ok tt, w).
Proof.
  unfold expect_equal. apply expect_pass. unfold strict_equal.
  apply bool_decide_eq_true_2. reflexivity.
Qed.

Lemma expect_a_pass actual msg w :
  expect_a host actual msg (type_detect (w_heap w) actual) w = (Ok tt, w).
Proof. unfold expect_a. apply expect_pass. apply String.eqb_refl. Qed.

Lemma expect_deep_equal_pass actual msg expected w :
  deep_eql host (w_heap w) actual expected = true ->
  expect_deep_equal host actual msg expected w = (Ok tt, w).
Proof.
  intros H. unfold expect_deep_equal.
  exact (expect_pass (fun h => deep_eql host h actual expected) _ _ w H).
Qed.

Lemma expect_deep_equal_fail actual msg expected w :
  deep_eql host (w_heap w) actual expected = false ->
  expect_deep_equal host actual msg expected w
  = (Throw (JsError AssertionError
              (chai_message msg
                 ("expected " +:+ inspect host (w_heap w) actual
                  +:+ " to deeply equal " +:+ inspect host (w_heap w) expected))), w).
Proof.
  intros H. unfold expect_deep_equal.
  exact (expect_fail (fun h => deep_eql host h actual expected) _ _ w H).
Qed.

Lemma expect_equal_fail actual msg expected w :
  actual <> expected ->
  expect_equal host actual msg expected w
  = (Throw (JsError AssertionError
              (chai_message msg
                 ("expected " +:+ inspect host (w_heap w) actual
                  +:+ " to equal " +:+ inspect host (w_heap w) expected))), w).
Proof.
  intros Hne. unfold expect_equal. apply expect_fail. unfold strict_equal.
  apply bool_decide_eq_false_2. exact Hne.
Qed.

Lemma expect_instanceOf_pass actual msg C w :
  instanceof actual C (w_heap w) = (Ok true, w_heap w) ->
  expect_instanceOf host actual msg C w = (Ok tt, w).
Proof.
  intros H. unfold expect_instanceOf, bind, lift. rewrite H. rewrite world_eta.
  apply expect_pass. reflexivity.
Qed.
End Passing.

(** One step of a run whose first computation is known to end well. *)
Ltac fwd H := rewrite (bind_ok _ _ _ _ _ H); cbv beta.

(** ** The checks of a sample and of a pair (C1 to C4) *)

Section SampleClaims.
Variable code : code_table.
Variable host : Host.
Variable ClassFn : value.
Variable objects : value.
Variable options : TesterOptions.




Lemma expect_throw_ok_inv (thunk : M value) msg w u w' :
  expect_throw host thunk msg w = (Ok u, w') ->
  exists e, thunk w = (Throw e, w') /\ is_Error e = true.
Proof.
  unfold expect_throw. destruct (thunk w) as [[v | e] w1]; [discriminate |].
  destruct (is_Error e) eqn:He; [| discriminate].
  intros H. injection H as _ <-. eauto.
Qed.

End SampleClaims.

(** ** The copy of the own properties (lines 347-351) *)


Lemma alloc_inv o (h : heap) r h' :
  alloc o h = (r, h') -> r = Ok (VRef (length h)) /\ h' = h ++ [o].
Proof. unfold alloc. intros H. injection H as <- <-. auto. Qed.

Lemma mem_app k l1 l2 : mem k (l1 ++ l2) = mem k l1 || mem k l2.
Proof. unfold mem. apply existsb_app. Qed.

Lemma mem_In k l : mem k l = true <-> In k l.
Proof.
  unfold mem. rewrite existsb_exists. split.
  - intros (x & Hx & He). apply String.eqb_eq in He. subst. exact Hx.
  - intros H. exists k. split; [exact H | apply String.eqb_refl].
Qed.

Lemma assoc_mem {A} k (l : list (string * A)) :
  mem k (fst <$> l) = true -> exists a, assoc k l = Some a.
Proof.
  induction l as [| [k' a] l IH]; simpl; [discriminate |].
  rewrite (String.eqb_sym k k'). destruct (String.eqb k' k); eauto.
Qed.

Lemma enumerable_keys_subset k props :
  mem k (enumerable_keys props) = true -> mem k (fst <$> props) = true.
Proof.
  unfold enumerable_keys. rewrite !mem_In. rewrite <- !list_elem_of_In.
  rewrite !list_elem_of_fmap. intros (kp & -> & Hin).
  apply list_elem_of_filter in Hin as [_ Hin]. eauto.
Qed.

Lemma own_enumerable_subset o k :
  mem k (own_enumerable_keys o) = true -> mem k (own_keys o) = true.
Proof.
  unfold own_enumerable_keys, own_keys. destruct (o_kind o).
  - apply enumerable_keys_subset.
  - rewrite !mem_app. intros H. apply orb_true_iff in H as [H | H].
    + rewrite H. reflexivity.
    + apply enumerable_keys_subset in H. simpl. rewrite H.
      rewrite !orb_true_r. reflexivity.
  - intros H. apply enumerable_keys_subset in H. simpl. rewrite H. apply orb_true_r.
Qed.

Lemma index_of_key_mem n k :
  mem k (show_nat <$> seq 0 n) = true ->
  exists i, index_of_key n k = Some i /\ (i < n)%nat.
Proof.
  intros H. apply mem_In in H. rewrite <- list_elem_of_In in H.
  apply list_elem_of_fmap in H as (i & -> & Hi).
  unfold index_of_key.
  destruct (find (fun j => String.eqb (show_nat j) (show_nat i)) (seq 0 n)) as [j |] eqn:Ef.
  - apply find_some in Ef as [Hj _]. apply in_seq in Hj. exists j. split; [reflexivity | lia].
  - apply list_elem_of_In in Hi. eapply find_none in Ef; [| exact Hi].
    simpl in Ef. rewrite String.eqb_refl in Ef. discriminate.
Qed.

Lemma own_key_has_value o k :
  mem k (own_keys o) = true -> exists x, get_own o k = Some x.
Proof.
  unfold own_keys, get_own. destruct (o_kind o) as [| elems | name body].
  - intros H. apply assoc_mem in H as [p Hp]. rewrite Hp. simpl. eauto.
  - rewrite mem_app. intros H.
    destruct (String.eqb k "length") eqn:El; [eauto |].
    apply orb_true_iff in H as [H | H].
    + apply index_of_key_mem in H as (i & -> & Hi).
      destruct (lookup_lt_is_Some_2 elems i Hi) as [x Hx]. eauto.
    + simpl in H. rewrite El in H. simpl in H.
      destruct (index_of_key (length elems) k) as [i |] eqn:Ei.
      * unfold index_of_key in Ei. apply find_some in Ei as [Hi _]. apply in_seq in Hi.
        destruct (lookup_lt_is_Some_2 elems i) as [x Hx]; [lia | eauto].
      * apply assoc_mem in H as [p Hp]. rewrite Hp. simpl. eauto.
  - intros H. simpl in H. destruct (String.eqb k "name") eqn:En; [eauto |].
    simpl in H. apply assoc_mem in H as [p Hp]. rewrite Hp. simpl. eauto.
Qed.

Lemma for_in_chain_unseen fuel : forall (h : heap) v seen k,
  mem k (for_in_chain fuel h v seen) = true -> mem k seen = false.
Proof.
  induction fuel as [| fuel IH]; intros h v seen k H; simpl in H; [discriminate |].
  destruct v; try discriminate. destruct (h !! l) as [o |]; [| discriminate].
  rewrite mem_app in H. apply orb_true_iff in H as [H | H].
  - apply mem_In in H. rewrite <- list_elem_of_In in H.
    apply list_elem_of_filter in H as [H _]. exact H.
  - apply IH in H. rewrite mem_app in H. apply orb_false_iff in H as [_ H]. exact H.
Qed.

Lemma filter_unseen_nil (l : list string) :
  filter (fun k => mem k [] = false) l = l.
Proof.
  induction l as [| x l IH]; [reflexivity |].
  rewrite filter_cons. destruct (decide (mem x [] = false)) as [_ | Hn].
  - rewrite IH. reflexivity.
  - exfalso. apply Hn. reflexivity.
Qed.

(** [for (key in inst)] with [hasOwnProp] keeps the own enumerable keys. *)
Lemma for_in_own_keys (h : heap) li o k :
  h !! li = Some o ->
  mem k (for_in_keys h (VRef li)) && mem k (own_keys o) = mem k (own_enumerable_keys o).
Proof.
  intros Ho. unfold for_in_keys, chain_fuel. simpl. rewrite Ho.
  rewrite filter_unseen_nil, mem_app.
  destruct (mem k (own_enumerable_keys o)) eqn:Ee.
  - simpl. apply own_enumerable_subset. exact Ee.
  - simpl. destruct (mem k (for_in_chain _ _ _ _)) eqn:Ec; [| reflexivity].
    apply for_in_chain_unseen in Ec. rewrite mem_app in Ec.
    apply orb_false_iff in Ec as [Ec _]. rewrite Ec. reflexivity.
Qed.

Lemma assoc_update_prop k key v props :
  p_value <$> assoc k (update_prop key v props)
  = if String.eqb k key then Some v else p_value <$> assoc k props.
Proof.
  induction props as [| [k' p] props IH]; simpl.
  - rewrite (String.eqb_sym key k). destruct (String.eqb k key); reflexivity.
  - destruct (String.eqb k' key) eqn:Ek; simpl.
    + apply String.eqb_eq in Ek. subst k'. rewrite (String.eqb_sym key k).
      destruct (String.eqb k key); reflexivity.
    + destruct (String.eqb k' k) eqn:Ek'.
      * apply String.eqb_eq in Ek'. subst k'. rewrite Ek. reflexivity.
      * exact IH.
Qed.


(** The loop of lines 348-351, started with any target object. *)
Lemma copy_own_props_spec li ll o keys :
  li <> ll ->
  forall (h : heap) c,
    h !! li = Some o ->
    h !! ll = Some c ->
    exists h' c',
      copy_own_props (VRef li) (VRef ll) keys h = (Ok tt, h')
      /\ h' !! ll = Some c'
      /\ o_kind c' = o_kind c
      /\ h' !! li = Some o
      /\ forall k, k <> "__proto__" ->
           fields_of c' k
           = if mem k keys && mem k (own_keys o) then get_own o k else fields_of c k.
Proof.
  intros Hne. induction keys as [| key keys IH]; intros h c Ho Hc.
  - exists h, c. simpl. unfold ret. auto.
  - simpl.
    assert (Hown : read (fun h0 : heap => hasOwnProp h0 (VRef li) key) h
                   = (Ok (mem key (own_keys o)), h)).
    { unfold read, hasOwnProp. rewrite Ho. reflexivity. }
    rewrite (bind_ok _ _ _ _ _ Hown). clear Hown.
    destruct (mem key (own_keys o)) eqn:Eown.
    + destruct (own_key_has_value _ _ Eown) as [x Hx].
      assert (Hget : exists y, get (VRef li) key h = (Ok y, h)
                               /\ (key <> "__proto__" -> y = x)).
      { unfold get. destruct (String.eqb key "__proto__") eqn:Ep.
        - eexists. split; [reflexivity |]. intros Hk. apply String.eqb_neq in Hk. congruence.
        - eexists. split; [reflexivity |]. intros _. unfold chain_fuel. simpl.
          rewrite Ho, Hx. reflexivity. }
      destruct Hget as (y & Hget & Hy).
      rewrite (bind_ok _ _ _ _ _ Hget).
      assert (Hset : exists c1,
                 set (VRef ll) key y h = (Ok tt, <[ll := c1]> h)
                 /\ o_kind c1 = o_kind c
                 /\ forall k, k <> "__proto__" ->
                      fields_of c1 k
                      = if String.eqb k key then get_own o k else fields_of c k).
      { unfold set. rewrite Hc. destruct (String.eqb key "__proto__") eqn:Ep.
        - apply String.eqb_eq in Ep. subst key.
          destruct (is_ref y || bool_decide (y = VNull)).
          + eexists. split; [reflexivity |]. split; [reflexivity |].
            intros k Hk. apply String.eqb_neq in Hk. rewrite Hk. reflexivity.
          + exists c. split; [f_equal; symmetry; apply list_insert_id; exact Hc |].
            split; [reflexivity |]. intros k Hk. apply String.eqb_neq in Hk.
            rewrite Hk. reflexivity.
        - eexists. split; [reflexivity |]. split; [reflexivity |].
          intros k Hk. unfold fields_of. simpl. rewrite assoc_update_prop.
          destruct (String.eqb k key) eqn:Ek; [| reflexivity].
          apply String.eqb_eq in Ek. subst k. rewrite Hx, Hy; [reflexivity |].
          apply String.eqb_neq. exact Ep. }
      destruct Hset as (c1 & Hset & Hkind & Hfields).
      rewrite (bind_ok _ _ _ _ _ Hset).
      assert (Hll : (ll < length h)%nat) by (apply lookup_lt_is_Some; eauto).
      destruct (IH (<[ll := c1]> h) c1) as (h' & c' & Hrun & Hc' & Hk' & Ho' & Hf').
      { rewrite list_lookup_insert_ne; [exact Ho | congruence]. }
      { apply list_lookup_insert_eq. exact Hll. }
      exists h', c'. split; [exact Hrun |]. split; [exact Hc' |].
      split; [congruence |]. split; [exact Ho' |].
      intros k Hk. rewrite (Hf' k Hk), (Hfields k Hk). simpl.
      destruct (String.eqb k key) eqn:Ek.
      * apply String.eqb_eq in Ek. subst k. rewrite Eown. simpl.
        destruct (mem key keys); reflexivity.
      * simpl. reflexivity.
    + destruct (IH h c Ho Hc) as (h' & c' & Hrun & Hc' & Hk' & Ho' & Hf').
      exists h', c'. split; [exact Hrun |]. split; [exact Hc' |].
      split; [exact Hk' |]. split; [exact Ho' |].
      intros k Hk. rewrite (Hf' k Hk). simpl.
      destruct (String.eqb k key) eqn:Ek; [| reflexivity].
      apply String.eqb_eq in Ek. subst k. rewrite Eown.
      rewrite andb_false_r. simpl. reflexivity.
Qed.

(** Lines 347-351: [instLazyCopy] is a shallow clone of [inst]. *)
Lemma lazy_copy_is_shallow_clone (h : heap) li o lazy h1 h2 :
  h !! li = Some o ->
  alloc (object_literal []) h = (Ok lazy, h1) ->
  copy_own_props (VRef li) lazy (for_in_keys h1 (VRef li)) h1 = (Ok tt, h2) ->
  shallow_clone_of h2 lazy o.
Proof.
  intros Ho Ha Hcopy. apply alloc_inv in Ha as [Hl ->]. injection Hl as ->.
  assert (Hli : (li < length h)%nat) by (apply lookup_lt_is_Some; eauto).
  assert (Ho1 : (h ++ [object_literal []]) !! li = Some o).
  { rewrite lookup_app_l; [exact Ho | exact Hli]. }
  assert (Hc1 : (h ++ [object_literal []]) !! length h = Some (object_literal [])).
  { rewrite lookup_app_r; [| lia]. rewrite Nat.sub_diag. reflexivity. }
  destruct (copy_own_props_spec li (length h) o
              (for_in_keys (h ++ [object_literal []]) (VRef li)) ltac:(lia)
              _ _ Ho1 Hc1) as (h' & c' & Hrun & Hc' & Hk' & _ & Hf').
  rewrite Hrun in Hcopy. injection Hcopy as <-.
  exists (length h), c'. split; [reflexivity |]. split; [exact Hc' |].
  split; [exact Hk' |]. intros k Hk.
  unfold get_own. rewrite Hk'. simpl. fold (fields_of c' k).
  rewrite (Hf' k Hk). rewrite (for_in_own_keys _ _ _ k Ho1). reflexivity.
Qed.

(** ** Look-alikes are rejected (C5) *)

Section LookAlikes.
Variable code : code_table.
Variable host : Host.
Variable ClassFn : value.
Variable objects : value.
Variable options : TesterOptions.

End LookAlikes.

(** ** The calls that a run logs *)

Lemma calls_of_app name a b : calls_of name (a ++ b) = calls_of name a ++ calls_of name b.
Proof. unfold calls_of. apply List.filter_app. Qed.

Lemma for_upto_invariant {St} (R : St -> St -> Prop) (body : nat -> ST St unit) n :
  (forall s, R s s) ->
  (forall a b c, R a b -> R b c -> R a c) ->
  forall start s s',
    (forall i a b, (start <= i < start + n)%nat -> body i a = (Ok tt, b) -> R a b) ->
    for_upto n start body s = (Ok tt, s') ->
    R s s'.
Proof.
  intros Hrefl Htrans. induction n as [| n IH]; intros start s s' Hbody H.
  - simpl in H. injection H as <-. apply Hrefl.
  - simpl in H. apply bind_ok_inv in H as ([] & s1 & Hfirst & Hrest).
    apply (Htrans _ s1).
    + apply (Hbody start); [lia | exact Hfirst].
    + apply (IH (S start)); [| exact Hrest].
      intros i a b Hi. apply Hbody. lia.
Qed.

Section CallLog.
Variable code : code_table.
Variable host : Host.

Lemma new_calls C args w r w' name :
  new_ code C args w = (r, w') ->
  calls_of name (w_calls w') = calls_of name (w_calls w).
Proof.
  unfold new_, bind, read. destruct (is_function (w_heap w) C).
  - unfold record. simpl. intros H. apply lift_calls in H. simpl in H. rewrite H.
    rewrite calls_of_app. simpl. apply app_nil_r.
  - unfold throw. intros H. injection H as _ <-. reflexivity.
Qed.

Lemma call_calls_of obj key args w v w' name :
  call code obj key args w = (Ok v, w') ->
  calls_of name (w_calls w')
  = calls_of name (w_calls w)
    ++ (if String.eqb key name then [Called obj key args] else []).
Proof.
  intros H. rewrite (call_calls _ _ _ _ _ _ _ H), calls_of_app. simpl.
  destruct (String.eqb key name); reflexivity.
Qed.
End CallLog.

(** The calls of [fromJS] that a step of a run adds to the log. *)
Ltac log_back :=
  repeat match goal with
    | E : lift _ ?w = (_, ?w') |- context [w_calls ?w'] =>
        rewrite (lift_calls _ _ _ _ E)
    | E : call _ _ _ _ ?w = (Ok _, ?w') |- context [calls_of ?n (w_calls ?w')] =>
        rewrite (call_calls_of _ _ _ _ _ _ _ n E); simpl String.eqb; cbv iota
    | E : new_ _ _ _ ?w = (_, ?w') |- context [calls_of ?n (w_calls ?w')] =>
        rewrite (new_calls _ _ _ _ _ _ n E)
    end.

(** ** What [fromJS] is given in the loop over the samples (C9) *)

Section JsonCopies.
Variable code : code_table.
Variable host : Host.
Variable ClassFn : value.
Variable objects : value.
Variable options : TesterOptions.

End JsonCopies.


(** ** What [fromJS] is given in the loops over the pairs *)

Section Originals.
Variable code : code_table.
Variable host : Host.
Variable ClassFn : value.
Variable options : TesterOptions.
Variable samples : list value.

Local Abbreviation logs_originals := (logs_originals ClassFn options samples).


Lemma logs_originals_refl w : logs_originals w w.
Proof. exists []. split; [symmetry; apply app_nil_r | constructor]. Qed.

Lemma logs_originals_trans a b c :
  logs_originals a b -> logs_originals b c -> logs_originals a c.
Proof.
  intros (d1 & H1 & F1) (d2 & H2 & F2). exists (d1 ++ d2). split.
  - rewrite H2, H1. symmetry. apply app_assoc.
  - apply Forall_app. auto.
Qed.

Lemma check_pair_logs j objectJ k w w' :
  (k < length samples)%nat ->
  check_pair code host ClassFn samples options j objectJ k w = (Ok tt, w') ->
  logs_originals w w'.
Proof.
  intros Hk H. unfold check_pair in H. repeat step H. passed. subst.
  exists [Called ClassFn "fromJS" [objects_at samples k; context options]]. split.
  - log_back. rewrite app_nil_r. reflexivity.
  - constructor; [| constructor]. exists k. auto.
Qed.

Lemma check_equalities_logs j w w' :
  (j < length samples)%nat ->
  check_equalities code host ClassFn samples options j w = (Ok tt, w') ->
  logs_originals w w'.
Proof.
  intros Hj H. unfold check_equalities in H. step H.
  apply (logs_originals_trans _ w0).
  - exists [Called ClassFn "fromJS" [objects_at samples j; context options]]. split.
    + log_back. reflexivity.
    + constructor; [| constructor]. exists j. auto.
  - unfold for_range in H.
    refine (for_upto_invariant logs_originals _ _ logs_originals_refl logs_originals_trans
              _ _ _ _ H).
    intros k a b Hk Hbody. eapply check_pair_logs; [| exact Hbody]. lia.
Qed.

Lemma equalities_log w w' :
  for_range 0 (length samples)
    (check_equalities code host ClassFn samples options) w = (Ok tt, w') ->
  logs_originals w w'.
Proof.
  unfold for_range. intros H.
  refine (for_upto_invariant logs_originals _ _ logs_originals_refl logs_originals_trans
            _ _ _ _ H).
  intros j a b Hj Hbody. eapply check_equalities_logs; [| exact Hbody]. lia.
Qed.
End Originals.

(** ** The reference host allocates what it parses *)

Lemma revive_allocates :
  forall (j : json) (h : heap),
    exists v h',
      revive j h = (Ok v, h')
      /\ (length h <= length h')%nat
      /\ forall l, v = VRef l -> (length h <= l < length h')%nat.
Proof.
  fix IH 1. intros [| b | n | s | items | members] h; simpl.
  - exists VNull, h. repeat split; try lia; discriminate.
  - exists (VBool b), h. repeat split; try lia; discriminate.
  - exists (VNum n), h. repeat split; try lia; discriminate.
  - exists (VStr s), h. repeat split; try lia; discriminate.
  - assert (Hwalk : forall h0,
               exists vs h1,
                 (fix walk (l : list json) : ST heap (list value) :=
                    match l with
                    | [] => ret []
                    | x :: rest => bind (revive x) (fun v => bind (walk rest) (fun more => ret (v :: more)))
                    end) items h0 = (Ok vs, h1)
                 /\ (length h0 <= length h1)%nat).
    { induction items as [| x items IHitems]; intros h0.
      - exists [], h0. split; [reflexivity | lia].
      - destruct (IH x h0) as (v & h1 & Hv & Hlen & _).
        destruct (IHitems h1) as (vs & h2 & Hvs & Hlen2).
        exists (v :: vs), h2. split; [| lia].
        rewrite (bind_ok _ _ _ _ _ Hv). rewrite (bind_ok _ _ _ _ _ Hvs). reflexivity. }
    destruct (Hwalk h) as (vs & h1 & Hvs & Hlen).
    exists (VRef (length h1)), (h1 ++ [array_literal vs]).
    split; [rewrite (bind_ok _ _ _ _ _ Hvs); reflexivity |].
    rewrite length_app. simpl. split; [lia |].
    intros l Hl. injection Hl as <-. lia.
  - assert (Hwalk : forall acc h0,
               exists props h1,
                 (fix walk (l : list (string * json)) (acc : list (string * prop))
                    : ST heap (list (string * prop)) :=
                    match l with
                    | [] => ret acc
                    | (k, x) :: rest => bind (revive x) (fun v => walk rest (update_prop k v acc))
                    end) members acc h0 = (Ok props, h1)
                 /\ (length h0 <= length h1)%nat).
    { induction members as [| [k x] members IHmembers]; intros acc h0.
      - exists acc, h0. split; [reflexivity | lia].
      - destruct (IH x h0) as (v & h1 & Hv & Hlen & _).
        destruct (IHmembers (update_prop k v acc) h1) as (props & h2 & Hprops & Hlen2).
        exists props, h2. split; [| lia].
        rewrite (bind_ok _ _ _ _ _ Hv). exact Hprops. }
    destruct (Hwalk [] h) as (props & h1 & Hprops & Hlen).
    exists (VRef (length h1)), (h1 ++ [mk_object KObject (VRef Object_prototype) props]).
    split; [rewrite (bind_ok _ _ _ _ _ Hprops); reflexivity |].
    rewrite length_app. simpl. split; [lia |].
    intros l Hl. injection Hl as <-. lia.
Qed.

Lemma ref_parse_allocates (code : code_table) : parse_allocates (ref_host code).
Proof.
  intros text h h' l H. simpl in H. unfold ref_parse in H.
  destruct text; try discriminate H.
  destruct (parse_json s) as [j |]; [| discriminate H].
  destruct (revive_allocates j h) as (v & h1 & Hv & _ & Hl).
  rewrite Hv in H. injection H as -> <-. apply Hl. reflexivity.
Qed.

(** The facts of a concrete run, one after the other, by computation. *)
Ltac run_facts :=
  hnf;
  lazymatch goal with
  | |- ex _ => eexists; run_facts
  | |- and _ _ => split; [run_facts | run_facts]
  | |- _ => vm_compute; first [reflexivity | repeat constructor]
  end.

(** ** The property descriptors (lines 295-304) *)

Lemma for_each_pure_ok_inv {St A} (body : A -> ST St unit) (l : list A) :
  (forall x s s', body x s = (Ok tt, s') -> s' = s) ->
  forall s s',
    for_each l body s = (Ok tt, s') ->
    s' = s /\ forall x, In x l -> body x s = (Ok tt, s).
Proof.
  intros Hbody. induction l as [| y l IH]; intros s s' H.
  - simpl in H. injection H as <-. split; [reflexivity | intros x []].
  - simpl in H. apply bind_ok_inv in H as ([] & s1 & Hfirst & Hrest).
    pose proof (Hbody _ _ _ Hfirst) as ->.
    destruct (IH _ _ Hrest) as [-> Hall]. split; [reflexivity |].
    intros x [-> | Hx]; [exact Hfirst | exact (Hall x Hx)].
Qed.

Lemma get_pure v key (h : heap) r h' : get v key h = (r, h') -> h' = h.
Proof.
  unfold get. destruct v; intros H;
    repeat match type of H with
      | (if ?c then _ else _) = _ => destruct c
      | match ?c with _ => _ end = _ => destruct c
      end;
    injection H as _ <-; reflexivity.
Qed.

Lemma Object_keys_pure v (h : heap) r h' : Object_keys v h = (r, h') -> h' = h.
Proof. unfold Object_keys. destruct v; intros H; injection H as _ <-; reflexivity. Qed.

Lemma lift_pure {A} (m : ST heap A) w r w' :
  (forall h r h', m h = (r, h') -> h' = h) ->
  lift m w = (r, w') -> w' = w /\ m (w_heap w) = (r, w_heap w).
Proof.
  intros Hpure H. pose proof (lift_calls _ _ _ _ H) as Hc.
  apply lift_run in H. pose proof (Hpure _ _ _ H) as Hh.
  rewrite Hh in H. split; [| exact H].
  destruct w, w'. simpl in *. congruence.
Qed.

(** What the check of the descriptors establishes: every key of every
    descriptor is a recognized key, and a descriptor that has a key has a
    name that is text. A descriptor without keys is not looked at. *)
Lemma descriptors_with_keys_checked (host : Host) ClassFn w w' :
  check_properties host ClassFn w = (Ok tt, w') ->
  w' = w
  /\ forall PROPERTIES,
       get ClassFn "PROPERTIES" (w_heap w) = (Ok PROPERTIES, w_heap w) ->
       truthy PROPERTIES = true ->
       exists descriptors,
         array_elems (w_heap w) PROPERTIES = Some descriptors
         /\ forall property keys key name,
              In property descriptors ->
              Object_keys property (w_heap w) = (Ok keys, w_heap w) ->
              In key keys ->
              get property "name" (w_heap w) = (Ok name, w_heap w) ->
              mem key PROPERTY_KEYS = true /\ exists s, name = VStr s.
Proof.
  intros H. unfold check_properties in H. step H.
  apply (lift_pure _ _ _ _ (get_pure _ _)) in E as [-> Hget].
  destruct (truthy v) eqn:Ht.
  - step H. apply expect_a_ok_inv in E as [Harr ->]. step H. apply read_inv in E as [-> ->].
    assert (Hkey_pure : forall property key a b,
               bind (expect_include host PROPERTY_KEYS key)
                 (fun _ => bind (lift (get property "name"))
                             (fun name => expect_a host name "" "string")) a = (Ok tt, b) ->
               b = a).
    { intros property key a b Hk. repeat step Hk.
      unfold expect_include in E. apply expect_ok_inv in E as [_ ->].
      apply (lift_pure _ _ _ _ (get_pure _ _)) in E0 as [-> _].
      apply expect_a_ok_inv in Hk as [_ ->]. reflexivity. }
    assert (Hprop_pure : forall property a b,
               bind (lift (Object_keys property))
                 (fun keys => for_each keys (fun key =>
                    bind (expect_include host PROPERTY_KEYS key)
                      (fun _ => bind (lift (get property "name"))
                                  (fun name => expect_a host name "" "string")))) a
               = (Ok tt, b) -> b = a).
    { intros property a b Hp. step Hp.
      apply (lift_pure _ _ _ _ (Object_keys_pure _)) in E as [-> _].
      exact (proj1 (for_each_pure_ok_inv _ _ (Hkey_pure property) _ _ Hp)). }
    destruct (for_each_pure_ok_inv _ _ Hprop_pure _ _ H) as [-> Hall].
    split; [reflexivity |]. intros P HP _. rewrite Hget in HP. injection HP as <-.
    assert (Hd : exists descriptors, array_elems (w_heap w) v = Some descriptors).
    { unfold type_detect in Harr. destruct v; try discriminate Harr.
      destruct (is_function (w_heap w) (VRef l)); [discriminate Harr |].
      unfold Array_isArray in Harr.
      destruct (array_elems (w_heap w) (VRef l)); [eauto | discriminate Harr]. }
    destruct Hd as (descriptors & Hd). exists descriptors. split; [exact Hd |].
    rewrite Hd in Hall. simpl in Hall.
    intros property keys key name Hin Hkeys Hkey Hname.
    pose proof (Hall property Hin) as Hp. step Hp.
    apply (lift_pure _ _ _ _ (Object_keys_pure _)) in E as [-> Hk].
    rewrite Hkeys in Hk. injection Hk as <-.
    destruct (for_each_pure_ok_inv _ _ (Hkey_pure property) _ _ Hp) as [_ Hkeys_ok].
    pose proof (Hkeys_ok key Hkey) as Hone. repeat step Hone.
    unfold expect_include in E. apply expect_ok_inv in E as [Hmem ->].
    apply (lift_pure _ _ _ _ (get_pure _ _)) in E0 as [-> Hn].
    rewrite Hname in Hn. injection Hn as <-.
    apply expect_a_ok_inv in Hone as [Hty _].
    split; [exact Hmem |].
    unfold type_detect in Hty. destruct name; try discriminate Hty; [eauto |].
    destruct (is_function (w_heap w) (VRef l)); [discriminate Hty |].
    destruct (Array_isArray (w_heap w) (VRef l)); discriminate Hty.
  - unfold ret in H. injection H as <-. split; [reflexivity |].
    intros P HP HPt. rewrite Hget in HP. injection HP as <-. congruence.
Qed.

(** ** The loops over the pairs hand over the samples (C10) *)


(** * The theorems at work: the tests of index.mocha.ts and further runs *)

(** C6 at three calls: a string for a class, [null] for the samples, and a
    function without a name for a class. *)
Lemma preconditions_checked_first_witness :
  let w := start test_heap koalas in
  let run ClassFn objects :=
    testImmutableClass test_code (ref_host test_code) ClassFn objects no_options w in
  run (VStr "Animal") (VRef 40)
  = (Throw (JsError TypeError "ClassFn must be a constructor function"), w)
  /\ run Animal VNull
     = (Throw (JsError TypeError "objects must be a non-empty array of js to test"), w)
  /\ run (VRef Function_prototype) (VRef 40)
     = (Throw (JsError PlainError "Class must have a name of at least 1 letter"), w).
Proof.
  intros w run. unfold run. split; [| split].
  - apply (proj1 (preconditions_checked_first test_code (ref_host test_code)
                    (VStr "Animal") (VRef 40) no_options w)).
    reflexivity.
  - apply (proj1 (proj2 (preconditions_checked_first test_code (ref_host test_code)
                           Animal VNull no_options w))).
    + reflexivity.
    + left. reflexivity.
  - apply (proj2 (proj2 (preconditions_checked_first test_code (ref_host test_code)
                           (VRef Function_prototype) (VRef 40) no_options w))).
    + reflexivity.
    + exists (VStr "Koala"), [VStr "Snake"; VStr "Dog"; VStr "Cat"]. reflexivity.
    + reflexivity.
Defined.





(** Without [newThrows] the class [Guarded] fails with the error of its own
    constructor; with [newThrows] the class [Animal] fails because its
    constructor does not throw. *)
Example newThrows_must_match_the_class :
  verdict (run_checker example_code example_heap Guarded [VStr "a"; VStr "b"] no_options)
  = Throw (JsError TypeError "can not call `new Guarded` directly use Guarded.fromJS")
  /\ verdict (run_checker test_code test_heap Animal koalas
                (mk_options (Some true) VUndefined))
     = Throw (JsError AssertionError
                "new Animal did not throw as indicated [in object 0]: expected [Function] to throw Error").
Proof. split; vm_compute; reflexivity. Qed.


(** C7. The class [Visitor], whose [fromJS] counts its visits in its
    argument, checked on the sample [{ name: 'a' }]: the run ends at sample 0
    with the error that says that [fromJS] modified its input, and the
    message of that error carries no tag [[in object 0]], unlike the
    messages of the other assertions of the loop. *)
Theorem modified_input_message_has_no_tag :
  let r := verdict (run_checker example_code (with_sample [("name", VStr "a")] example_heap)
                      Visitor [VRef 73] no_options) in
  r = Throw (JsError AssertionError
               "Visitor.fromJS function modified its input :-(: expected { name: 'a', visits: 2 } to deeply equal { name: 'a', visits: 1 }")
  /\ contains "[in object" (message_of r) = false
  /\ contains "[in object 3]"
       (message_of (verdict (run_checker test_code test_heap Animal hash_cat no_options)))
     = true.
Proof. cbv zeta. split; [| split]; vm_compute; reflexivity. Qed.

(** C8. The class [Animal] with [PROPERTIES = [{}]]: the only descriptor has
    no key and no name, the check of the descriptors passes and so does the
    whole run. A descriptor with one recognized key and no name is refused,
    and so is one with an unrecognized key. *)
Theorem descriptor_without_keys_passes :
  let h := heap_with_empty_descriptor in
  (exists PROPERTIES descriptor,
     get Animal "PROPERTIES" h = (Ok PROPERTIES, h)
     /\ array_elems h PROPERTIES = Some [descriptor]
     /\ Object_keys descriptor h = (Ok [], h)
     /\ get descriptor "name" h = (Ok VUndefined, h))
  /\ check_properties (ref_host test_code) Animal (mk_world h [])
     = (Ok tt, mk_world h [])
  /\ verdict (run_checker test_code h Animal koalas no_options) = Ok tt
  /\ verdict (run_checker test_code (heap_with_descriptor "type") Animal koalas no_options)
     = Throw (JsError AssertionError "expected undefined to be a string")
  /\ verdict (run_checker test_code (heap_with_descriptor "title") Animal koalas no_options)
     = Throw (JsError AssertionError "expected [ Array(13) ] to include 'title'").
Proof.
  cbv zeta. split; [| split; [| split; [| split]]]; try (vm_compute; reflexivity).
  do 2 eexists. split; [vm_compute; reflexivity |].
  split; [vm_compute; reflexivity |]. split; vm_compute; reflexivity.
Qed.




(** ** The tests of index.mocha.ts *)

Example works_for_Animal_class :
  verdict (run_checker test_code test_heap Animal koalas no_options) = Ok tt.
Proof. vm_compute. reflexivity. Qed.

Example rejects_AnimalNoFromJS_class :
  verdict (run_checker test_code test_heap AnimalNoFromJS
             [VStr "Koala"; VStr "Snake"; VStr "Dog"] no_options)
  = Throw (JsError AssertionError
             "AnimalNoFromJS.fromJS should exist: expected undefined to be a function").
Proof. vm_compute. reflexivity. Qed.

Example rejects_AnimalBadToJS_class :
  verdict (run_checker test_code test_heap AnimalBadToJS
             [VStr "Koala"; VStr "Snake"; VStr "Dog"] no_options)
  = Throw (JsError AssertionError
             "AnimalBadToJS.fromJS(obj).toJS() was not a fixed point (did not deep equal obj) [in object 0]: expected 'Bad Koala' to deeply equal 'Koala'").
Proof. vm_compute. reflexivity. Qed.

Example works_for_AnimalWithContext_class :
  verdict (run_checker test_code (test_heap ++ [animalWeights]) AnimalWithContext
             [VStr "Koala"; VStr "Snake"; VStr "Dog"] (mk_options None (VRef 40)))
  = Ok tt
  /\ verdict (run_checker test_code test_heap AnimalWithContext
                [VStr "Koala"; VStr "Snake"; VStr "Dog"] no_options)
     = Throw (JsError TypeError "Cannot read property 'Koala' of undefined").
Proof. split; vm_compute; reflexivity. Qed.

(** * Further properties of the checker and of the classes of index.mocha.ts *)

(** ** The checks of the methods (lines 283-293) *)

Lemma type_detect_function (h : heap) v :
  type_detect h v = "function" -> is_function h v = true.
Proof.
  unfold type_detect. destruct v; try discriminate.
  destruct (is_function h (VRef l)); [reflexivity |].
  destruct (Array_isArray h (VRef l)); discriminate.
Qed.

Lemma type_detect_not_function (h : heap) v :
  is_function h v = false -> type_detect h v <> "function".
Proof.
  intros Hf Ht. apply type_detect_function in Ht. congruence.
Qed.

Lemma type_detect_string (h : heap) v :
  type_detect h v = "string" -> exists s, v = VStr s.
Proof.
  unfold type_detect. destruct v; try discriminate; [eauto |].
  destruct (is_function h (VRef l)); [discriminate |].
  destruct (Array_isArray h (VRef l)); discriminate.
Qed.

Lemma lift_get_inv v key w r w' :
  lift (get v key) w = (r, w') -> w' = w /\ get v key (w_heap w) = (r, w_heap w).
Proof. apply lift_pure. apply get_pure. Qed.

Section MethodChecks.
Variable code : code_table.
Variable host : Host.
Variable ClassFn : value.
Variable objects : value.
Variable options : TesterOptions.

(** X1. In a run that ends well, [ClassFn.fromJS] is a function, it was
    called on the first sample and the context and returned an instance
    whose [valueOf] and [toString] are not those of [Object.prototype] and
    whose [toJS], [toJSON] and [equals] are functions (lines 283-293). *)
Theorem methods_of_the_class_asserted :
  forall w0 wf,
    testImmutableClass code host ClassFn objects options w0 = (Ok tt, wf) ->
    exists samples fromJS instance w1 valueOf toString toJS toJSON equals,
      array_elems (w_heap w0) objects = Some samples
      /\ get ClassFn "fromJS" (w_heap w0) = (Ok fromJS, w_heap w0)
      /\ is_function (w_heap w0) fromJS = true
      /\ call code ClassFn "fromJS" [nth 0 samples VUndefined; context options] w0
         = (Ok instance, w1)
      /\ get instance "valueOf" (w_heap w1) = (Ok valueOf, w_heap w1)
      /\ get (VRef Object_prototype) "valueOf" (w_heap w1) <> (Ok valueOf, w_heap w1)
      /\ get instance "toString" (w_heap w1) = (Ok toString, w_heap w1)
      /\ get (VRef Object_prototype) "toString" (w_heap w1) <> (Ok toString, w_heap w1)
      /\ get instance "toJS" (w_heap w1) = (Ok toJS, w_heap w1)
      /\ is_function (w_heap w1) toJS = true
      /\ get instance "toJSON" (w_heap w1) = (Ok toJSON, w_heap w1)
      /\ is_function (w_heap w1) toJSON = true
      /\ get instance "equals" (w_heap w1) = (Ok equals, w_heap w1)
      /\ is_function (w_heap w1) equals = true.
Proof.
  intros w0 wf H.
  apply run_ok_inv in H as (samples & className & w1 & w2 & Ha & (Hargs & wm & Hm & _) & _).
  unfold check_methods in Hm. cbv zeta in Hm. repeat step Hm. passed.
  repeat match goal with
         | E : lift (get _ _) _ = _ |- _ => apply lift_get_inv in E as [-> E]
         end.
  repeat match goal with
         | E : type_detect _ _ = "function" |- _ => apply type_detect_function in E
         end.
  match goal with
  | C : call code ClassFn "fromJS" _ w0 = (Ok ?inst, ?wa),
    G : get ClassFn "fromJS" _ = (Ok ?f, _),
    G1 : get ?inst "valueOf" _ = (Ok ?a, _),
    G2 : get ?inst "toString" _ = (Ok ?b, _),
    G3 : get ?inst "toJS" _ = (Ok ?c, _),
    G4 : get ?inst "toJSON" _ = (Ok ?d, _),
    G5 : get ?inst "equals" _ = (Ok ?e, _) |- _ =>
      exists samples, f, inst, wa, a, b, c, d, e
  end.
  repeat (split; [first [assumption | congruence] |]). assumption.
Qed.

Lemma run_without_fromJS :
  forall w0 samples className fromJS,
    check_arguments ClassFn objects w0 = (Ok (samples, className), w0) ->
    get ClassFn "fromJS" (w_heap w0) = (Ok fromJS, w_heap w0) ->
    is_function (w_heap w0) fromJS = false ->
    testImmutableClass code host ClassFn objects options w0
    = (Throw (JsError AssertionError
                (chai_message (className +:+ ".fromJS should exist")
                   ("expected " +:+ inspect host (w_heap w0) fromJS
                    +:+ " to be a function"))), w0).
Proof.
  intros w0 samples className fromJS Ha Hg Hf.
  unfold testImmutableClass. fwd Ha. cbv iota.
  apply bind_throw. unfold check_methods. cbv zeta.
  assert (Hl : lift (get ClassFn "fromJS") w0 = (Ok fromJS, w0)).
  { unfold lift. rewrite Hg. rewrite world_eta. reflexivity. }
  fwd Hl. apply bind_throw. unfold expect_a.
  apply (expect_fail (fun h => String.eqb (type_detect h fromJS) "function")).
  apply String.eqb_neq. apply type_detect_not_function. exact Hf.
Qed.

(** X2. A class that passes the preconditions and whose [fromJS] is not a
    function is rejected before anything is called: the run ends with the
    assertion error "<className>.fromJS should exist: expected <fromJS> to be
    a function" and leaves the heap and the log of calls as they were
    (line 284). *)
Theorem class_without_fromJS_rejected :
  forall w0 samples className fromJS,
    check_arguments ClassFn objects w0 = (Ok (samples, className), w0) ->
    get ClassFn "fromJS" (w_heap w0) = (Ok fromJS, w_heap w0) ->
    is_function (w_heap w0) fromJS = false ->
    testImmutableClass code host ClassFn objects options w0
    = (Throw (JsError AssertionError
                (chai_message (className +:+ ".fromJS should exist")
                   ("expected " +:+ inspect host (w_heap w0) fromJS
                    +:+ " to be a function"))), w0).
Proof. exact run_without_fromJS. Qed.

End MethodChecks.

Lemma instanceof_true_ref x C (h : heap) :
  instanceof x C h = (Ok true, h) -> exists l, x = VRef l.
Proof.
  unfold instanceof. destruct (negb (is_function h C)); [discriminate |].
  destruct (lookup_chain (chain_fuel h) h C "prototype"); try (destruct (is_ref x); discriminate).
  intros H. injection H as H. destruct x; try discriminate H. eauto.
Qed.

Section SampleChecks.
Variable code : code_table.
Variable host : Host.
Variable ClassFn : value.
Variable objects : value.
Variable options : TesterOptions.




(** X7. In a run that ends well, if [ClassFn.PROPERTIES] is truthy it is an
    array, and for every descriptor in it every own enumerable key is one of
    the thirteen [PROPERTY_KEYS] and, if the descriptor has a key at all, its
    [name] is text (lines 295-304). *)
Theorem property_descriptors_asserted :
  forall w0 wf,
    testImmutableClass code host ClassFn objects options w0 = (Ok tt, wf) ->
    exists samples className w1,
      check_methods code host ClassFn samples options className w0 = (Ok tt, w1)
      /\ check_properties host ClassFn w1 = (Ok tt, w1)
      /\ forall PROPERTIES,
           get ClassFn "PROPERTIES" (w_heap w1) = (Ok PROPERTIES, w_heap w1) ->
           truthy PROPERTIES = true ->
           exists descriptors,
             array_elems (w_heap w1) PROPERTIES = Some descriptors
             /\ forall property keys key name,
                  In property descriptors ->
                  Object_keys property (w_heap w1) = (Ok keys, w_heap w1) ->
                  In key keys ->
                  get property "name" (w_heap w1) = (Ok name, w_heap w1) ->
                  mem key PROPERTY_KEYS = true /\ exists s, name = VStr s.
Proof.
  intros w0 wf H.
  apply run_ok_inv in H as (samples & className & w1 & w2 & _ & (_ & wm & Hm & Hp) & _).
  destruct (descriptors_with_keys_checked _ _ _ _ Hp) as [-> Hall].
  exists samples, className, wm. auto.
Qed.

(** X8. After the checks of the methods, a truthy [ClassFn.PROPERTIES] that
    is not an array ends the run with "PROPERTIES should be an array: expected
    <value> to be an array"; an array whose first descriptor has an unknown
    first key ends it with "expected [ Array(13) ] to include '<key>'"
    (lines 296-300). *)
Theorem malformed_PROPERTIES_rejected :
  forall w0 samples className w1 PROPERTIES,
    check_arguments ClassFn objects w0 = (Ok (samples, className), w0) ->
    check_methods code host ClassFn samples options className w0 = (Ok tt, w1) ->
    get ClassFn "PROPERTIES" (w_heap w1) = (Ok PROPERTIES, w_heap w1) ->
    truthy PROPERTIES = true ->
    (Array_isArray (w_heap w1) PROPERTIES = false ->
     testImmutableClass code host ClassFn objects options w0
     = (Throw (JsError AssertionError
                 (chai_message "PROPERTIES should be an array"
                    ("expected " +:+ inspect host (w_heap w1) PROPERTIES
                     +:+ " to be an array"))), w1))
    /\ (forall property others key keys,
          array_elems (w_heap w1) PROPERTIES = Some (property :: others) ->
          Object_keys property (w_heap w1) = (Ok (key :: keys), w_heap w1) ->
          mem key PROPERTY_KEYS = false ->
          testImmutableClass code host ClassFn objects options w0
          = (Throw (JsError AssertionError
                      ("expected [ Array(13) ] to include "
                       +:+ inspect host (w_heap w1) (VStr key))), w1)).
Proof.
  intros w0 samples className w1 P Ha Hm Hg Ht.
  assert (Hl : lift (get ClassFn "PROPERTIES") w1 = (Ok P, w1)).
  { unfold lift. rewrite Hg. rewrite world_eta. reflexivity. }
  split.
  - intros Harr. unfold testImmutableClass. fwd Ha. cbv iota. fwd Hm.
    apply bind_throw. unfold check_properties. fwd Hl. rewrite Ht.
    apply bind_throw. unfold expect_a.
    apply (expect_fail (fun h => String.eqb (type_detect h P) "array")).
    apply String.eqb_neq. unfold type_detect. destruct P; try discriminate.
    destruct (is_function (w_heap w1) (VRef l)); [discriminate |].
    rewrite Harr. discriminate.
  - intros property others key keys Harr Hkeys Hmem.
    unfold testImmutableClass. fwd Ha. cbv iota. fwd Hm.
    apply bind_throw. unfold check_properties. fwd Hl. rewrite Ht.
    assert (He : expect_a host P "PROPERTIES should be an array" "array" w1 = (Ok tt, w1)).
    { unfold expect_a. apply (expect_pass (fun h => String.eqb (type_detect h P) "array")).
      unfold type_detect, Array_isArray, is_function, function_of.
      unfold array_elems in Harr |- *.
      destruct P; try discriminate Harr.
      destruct (w_heap w1 !! l) as [[[] ? ?] |]; try discriminate Harr. reflexivity. }
    fwd He.
    assert (Hr : read (fun w => default [] (array_elems (w_heap w) P)) w1
                 = (Ok (property :: others), w1)).
    { unfold read. rewrite Harr. reflexivity. }
    fwd Hr. simpl for_each. apply bind_throw.
    assert (Hk : lift (Object_keys property) w1 = (Ok (key :: keys), w1)).
    { unfold lift. rewrite Hkeys. rewrite world_eta. reflexivity. }
    fwd Hk. simpl for_each. apply bind_throw. apply bind_throw.
    unfold expect_include.
    rewrite (expect_fail (fun _ => mem key PROPERTY_KEYS)); [| exact Hmem].
    reflexivity.
Qed.
End SampleChecks.

(** ** How many calls a run makes *)

Lemma for_upto_count {St} (f : St -> nat) (c : nat -> nat) (body : nat -> ST St unit) n :
  forall start s s',
    (forall i a b, (start <= i < start + n)%nat -> body i a = (Ok tt, b) -> f b = (f a + c i)%nat) ->
    for_upto n start body s = (Ok tt, s') ->
    f s' = (f s + sum_upto n start c)%nat.
Proof.
  induction n as [| n IH]; intros start s s' Hbody H.
  - simpl in H. injection H as <-. simpl. lia.
  - simpl in H. apply bind_ok_inv in H as ([] & s1 & Hfirst & Hrest).
    simpl. rewrite (IH (S start) s1 s'); [| | exact Hrest].
    + rewrite (Hbody start s s1); [lia | lia | exact Hfirst].
    + intros i a b Hi. apply Hbody. lia.
Qed.

Lemma sum_upto_const n c : forall start, sum_upto n start (fun _ => c) = (n * c)%nat.
Proof. induction n as [| n IH]; intros start; simpl; [reflexivity | rewrite IH; lia]. Qed.

Lemma sum_upto_ext n c c' :
  forall start,
    (forall i, (start <= i < start + n)%nat -> c i = c' i) ->
    sum_upto n start c = sum_upto n start c'.
Proof.
  induction n as [| n IH]; intros start H; simpl; [reflexivity |].
  rewrite (H start) by lia. rewrite (IH (S start)); [reflexivity |].
  intros i Hi. apply H. lia.
Qed.

(** [1 + 2 + ... + m], twice *)
Lemma sum_upto_countdown N m :
  forall start,
    (start + m = N)%nat ->
    (2 * sum_upto m start (fun j => N - j) = m * (m + 1))%nat.
Proof.
  induction m as [| m IH]; intros start H; simpl; [reflexivity |].
  specialize (IH (S start) ltac:(lia)).
  replace (N - start)%nat with (S m) by lia. nia.
Qed.

Lemma half_of_double a b : (2 * a = b)%nat -> a = (b / 2)%nat.
Proof. intros <-. symmetry. rewrite Nat.mul_comm. apply Nat.div_mul. lia. Qed.

Section Counts.
Variable code : code_table.
Variable host : Host.
Variable ClassFn : value.
Variable options : TesterOptions.

Lemma call_count obj key args w v w' name :
  call code obj key args w = (Ok v, w') ->
  count_calls name w' = (count_calls name w + if String.eqb key name then 1 else 0)%nat.
Proof.
  intros H. unfold count_calls. rewrite (call_calls_of _ _ _ _ _ _ _ name H), length_app.
  destruct (String.eqb key name); reflexivity.
Qed.

Lemma lift_count {A} (m : ST heap A) w r w' name :
  lift m w = (r, w') -> count_calls name w' = count_calls name w.
Proof. intros H. unfold count_calls. rewrite (lift_calls _ _ _ _ H). reflexivity. Qed.

Lemma new_count C args w r w' name :
  new_ code C args w = (r, w') -> count_calls name w' = count_calls name w.
Proof. intros H. unfold count_calls. rewrite (new_calls _ _ _ _ _ _ name H). reflexivity. Qed.

End Counts.

Ltac count_back :=
  repeat match goal with
    | E : lift _ ?w = (_, ?w') |- context [count_calls ?n ?w'] =>
        rewrite (lift_count _ _ _ _ n E)
    | E : call _ _ _ _ ?w = (Ok _, ?w') |- context [count_calls ?n ?w'] =>
        rewrite (call_count _ _ _ _ _ _ _ n E); simpl String.eqb; cbv iota
    | E : new_ _ _ _ ?w = (_, ?w') |- context [count_calls ?n ?w'] =>
        rewrite (new_count _ _ _ _ _ _ n E)
    end.

Section CountsOfARun.
Variable code : code_table.
Variable host : Host.
Variable ClassFn : value.
Variable objects : value.
Variable options : TesterOptions.

Lemma check_methods_count samples className w w' :
  check_methods code host ClassFn samples options className w = (Ok tt, w') ->
  count_calls "fromJS" w' = (count_calls "fromJS" w + 1)%nat
  /\ count_calls "equals" w' = count_calls "equals" w.
Proof.
  intros H. unfold check_methods in H. cbv zeta in H. repeat step H. passed.
  split; count_back; lia.
Qed.

Lemma check_sample_count samples className i w w' :
  check_sample code host ClassFn samples options className i w = (Ok tt, w') ->
  count_calls "fromJS" w' = (count_calls "fromJS" w + 2)%nat
  /\ count_calls "equals" w'
     = (count_calls "equals" w + if default false (newThrows options) then 5 else 6)%nat.
Proof.
  intros H. invert_sample H.
  match goal with
  | N : (if default false (newThrows options) then _ else _) _ = (Ok _, _) |- _ =>
      destruct (newThrows options) as [[|] |]; simpl in N |- *;
      try (apply expect_throw_ok_inv in N as (e & N & _));
      repeat step N; passed; subst;
      (split; count_back; lia)
  end.
Qed.

Lemma check_pair_count samples j objectJ k w w' :
  check_pair code host ClassFn samples options j objectJ k w = (Ok tt, w') ->
  count_calls "fromJS" w' = (count_calls "fromJS" w + 1)%nat
  /\ count_calls "equals" w' = (count_calls "equals" w + 1)%nat.
Proof.
  intros H. unfold check_pair in H. repeat step H. passed. subst.
  split; count_back; lia.
Qed.

Lemma check_equalities_count samples j w w' :
  (j < length samples)%nat ->
  check_equalities code host ClassFn samples options j w = (Ok tt, w') ->
  count_calls "fromJS" w' = (count_calls "fromJS" w + (1 + (length samples - j)))%nat
  /\ count_calls "equals" w' = (count_calls "equals" w + (length samples - j))%nat.
Proof.
  intros Hj H. unfold check_equalities in H. step H. unfold for_range in H.
  split.
  - rewrite (for_upto_count (count_calls "fromJS") (fun _ => 1%nat) _ _ _ _ _
               (fun k a b _ Hb => proj1 (check_pair_count _ _ _ _ _ _ Hb)) H).
    rewrite sum_upto_const. count_back. lia.
  - rewrite (for_upto_count (count_calls "equals") (fun _ => 1%nat) _ _ _ _ _
               (fun k a b _ Hb => proj2 (check_pair_count _ _ _ _ _ _ Hb)) H).
    rewrite sum_upto_const. count_back. lia.
Qed.

End CountsOfARun.

(** ** The copy of the own properties (lines 347-351) *)

Lemma set_frame ll key v (h : heap) :
  exists h',
    set (VRef ll) key v h = (Ok tt, h')
    /\ length h' = length h
    /\ forall l, l <> ll -> h' !! l = h !! l.
Proof.
  unfold set. destruct (h !! ll) as [o |] eqn:Ho; [| eauto].
  destruct (String.eqb key "__proto__"); [destruct (is_ref v || bool_decide (v = VNull)) |];
    eexists; (split; [reflexivity |]); split;
    try (apply length_insert); try reflexivity;
    intros l Hl; try reflexivity; apply list_lookup_insert_ne; congruence.
Qed.

(** X10. The loop that builds the lazy copy (lines 347-351) never throws and
    writes to the copy only: the heap keeps its size and every object other
    than the copy is as before, the instance included. *)
Theorem lazy_copy_changes_only_the_copy (inst : value) (ll : loc) (keys : list string) :
  forall h : heap,
    exists h',
      copy_own_props inst (VRef ll) keys h = (Ok tt, h')
      /\ length h' = length h
      /\ forall l, l <> ll -> h' !! l = h !! l.
Proof.
  induction keys as [| key keys IH]; intros h.
  - exists h. simpl. unfold ret. auto.
  - simpl. unfold bind at 1. unfold read.
    destruct (hasOwnProp h inst key) eqn:Hown; [| apply IH].
    assert (Hget : exists v, get inst key h = (Ok v, h)).
    { unfold hasOwnProp in Hown. unfold get.
      destruct inst; try discriminate Hown.
      - destruct (String.eqb key "__proto__"); [eauto |].
        destruct (String.eqb key "length"); [eauto |].
        destruct (index_of_key (String.length s) key); eauto.
      - destruct (String.eqb key "__proto__"); eauto. }
    destruct Hget as [v Hget]. rewrite (bind_ok _ _ _ _ _ Hget).
    destruct (set_frame ll key v h) as (h1 & Hset & Hlen & Hframe).
    rewrite (bind_ok _ _ _ _ _ Hset).
    destruct (IH h1) as (h' & Hrun & Hlen' & Hframe').
    exists h'. split; [exact Hrun |]. split; [congruence |].
    intros l Hl. rewrite (Hframe' l Hl). apply Hframe. exact Hl.
Qed.

(** ** [isInstanceOf] (index.mocha.ts, lines 22-34) *)

Lemma get_truthy v key (h : heap) :
  truthy v = true -> exists x, get v key h = (Ok x, h).
Proof.
  unfold get. destruct v; try discriminate; intros _;
    repeat match goal with
      | |- context [if ?c then _ else _] => destruct c
      | |- context [match ?c with _ => _ end] => destruct c
      end; eauto.
Qed.

Lemma get_proto_truthy v (h : heap) :
  truthy v = true -> get v "__proto__" h = (Ok (proto_of h v), h).
Proof. destruct v; try discriminate; reflexivity. Qed.

Lemma bind_read {St A B} (f : St -> A) (k : A -> ST St B) s :
  bind (read f) k s = k (f s) s.
Proof. reflexivity. Qed.

Lemma isInstanceOf_on_function thing constructor (h : heap) :
  is_function h constructor = true ->
  isInstanceOf thing constructor h
  = bind (instanceof thing constructor) (fun direct : bool =>
      if direct then ret true
      else if bool_decide (thing = VNull) || bool_decide (thing = VUndefined) then ret false
      else
        bind (read (fun h => function_name h constructor)) (fun constructorName =>
          if String.eqb constructorName "" then ret false
          else
            bind (get thing "__proto__") (fun thingProto =>
              bind (read chain_fuel) (fun fuel =>
                same_name_upchain fuel thingProto constructorName)))) h.
Proof. intros Hf. unfold isInstanceOf. rewrite bind_read, Hf. reflexivity. Qed.

Lemma same_name_upchain_answers fuel :
  forall proto name (h : heap),
    exists b, same_name_upchain fuel proto name h = (Ok b, h).
Proof.
  induction fuel as [| fuel IH]; intros proto name h; simpl; [unfold ret; eauto |].
  destruct (truthy proto) eqn:Hp; [| unfold ret; eauto].
  destruct (get_truthy proto "constructor" h Hp) as [ctor Hc].
  rewrite (bind_ok _ _ _ _ _ Hc).
  destruct (truthy ctor) eqn:Hct; [| unfold ret; eauto].
  destruct (get_truthy ctor "name" h Hct) as [n Hn].
  rewrite (bind_ok _ _ _ _ _ Hn).
  destruct (strict_equal n (VStr name)); [unfold ret; eauto |].
  rewrite (bind_ok _ _ _ _ _ (get_proto_truthy _ _ Hp)). apply IH.
Qed.

Lemma same_name_upchain_true fuel :
  forall proto name (h h' : heap),
    same_name_upchain fuel proto name h = (Ok true, h') ->
    truthy proto = true
    /\ exists q ctor,
         In q (proto :: prototypes fuel h proto)
         /\ get q "constructor" h = (Ok ctor, h)
         /\ get ctor "name" h = (Ok (VStr name), h).
Proof.
  induction fuel as [| fuel IH]; intros proto name h h' H; simpl in H; [discriminate H |].
  destruct (truthy proto) eqn:Hp; [| discriminate H]. split; [reflexivity |].
  destruct (get_truthy proto "constructor" h Hp) as [ctor Hc].
  rewrite (bind_ok _ _ _ _ _ Hc) in H.
  destruct (truthy ctor) eqn:Hct; [| discriminate H].
  destruct (get_truthy ctor "name" h Hct) as [n Hn].
  rewrite (bind_ok _ _ _ _ _ Hn) in H.
  destruct (strict_equal n (VStr name)) eqn:He.
  - apply bool_decide_eq_true_1 in He. subst n.
    exists proto, ctor. split; [left; reflexivity | auto].
  - rewrite (bind_ok _ _ _ _ _ (get_proto_truthy _ _ Hp)) in H.
    destruct (IH _ _ _ _ H) as (Hnext & q & c & Hin & Hq & Hname).
    exists q, c. split; [| auto]. right. simpl. rewrite Hnext. exact Hin.
Qed.

Lemma instanceof_nullish x C (h : heap) :
  is_function h C = true ->
  is_ref x = false ->
  instanceof x C h = (Ok false, h).
Proof.
  intros Hf Hx. unfold instanceof. rewrite Hf. simpl negb. cbv iota.
  destruct (lookup_chain (chain_fuel h) h C "prototype");
    destruct x; try discriminate Hx; reflexivity.
Qed.

(** X11. [isInstanceOf] (lines 22-25): a constructor that is not a function
    is a [TypeError] "constructor must be a function"; for a function,
    [null] and [undefined] are no instances; whatever is [instanceof] the
    constructor is an instance. The heap stays as it was. *)
Theorem isInstanceOf_guards (thing constructor : value) (h : heap) :
  (is_function h constructor = false ->
   isInstanceOf thing constructor h
   = (Throw (JsError TypeError "constructor must be a function"), h))
  /\ (is_function h constructor = true ->
      thing = VNull \/ thing = VUndefined ->
      isInstanceOf thing constructor h = (Ok false, h))
  /\ (instanceof thing constructor h = (Ok true, h) ->
      isInstanceOf thing constructor h = (Ok true, h)).
Proof.
  split; [| split].
  - intros Hf. unfold isInstanceOf. rewrite bind_read, Hf. reflexivity.
  - intros Hf Hn. rewrite (isInstanceOf_on_function _ _ _ Hf).
    rewrite (bind_ok _ _ _ _ _ (instanceof_nullish thing constructor h Hf
                                  ltac:(destruct Hn as [-> | ->]; reflexivity))).
    destruct Hn as [-> | ->]; reflexivity.
  - intros Hi.
    destruct (is_function h constructor) eqn:Hf.
    + rewrite (isInstanceOf_on_function _ _ _ Hf). rewrite (bind_ok _ _ _ _ _ Hi). reflexivity.
    + unfold instanceof in Hi. rewrite Hf in Hi. discriminate Hi.
Qed.




(** ** The theorems above at work *)

Lemma methods_of_the_class_asserted_witness :
  let code := test_code in
  let host := ref_host test_code in
  let ClassFn := Animal in
  let objects := VRef 40 in
  let options := no_options in
  let w0 := start test_heap koalas in
  let wf := snd (testImmutableClass code host ClassFn objects options w0) in
  testImmutableClass code host ClassFn objects options w0 = (Ok tt, wf)
  /\ exists samples fromJS instance w1 valueOf toString toJS toJSON equals,
       array_elems (w_heap w0) objects = Some samples
       /\ get ClassFn "fromJS" (w_heap w0) = (Ok fromJS, w_heap w0)
       /\ is_function (w_heap w0) fromJS = true
       /\ call code ClassFn "fromJS" [nth 0 samples VUndefined; context options] w0
          = (Ok instance, w1)
       /\ get instance "valueOf" (w_heap w1) = (Ok valueOf, w_heap w1)
       /\ get (VRef Object_prototype) "valueOf" (w_heap w1) <> (Ok valueOf, w_heap w1)
       /\ get instance "toString" (w_heap w1) = (Ok toString, w_heap w1)
       /\ get (VRef Object_prototype) "toString" (w_heap w1) <> (Ok toString, w_heap w1)
       /\ get instance "toJS" (w_heap w1) = (Ok toJS, w_heap w1)
       /\ is_function (w_heap w1) toJS = true
       /\ get instance "toJSON" (w_heap w1) = (Ok toJSON, w_heap w1)
       /\ is_function (w_heap w1) toJSON = true
       /\ get instance "equals" (w_heap w1) = (Ok equals, w_heap w1)
       /\ is_function (w_heap w1) equals = true.
Proof.
  intros code host ClassFn objects options w0 wf.
  assert (Hrun : testImmutableClass code host ClassFn objects options w0 = (Ok tt, wf))
    by (vm_compute; reflexivity).
  split; [exact Hrun |].
  exact (methods_of_the_class_asserted code host ClassFn objects options w0 wf Hrun).
Defined.

Lemma class_without_fromJS_rejected_witness :
  let w0 := start test_heap [VStr "Koala"; VStr "Snake"; VStr "Dog"] in
  testImmutableClass test_code (ref_host test_code) AnimalNoFromJS (VRef 40) no_options w0
  = (Throw (JsError AssertionError
              "AnimalNoFromJS.fromJS should exist: expected undefined to be a function"), w0).
Proof.
  intros w0.
  rewrite (class_without_fromJS_rejected test_code (ref_host test_code) AnimalNoFromJS
             (VRef 40) no_options w0 [VStr "Koala"; VStr "Snake"; VStr "Dog"]
             "AnimalNoFromJS" VUndefined);
    [vm_compute; reflexivity | vm_compute; reflexivity
     | vm_compute; reflexivity | vm_compute; reflexivity].
Defined.





Lemma property_descriptors_asserted_witness :
  let code := test_code in
  let host := ref_host test_code in
  let ClassFn := Animal in
  let objects := VRef 42 in
  let options := no_options in
  let w0 := start (heap_with_descriptor "name") koalas in
  let wf := snd (testImmutableClass code host ClassFn objects options w0) in
  testImmutableClass code host ClassFn objects options w0 = (Ok tt, wf)
  /\ exists samples className w1,
       check_methods code host ClassFn samples options className w0 = (Ok tt, w1)
       /\ check_properties host ClassFn w1 = (Ok tt, w1)
       /\ forall PROPERTIES,
            get ClassFn "PROPERTIES" (w_heap w1) = (Ok PROPERTIES, w_heap w1) ->
            truthy PROPERTIES = true ->
            exists descriptors,
              array_elems (w_heap w1) PROPERTIES = Some descriptors
              /\ forall property keys key name,
                   In property descriptors ->
                   Object_keys property (w_heap w1) = (Ok keys, w_heap w1) ->
                   In key keys ->
                   get property "name" (w_heap w1) = (Ok name, w_heap w1) ->
                   mem key PROPERTY_KEYS = true /\ exists s, name = VStr s.
Proof.
  intros code host ClassFn objects options w0 wf.
  assert (Hrun : testImmutableClass code host ClassFn objects options w0 = (Ok tt, wf))
    by (vm_compute; reflexivity).
  split; [exact Hrun |].
  exact (property_descriptors_asserted code host ClassFn objects options w0 wf Hrun).
Defined.

Lemma malformed_PROPERTIES_rejected_witness :
  verdict (run_checker test_code (heap_with_PROPERTIES (VStr "name")) Animal koalas no_options)
  = Throw (JsError AssertionError
             "PROPERTIES should be an array: expected 'name' to be an array")
  /\ verdict (run_checker test_code (heap_with_descriptor "title") Animal koalas no_options)
     = Throw (JsError AssertionError "expected [ Array(13) ] to include 'title'").
Proof.
  split.
  - unfold verdict, run_checker.
    unshelve epose proof
      (proj1 (malformed_PROPERTIES_rejected test_code (ref_host test_code) Animal
                (VRef 40) no_options
                (start (heap_with_PROPERTIES (VStr "name")) koalas) koalas "Animal"
                _ (VStr "name") _ _ _ _) _) as H.
    1: shelve.
    + vm_compute; reflexivity.
    + vm_compute; reflexivity.
    + vm_compute; reflexivity.
    + vm_compute; reflexivity.
    + vm_compute; reflexivity.
    + change (length (heap_with_PROPERTIES (VStr "name"))) with 40%nat.
      rewrite H. vm_compute. reflexivity.
  - unfold verdict, run_checker.
    unshelve epose proof
      (proj2 (malformed_PROPERTIES_rejected test_code (ref_host test_code) Animal
                (VRef 42) no_options
                (start (heap_with_descriptor "title") koalas) koalas "Animal"
                _ (VRef 41) _ _ _ _) (VRef 40) [] "title" [] _ _ _) as H.
    1: shelve.
    + vm_compute; reflexivity.
    + vm_compute; reflexivity.
    + vm_compute; reflexivity.
    + vm_compute; reflexivity.
    + vm_compute; reflexivity.
    + vm_compute; reflexivity.
    + vm_compute; reflexivity.
    + change (length (heap_with_descriptor "title")) with 42%nat.
      rewrite H. vm_compute. reflexivity.
Defined.


Lemma isInstanceOf_guards_witness :
  isInstanceOf (VRef 40) (VStr "Animal") (test_heap ++ [named_koala])
  = (Throw (JsError TypeError "constructor must be a function"), test_heap ++ [named_koala])
  /\ isInstanceOf VNull Animal test_heap = (Ok false, test_heap)
  /\ isInstanceOf (VRef 40) Animal (test_heap ++ [named_koala])
     = (Ok true, test_heap ++ [named_koala]).
Proof.
  split; [| split].
  - apply (proj1 (isInstanceOf_guards (VRef 40) (VStr "Animal") (test_heap ++ [named_koala]))).
    reflexivity.
  - apply (proj1 (proj2 (isInstanceOf_guards VNull Animal test_heap)));
      [vm_compute; reflexivity | left; reflexivity].
  - apply (proj2 (proj2 (isInstanceOf_guards (VRef 40) Animal (test_heap ++ [named_koala])))).
    vm_compute; reflexivity.
Defined.




(** ** Running the classes of index.mocha.ts in any later heap *)

Lemma extends_lookup (base h : heap) l o :
  extends base h -> base !! l = Some o -> h !! l = Some o.
Proof. intros [more ->] H. apply lookup_app_l_Some. exact H. Qed.

Lemma extends_length (base h : heap) : extends base h -> (length base <= length h)%nat.
Proof. intros [more ->]. rewrite length_app. lia. Qed.

Lemma extends_app (base h more : heap) : extends base h -> extends base (h ++ more).
Proof. intros [m ->]. exists (m ++ more). symmetry. apply app_assoc. Qed.

Lemma extends_refl (h : heap) : extends h h.
Proof. exists []. symmetry. apply app_nil_r. Qed.

Lemma extends_trans (a b c : heap) : extends a b -> extends b c -> extends a c.
Proof. intros [m ->] [n ->]. exists (m ++ n). symmetry. apply app_assoc. Qed.

Lemma lookup_fresh (h : heap) o : (h ++ [o]) !! length h = Some o.
Proof. rewrite lookup_app_r by lia. rewrite Nat.sub_diag. reflexivity. Qed.

Lemma lookup_within_enough k :
  forall (h : heap) v key x,
    lookup_within k h v key = Some x ->
    forall f, (k <= f)%nat -> lookup_chain f h v key = x.
Proof.
  induction k as [| k IH]; intros h v key x H f Hf.
  - destruct v; simpl in H; try discriminate H;
      injection H as <-; destruct f; reflexivity.
  - destruct v; simpl in H;
      try (injection H as <-; destruct f; reflexivity).
    destruct f as [| f]; [lia |]. simpl.
    destruct (h !! l) as [o |]; [| injection H as <-; reflexivity].
    destruct (get_own o key); [injection H as <-; reflexivity |].
    apply (IH _ _ _ _ H). lia.
Qed.

Lemma get_within l key (h : heap) x :
  key <> "__proto__" ->
  lookup_within (length h) h (VRef l) key = Some x ->
  get (VRef l) key h = (Ok x, h).
Proof.
  intros Hk H. unfold get. apply String.eqb_neq in Hk. rewrite Hk.
  rewrite (lookup_within_enough _ _ _ _ _ H (chain_fuel h)); [reflexivity |].
  unfold chain_fuel. lia.
Qed.

Lemma lookup_within_more k :
  forall (h : heap) v key x,
    lookup_within k h v key = Some x ->
    forall f, (k <= f)%nat -> lookup_within f h v key = Some x.
Proof.
  induction k as [| k IH]; intros h v key x H f Hf.
  - destruct v; simpl in H; try discriminate H; destruct f; exact H.
  - destruct v; simpl in H; try (destruct f; exact H).
    destruct f as [| f]; [lia |]. simpl.
    destruct (h !! l) as [o |]; [| exact H].
    destruct (get_own o key); [exact H |].
    apply (IH _ _ _ _ H). lia.
Qed.

(** A member of an object that its prototype provides. *)
Lemma get_inherited l o p key (h : heap) x :
  h !! l = Some o ->
  key <> "__proto__" ->
  get_own o key = None ->
  o_proto o = VRef p ->
  lookup_within 3 h (VRef p) key = Some x ->
  (4 <= length h)%nat ->
  get (VRef l) key h = (Ok x, h).
Proof.
  intros Hl Hk Hown Hp Hx Hlen. apply get_within; [exact Hk |].
  destruct (length h) as [| n] eqn:En; [lia |]. simpl. rewrite Hl, Hown, Hp.
  apply (lookup_within_more _ _ _ _ _ Hx). lia.
Qed.

Lemma get_own_field l o key (h : heap) x :
  h !! l = Some o ->
  key <> "__proto__" ->
  get_own o key = Some x ->
  get (VRef l) key h = (Ok x, h).
Proof.
  intros Hl Hk Hown. unfold get. apply String.eqb_neq in Hk. rewrite Hk.
  unfold chain_fuel. simpl. rewrite Hl, Hown. reflexivity.
Qed.

Lemma call_method_run code obj key args (h : heap) f name body :
  get obj key h = (Ok f, h) ->
  function_of h f = Some (name, body) ->
  call_method code obj key args h = code body obj args h.
Proof.
  intros Hg Hf. unfold call_method. rewrite (bind_ok _ _ _ _ _ Hg).
  unfold invoke. rewrite Hf. reflexivity.
Qed.

Lemma set_fresh (h : heap) o key v :
  key <> "__proto__" ->
  set (VRef (length h)) key v (h ++ [o])
  = (Ok tt, h ++ [mk_object (o_kind o) (o_proto o) (update_prop key v (o_props o))]).
Proof.
  intros Hk. unfold set. rewrite lookup_fresh. apply String.eqb_neq in Hk. rewrite Hk.
  f_equal. rewrite insert_app_r_alt by lia. rewrite Nat.sub_diag. reflexivity.
Qed.

Lemma instantiate_named C p name (h : heap) :
  get C "prototype" h = (Ok (VRef p), h) ->
  instantiate C (fun this => name_constructor this [name]) h
  = (Ok (VRef (length h)), h ++ [named_instance p name]).
Proof.
  intros Hp. unfold instantiate. rewrite (bind_ok _ _ _ _ _ Hp). cbv beta.
  unfold bind at 1. unfold alloc. unfold name_constructor.
  change (arg 0 [name]) with name.
  unfold bind at 1. unfold bind at 1.
  rewrite (set_fresh h _ "name" name) by discriminate. reflexivity.
Qed.

Lemma prototypes_within_lookup (base : heap) l o p :
  prototypes_within base = true ->
  base !! l = Some o -> o_proto o = VRef p -> (p < length base)%nat.
Proof.
  unfold prototypes_within. intros Hc Ho Hp.
  rewrite forallb_forall in Hc.
  specialize (Hc o (proj1 (list_elem_of_In _ _) (list_elem_of_lookup_2 _ _ _ Ho))).
  rewrite Hp in Hc. apply Nat.ltb_lt. exact Hc.
Qed.

(** A lookup that starts in [base] stays in [base], whatever comes after. *)
Lemma lookup_within_extends (base more : heap) k :
  prototypes_within base = true ->
  forall v key x,
    lookup_within k base v key = Some x ->
    (forall l, v = VRef l -> (l < length base)%nat) ->
    lookup_within k (base ++ more) v key = Some x.
Proof.
  intros Hc. induction k as [| k IH]; intros v key x H Hv.
  - destruct v; exact H.
  - destruct v; try exact H. simpl in H |- *.
    specialize (Hv l eq_refl).
    rewrite lookup_app_l by exact Hv.
    unfold loc in *.
    destruct (base !! l) as [o |] eqn:Ho; [| exact H].
    destruct (get_own o key); [exact H |].
    apply IH; [exact H |].
    intros p Hp. exact (prototypes_within_lookup _ _ _ _ Hc Ho Hp).
Qed.

Section TestClasses.
Variable h : heap.
Hypothesis Hext : extends test_heap h.

Lemma test_classes_length : (40 <= length h)%nat.
Proof. exact (extends_length _ _ Hext). Qed.

Lemma class_object l o : test_heap !! l = Some o -> h !! l = Some o.
Proof. exact (extends_lookup _ _ _ _ Hext). Qed.

(** What a class or a prototype of index.mocha.ts holds under [key]. *)
Lemma class_lookup l key x :
  lookup_within 3 test_heap (VRef l) key = Some x ->
  (l < 40)%nat ->
  lookup_within 3 h (VRef l) key = Some x.
Proof.
  intros Hx Hl. destruct Hext as [more ->].
  apply lookup_within_extends; [vm_compute; reflexivity | exact Hx |].
  intros l' Hl'. injection Hl' as <-. exact Hl.
Qed.

Lemma class_member l key x :
  key <> "__proto__" ->
  lookup_within 3 test_heap (VRef l) key = Some x ->
  (l < 40)%nat ->
  get (VRef l) key h = (Ok x, h).
Proof.
  intros Hk Hx Hl. apply get_within; [exact Hk |].
  apply (lookup_within_more 3); [| pose proof test_classes_length; lia].
  apply class_lookup; assumption.
Qed.

Lemma class_function l name body :
  function_of test_heap (VRef l) = Some (name, body) ->
  function_of h (VRef l) = Some (name, body).
Proof.
  unfold function_of, loc in *. intros H.
  destruct (test_heap !! l) as [o |] eqn:Ho; [| discriminate H].
  rewrite (class_object _ _ Ho). exact H.
Qed.

(** A method of an instance: found on the prototype of its class. *)
Lemma instance_member l p name key x :
  h !! l = Some (named_instance p name) ->
  key <> "__proto__" ->
  key <> "name" ->
  lookup_within 3 test_heap (VRef p) key = Some x ->
  (p < 40)%nat ->
  get (VRef l) key h = (Ok x, h).
Proof.
  intros Hl Hk Hn Hx Hp.
  apply (get_inherited l _ p key h x Hl Hk); [| reflexivity | | pose proof test_classes_length; lia].
  - unfold get_own, named_instance. cbn [o_kind o_props assoc].
    destruct (String.eqb "name" key) eqn:E; [| reflexivity].
    apply String.eqb_eq in E. congruence.
  - apply class_lookup; assumption.
Qed.

Lemma instance_name l p name :
  h !! l = Some (named_instance p name) ->
  get (VRef l) "name" h = (Ok name, h).
Proof.
  intros Hl. apply (get_own_field l _ "name" h name Hl); [discriminate | reflexivity].
Qed.

End TestClasses.

(** ** The classes of index.mocha.ts that keep a name *)

Lemma strip_hash_text s (h : heap) :
  strip_hash (VStr s) h = (Ok (VStr (without_hashtag s)), h).
Proof. destruct s; reflexivity. Qed.

Lemma string_not_longer c (s : string) : s <> String c s.
Proof.
  intros H. apply (f_equal String.length) in H. simpl in H. lia.
Qed.

Lemma without_hashtag_fixed s : without_hashtag s = s <-> starts_with "#" s = false.
Proof.
  destruct s as [| c rest]; [split; reflexivity |].
  unfold without_hashtag, starts_with. rewrite (Ascii.eqb_sym "#" c).
  destruct (Ascii.eqb c "#"); simpl.
  - split; [| discriminate]. intros H. exfalso. exact (string_not_longer _ _ H).
  - split; reflexivity.
Qed.

Lemma get_ref_inv c key (h : heap) x :
  get (VRef c) key h = (Ok x, h) ->
  key <> "__proto__" ->
  lookup_chain (chain_fuel h) h (VRef c) key = x.
Proof.
  unfold get. intros H Hk. apply String.eqb_neq in Hk. rewrite Hk in H.
  injection H as H. exact H.
Qed.

Lemma instanceof_of_instance (h : heap) b C p o :
  is_function h C = true ->
  get C "prototype" h = (Ok (VRef p), h) ->
  h !! b = Some o ->
  o_proto o = VRef p ->
  instanceof (VRef b) C h = (Ok true, h).
Proof.
  intros Hf Hp Hb Ho. unfold instanceof. rewrite Hf. simpl negb. cbv iota.
  destruct C; try discriminate Hf.
  rewrite (get_ref_inv _ _ _ _ Hp) by discriminate.
  unfold chain_fuel. cbn [proto_chain_has]. unfold loc in *.
  rewrite Hb, Ho, Nat.eqb_refl. reflexivity.
Qed.

Lemma proto_chain_has_extends (base more : heap) f :
  prototypes_within base = true ->
  forall q t,
    (q < length base)%nat ->
    proto_chain_has f (base ++ more) (VRef q) t = proto_chain_has f base (VRef q) t.
Proof.
  intros Hc. induction f as [| f IH]; intros q t Hq; [reflexivity |].
  cbn [proto_chain_has]. rewrite lookup_app_l by exact Hq.
  unfold loc in *.
  destruct (base !! q) as [o |] eqn:Ho; [| reflexivity].
  destruct (o_proto o) as [| | | | | p] eqn:Hp; try reflexivity.
  rewrite IH; [reflexivity |].
  exact (prototypes_within_lookup _ _ _ _ Hc Ho Hp).
Qed.

Lemma same_name_upchain_no_constructor f proto name (h : heap) :
  get proto "constructor" h = (Ok VUndefined, h) ->
  same_name_upchain f proto name h = (Ok false, h).
Proof.
  intros Hc. destruct f; [reflexivity |]. cbn [same_name_upchain].
  destruct (truthy proto); [| reflexivity].
  rewrite (bind_ok _ _ _ _ _ Hc). reflexivity.
Qed.

Lemma isInstanceOf_of_instanceof thing constructor (h : heap) :
  instanceof thing constructor h = (Ok true, h) ->
  isInstanceOf thing constructor h = (Ok true, h).
Proof.
  intros Hi.
  destruct (is_function h constructor) eqn:Hf.
  - rewrite (isInstanceOf_on_function _ _ _ Hf). rewrite (bind_ok _ _ _ _ _ Hi). reflexivity.
  - unfold instanceof in Hi. rewrite Hf in Hi. discriminate Hi.
Qed.

Lemma isInstanceOf_of_nullish thing constructor (h : heap) :
  is_function h constructor = true ->
  thing = VNull \/ thing = VUndefined ->
  isInstanceOf thing constructor h = (Ok false, h).
Proof.
  intros Hf Hn. rewrite (isInstanceOf_on_function _ _ _ Hf).
  rewrite (bind_ok _ _ _ _ _ (instanceof_nullish thing constructor h Hf
                                ltac:(destruct Hn as [-> | ->]; reflexivity))).
  destruct Hn as [-> | ->]; reflexivity.
Qed.

(** A value that is no instance and whose prototype has no constructor. *)
Lemma isInstanceOf_without_constructor thing constructor (h : heap) :
  instanceof thing constructor h = (Ok false, h) ->
  get (proto_of h thing) "constructor" h = (Ok VUndefined, h) ->
  isInstanceOf thing constructor h = (Ok false, h).
Proof.
  intros Hi Hc.
  assert (Hf : is_function h constructor = true).
  { unfold instanceof in Hi. destruct (is_function h constructor); [reflexivity | discriminate]. }
  rewrite (isInstanceOf_on_function _ _ _ Hf). rewrite (bind_ok _ _ _ _ _ Hi). cbv beta iota.
  destruct (bool_decide (thing = VNull) || bool_decide (thing = VUndefined)) eqn:Hn;
    [reflexivity |].
  rewrite bind_read. destruct (String.eqb (function_name h constructor) ""); [reflexivity |].
  assert (Hx : get thing "__proto__" h = (Ok (proto_of h thing), h)).
  { unfold get. destruct thing; simpl in Hn; try discriminate Hn; reflexivity. }
  rewrite (bind_ok _ _ _ _ _ Hx). rewrite bind_read.
  apply same_name_upchain_no_constructor. exact Hc.
Qed.

Lemma equals_by_name_of_instance C this other (h : heap) mine theirs :
  isInstanceOf other C h = (Ok true, h) ->
  get this "name" h = (Ok mine, h) ->
  get other "name" h = (Ok theirs, h) ->
  equals_by_name C this other h = (Ok (VBool (strict_equal mine theirs)), h).
Proof.
  intros Hi Hm Ht. unfold equals_by_name.
  rewrite (bind_ok _ _ _ _ _ Hi). cbv beta iota.
  rewrite (bind_ok _ _ _ _ _ Hm). rewrite (bind_ok _ _ _ _ _ Ht). reflexivity.
Qed.

Lemma equals_by_name_of_stranger C this other (h : heap) :
  isInstanceOf other C h = (Ok false, h) ->
  equals_by_name C this other h = (Ok (VBool false), h).
Proof.
  intros Hi. unfold equals_by_name. rewrite (bind_ok _ _ _ _ _ Hi). reflexivity.
Qed.

Section Realm.
Variable h : heap.
Hypothesis Hext : extends test_heap h.

Lemma no_constructor_in_realm p :
  In p [Object_prototype; Array_prototype; String_prototype; Number_prototype;
        Boolean_prototype] ->
  get (VRef p) "constructor" h = (Ok VUndefined, h).
Proof.
  intros Hin. simpl in Hin.
  destruct Hin as [<- | [<- | [<- | [<- | [<- | []]]]]];
    (apply (class_member h Hext); [discriminate | vm_compute; reflexivity | vm_compute; lia]).
Qed.

Lemma not_instance_of_class b o q t :
  h !! b = Some o ->
  o_proto o = VRef q ->
  (q < 40)%nat ->
  q <> t ->
  (forall f, proto_chain_has f test_heap (VRef q) t = false) ->
  proto_chain_has (chain_fuel h) h (VRef b) t = false.
Proof.
  intros Hb Ho Hq Hne Hchain. unfold chain_fuel. cbn [proto_chain_has].
  unfold loc in *. rewrite Hb, Ho.
  apply Nat.eqb_neq in Hne. rewrite Hne. simpl orb.
  destruct Hext as [more ->].
  rewrite proto_chain_has_extends; [apply Hchain | vm_compute; reflexivity | exact Hq].
Qed.

Lemma plain_chain f t :
  (t <> 0)%nat ->
  proto_chain_has f test_heap (VRef Object_prototype) t = false
  /\ proto_chain_has f test_heap (VRef Array_prototype) t = false.
Proof.
  intros Ht. apply Nat.eqb_neq in Ht. rewrite Nat.eqb_sym in Ht.
  split.
  - destruct f; reflexivity.
  - destruct f as [| [| f]]; try reflexivity;
      cbn [proto_chain_has]; vm_compute ((test_heap !! Array_prototype));
      cbn [o_proto]; rewrite ?Ht; reflexivity.
Qed.

(** A method that returns [this.name], called on an instance. *)
Lemma reader_run l p name key args f fname body :
  h !! l = Some (named_instance p name) ->
  (p < 40)%nat ->
  key <> "__proto__" ->
  key <> "name" ->
  lookup_within 3 test_heap (VRef p) key = Some (VRef f) ->
  function_of test_heap (VRef f) = Some (fname, body) ->
  (forall this args, test_code body this args = get this "name") ->
  call_method test_code (VRef l) key args h = (Ok name, h).
Proof.
  intros Hl Hp Hk Hn Hm Hf Hbody.
  rewrite (call_method_run test_code (VRef l) key args h (VRef f) fname body).
  - rewrite Hbody. exact (instance_name h l p name Hl).
  - apply (instance_member h Hext l p name); assumption.
  - apply (class_function h Hext). exact Hf.
Qed.
End Realm.

Section NamedClass.
Context {c p : loc} {cname : string} {pre post : string -> string}.
Variable K : named_class c p cname pre post.
Variable h : heap.
Hypothesis Hext : extends test_heap h.

Lemma class_is_function : is_function h (VRef c) = true.
Proof.
  unfold is_function. rewrite (class_function h Hext c _ _ (nc_constructor _ _ _ _ _ K)).
  reflexivity.
Qed.

Lemma class_name : function_name h (VRef c) = cname.
Proof.
  unfold function_name. rewrite (class_function h Hext c _ _ (nc_constructor _ _ _ _ _ K)).
  reflexivity.
Qed.

Lemma class_prototype : get (VRef c) "prototype" h = (Ok (VRef p), h).
Proof.
  apply (class_member h Hext); [discriminate | exact (nc_prototype _ _ _ _ _ K) |].
  exact (proj1 (nc_where _ _ _ _ _ K)).
Qed.

Lemma class_fromJS_run s rest :
  call_method test_code (VRef c) "fromJS" (VStr s :: rest) h
  = (Ok (VRef (length h)), h ++ [named_instance p (VStr (pre s))]).
Proof.
  destruct (nc_fromJS _ _ _ _ _ K) as (f & body & Hm & Hf & Hbody).
  rewrite (call_method_run test_code (VRef c) "fromJS" _ h (VRef f) "fromJS" body).
  - rewrite Hbody. apply instantiate_named. exact class_prototype.
  - apply (class_member h Hext); [discriminate | exact Hm |].
    exact (proj1 (nc_where _ _ _ _ _ K)).
  - apply (class_function h Hext). exact Hf.
Qed.

Lemma class_reader_run l name key args :
  h !! l = Some (named_instance p name) ->
  In key ["toString"; "valueOf"; "toJSON"] ->
  call_method test_code (VRef l) key args h = (Ok name, h).
Proof.
  intros Hl Hin.
  destruct (nc_reader _ _ _ _ _ K key Hin) as (f & body & Hm & Hf & _ & _ & Hbody).
  apply (reader_run h Hext l p name key args f key body Hl); try assumption.
  - exact (proj1 (proj2 (nc_where _ _ _ _ _ K))).
  - simpl in Hin. intros ->. intuition discriminate.
  - simpl in Hin. intros ->. intuition discriminate.
Qed.

Lemma class_toJS_run l n args :
  h !! l = Some (named_instance p (VStr n)) ->
  call_method test_code (VRef l) "toJS" args h = (Ok (VStr (post n)), h).
Proof.
  intros Hl.
  destruct (nc_toJS _ _ _ _ _ K) as (f & body & Hm & Hf & Hbody).
  rewrite (call_method_run test_code (VRef l) "toJS" args h (VRef f) "toJS" body).
  - apply Hbody. exact (instance_name h l p _ Hl).
  - apply (instance_member h Hext l p _ "toJS" (VRef f) Hl);
      [discriminate | discriminate | exact Hm |].
    exact (proj1 (proj2 (nc_where _ _ _ _ _ K))).
  - apply (class_function h Hext). exact Hf.
Qed.

Lemma class_instanceof_plain b o :
  h !! b = Some o ->
  o_proto o = VRef Object_prototype \/ o_proto o = VRef Array_prototype ->
  instanceof (VRef b) (VRef c) h = (Ok false, h).
Proof.
  intros Hb Ho. unfold instanceof. rewrite class_is_function. simpl negb. cbv iota.
  rewrite (get_ref_inv _ _ _ _ class_prototype) by discriminate.
  destruct (nc_where _ _ _ _ _ K) as (_ & _ & Hp0 & Hp2).
  f_equal. f_equal.
  destruct Ho as [Ho | Ho].
  - apply (not_instance_of_class h Hext b o _ p Hb Ho); [vm_compute; lia | congruence |].
    intros f. apply plain_chain. exact Hp0.
  - apply (not_instance_of_class h Hext b o _ p Hb Ho); [vm_compute; lia | congruence |].
    intros f. apply plain_chain. exact Hp0.
Qed.

Lemma class_equals_run l name other rest :
  h !! l = Some (named_instance p name) ->
  call_method test_code (VRef l) "equals" (other :: rest) h
  = equals_by_name (VRef c) (VRef l) other h.
Proof.
  intros Hl.
  destruct (nc_equals _ _ _ _ _ K) as (f & body & Hm & Hf & Hbody).
  rewrite (call_method_run test_code (VRef l) "equals" _ h (VRef f) "equals" body).
  - rewrite Hbody. reflexivity.
  - apply (instance_member h Hext l p name);
      [exact Hl | discriminate | discriminate | exact Hm |].
    exact (proj1 (proj2 (nc_where _ _ _ _ _ K))).
  - apply (class_function h Hext). exact Hf.
Qed.

Lemma class_isInstanceOf_stranger other :
  is_ref other = false
  \/ (exists b o, other = VRef b /\ h !! b = Some o
                  /\ (o_proto o = VRef Object_prototype \/ o_proto o = VRef Array_prototype)) ->
  isInstanceOf other (VRef c) h = (Ok false, h).
Proof.
  intros [Hprim | (b & o & -> & Hb & Ho)].
  - destruct other; try discriminate Hprim.
    + apply isInstanceOf_of_nullish; [exact class_is_function | auto].
    + apply isInstanceOf_of_nullish; [exact class_is_function | auto].
    + apply isInstanceOf_without_constructor.
      * apply instanceof_nullish; [exact class_is_function | reflexivity].
      * apply (no_constructor_in_realm h Hext). simpl. tauto.
    + apply isInstanceOf_without_constructor.
      * apply instanceof_nullish; [exact class_is_function | reflexivity].
      * apply (no_constructor_in_realm h Hext). simpl. tauto.
    + apply isInstanceOf_without_constructor.
      * apply instanceof_nullish; [exact class_is_function | reflexivity].
      * apply (no_constructor_in_realm h Hext). simpl. tauto.
  - apply isInstanceOf_without_constructor.
    + exact (class_instanceof_plain b o Hb Ho).
    + unfold proto_of. unfold loc in *. rewrite Hb.
      destruct Ho as [-> | ->]; apply (no_constructor_in_realm h Hext); simpl; tauto.
Qed.

Lemma class_instanceof_instance b nb :
  h !! b = Some (named_instance p nb) ->
  instanceof (VRef b) (VRef c) h = (Ok true, h).
Proof.
  intros Hb.
  exact (instanceof_of_instance h b (VRef c) p _ class_is_function class_prototype Hb eq_refl).
Qed.

Lemma class_isInstanceOf_instance b nb :
  h !! b = Some (named_instance p nb) ->
  isInstanceOf (VRef b) (VRef c) h = (Ok true, h).
Proof.
  intros Hb. apply isInstanceOf_of_instanceof. exact (class_instanceof_instance b nb Hb).
Qed.

Lemma class_equals_instance l name b theirs rest :
  h !! l = Some (named_instance p name) ->
  h !! b = Some (named_instance p theirs) ->
  call_method test_code (VRef l) "equals" (VRef b :: rest) h
  = (Ok (VBool (strict_equal name theirs)), h).
Proof.
  intros Hl Hb. rewrite (class_equals_run l name _ rest Hl).
  apply equals_by_name_of_instance.
  - exact (class_isInstanceOf_instance b theirs Hb).
  - exact (instance_name h l p name Hl).
  - exact (instance_name h b p theirs Hb).
Qed.

Lemma class_equals_stranger l name other rest :
  h !! l = Some (named_instance p name) ->
  is_ref other = false
  \/ (exists b o, other = VRef b /\ h !! b = Some o
                  /\ (o_proto o = VRef Object_prototype \/ o_proto o = VRef Array_prototype)) ->
  call_method test_code (VRef l) "equals" (other :: rest) h = (Ok (VBool false), h).
Proof.
  intros Hl Ho. rewrite (class_equals_run l name _ rest Hl).
  apply equals_by_name_of_stranger. exact (class_isInstanceOf_stranger other Ho).
Qed.
End NamedClass.

(** ** The reference host on text *)

Lemma append_cons c (a b : string) : String c a +:+ b = String c (a +:+ b).
Proof. reflexivity. Qed.

Lemma append_assoc (a b c : string) : (a +:+ b) +:+ c = a +:+ (b +:+ c).
Proof.
  induction a as [| x a IH]; [reflexivity |].
  rewrite !append_cons. f_equal. exact IH.
Qed.

Lemma parse_chars_escape_one c :
  forall tail,
    parse_chars (match json_escape c with
                 | Some e => e +:+ tail
                 | None => String c tail
                 end)
    = match parse_chars tail with
      | Some (body, after) => Some (String c body, after)
      | None => None
      end.
Proof.
  destruct c as [b0 b1 b2 b3 b4 b5 b6 b7].
  destruct b0, b1, b2, b3, b4, b5, b6, b7; intros tail; reflexivity.
Qed.

Lemma parse_chars_escape_all s :
  forall rest,
    parse_chars (json_escape_all s +:+ String dquote rest) = Some (s, rest).
Proof.
  induction s as [| c s IH]; intros rest; [reflexivity |].
  cbn [json_escape_all].
  pose proof (parse_chars_escape_one c (json_escape_all s +:+ String dquote rest)) as H.
  rewrite IH in H.
  destruct (json_escape c) as [e |]; [rewrite append_assoc | rewrite append_cons]; exact H.
Qed.

Lemma parse_json_quote s : parse_json (json_quote s) = Some (JStr s).
Proof.
  unfold parse_json, json_quote.
  replace (parse_value _ _) with (Some (JStr s, "")); [reflexivity |].
  cbn [String.length Nat.mul Nat.add parse_value].
  symmetry.
  change (skip_ws (String dquote (json_escape_all s +:+ String dquote "")))
    with (String dquote (json_escape_all s +:+ String dquote "")).
  cbv beta iota.
  change (Ascii.eqb dquote "n") with false.
  change (Ascii.eqb dquote "t") with false.
  change (Ascii.eqb dquote "f") with false.
  change (Ascii.eqb dquote dquote) with true.
  cbv iota. rewrite parse_chars_escape_all. reflexivity.
Qed.

Lemma ref_parse_quote s (h : heap) : ref_parse (VStr (json_quote s)) h = (Ok (VStr s), h).
Proof. unfold ref_parse. rewrite parse_json_quote. reflexivity. Qed.

Lemma ref_stringify_text code s (h : heap) :
  ref_stringify code (VStr s) h = (Ok (VStr (json_quote s)), h).
Proof. reflexivity. Qed.

Lemma serialize_via_toJSON code fuel stack key l (h : heap) f name body n h' :
  get (VRef l) "toJSON" h = (Ok f, h) ->
  function_of h f = Some (name, body) ->
  code body (VRef l) [VStr key] h = (Ok (VStr n), h') ->
  serialize code (S fuel) stack key (VRef l) h = (Ok (Some (JStr n)), h').
Proof.
  intros Hg Hf Hrun. cbn [serialize is_ref].
  match goal with
  | |- bind ?m _ _ = _ => assert (Hin : m h = (Ok (VStr n), h'))
  end.
  { rewrite (bind_ok _ _ _ _ _ Hg). cbv beta. rewrite bind_read.
    unfold is_function. rewrite Hf. unfold invoke. rewrite Hf. exact Hrun. }
  rewrite (bind_ok _ _ _ _ _ Hin). reflexivity.
Qed.

Lemma ref_stringify_via_toJSON code l (h : heap) f name body n h' :
  get (VRef l) "toJSON" h = (Ok f, h) ->
  function_of h f = Some (name, body) ->
  code body (VRef l) [VStr ""] h = (Ok (VStr n), h') ->
  ref_stringify code (VRef l) h = (Ok (VStr (json_quote n)), h').
Proof.
  intros Hg Hf Hrun. unfold ref_stringify.
  change stack_limit with (S 999).
  rewrite (bind_ok _ _ _ _ _
             (serialize_via_toJSON code 999 [] "" l h f name body n h' Hg Hf Hrun)).
  reflexivity.
Qed.

Lemma ref_deep_eql_text (h : heap) a b :
  ref_deep_eql h (VStr a) (VStr b) = bool_decide (a = b).
Proof.
  unfold ref_deep_eql. cbn [deep_eql_upto]. unfold strict_equal.
  rewrite orb_false_r. apply bool_decide_ext. split; congruence.
Qed.

(** One call of the checker, from the member that it finds. *)
Lemma call_run code obj key args w f r h' :
  get obj key (w_heap w) = (Ok f, w_heap w) ->
  is_function (w_heap w) f = true ->
  call_method code obj key args (w_heap w) = (r, h') ->
  call code obj key args w = (r, mk_world h' (w_calls w ++ [Called obj key args])).
Proof.
  intros Hg Hf Hrun. unfold call.
  assert (Hl : lift (get obj key) w = (Ok f, w)).
  { unfold lift. rewrite Hg. rewrite world_eta. reflexivity. }
  rewrite (bind_ok _ _ _ _ _ Hl). cbv beta. rewrite bind_read. rewrite Hf.
  unfold call_method in Hrun. rewrite (bind_ok _ _ _ _ _ Hg) in Hrun.
  unfold bind, record, lift. cbn [w_heap w_calls]. rewrite Hrun. reflexivity.
Qed.

(** ** The steps of the checker on a class that keeps a name *)

Lemma lift_same {A} (m : ST heap A) w r :
  m (w_heap w) = (r, w_heap w) -> lift m w = (r, w).
Proof. intros H. unfold lift. rewrite H. rewrite world_eta. reflexivity. Qed.

Lemma lift_to {A} (m : ST heap A) w r h' :
  m (w_heap w) = (r, h') -> lift m w = (r, mk_world h' (w_calls w)).
Proof. intros H. unfold lift. rewrite H. reflexivity. Qed.

Lemma lift_alloc o w :
  lift (alloc o) w
  = (Ok (VRef (length (w_heap w))), mk_world (w_heap w ++ [o]) (w_calls w)).
Proof. reflexivity. Qed.

Lemma construct_named code C name body p v (h : heap) :
  function_of h C = Some (name, body) ->
  get C "prototype" h = (Ok (VRef p), h) ->
  (forall this args, code body this args = name_constructor this args) ->
  construct code C [v] h = (Ok (VRef (length h)), h ++ [named_instance p v]).
Proof.
  intros Hf Hp Hbody. unfold construct. rewrite Hf.
  rewrite (bind_ok _ _ _ _ _ Hp). cbv beta. cbn [is_ref].
  unfold bind at 1. unfold alloc. rewrite Hbody. unfold name_constructor.
  change (arg 0 [v]) with v.
  unfold bind at 1. unfold bind at 1.
  rewrite (set_fresh h _ "name" v) by discriminate. reflexivity.
Qed.

Lemma expect_a_function host v msg w :
  is_function (w_heap w) v = true ->
  expect_a host v msg "function" w = (Ok tt, w).
Proof.
  intros Hf. unfold expect_a.
  apply (expect_pass (fun h => String.eqb (type_detect h v) "function")).
  unfold type_detect. destruct v; try discriminate Hf. rewrite Hf. reflexivity.
Qed.

Lemma expect_not_equal_pass host a msg b w :
  a <> b -> expect_not_equal host a msg b w = (Ok tt, w).
Proof.
  intros Hne. unfold expect_not_equal. apply expect_pass. unfold strict_equal.
  rewrite (bool_decide_eq_false_2 _ Hne). reflexivity.
Qed.

Lemma expect_a_text host s msg w : expect_a host (VStr s) msg "string" w = (Ok tt, w).
Proof. exact (expect_a_pass host (VStr s) msg w). Qed.

Lemma expect_text_equal_pass s msg w :
  expect_deep_equal (ref_host test_code) (VStr s) msg (VStr s) w = (Ok tt, w).
Proof.
  apply expect_deep_equal_pass. cbn [deep_eql ref_host]. rewrite ref_deep_eql_text.
  apply bool_decide_eq_true_2. reflexivity.
Qed.

Lemma ref_inspect_text (h : heap) s : ref_inspect h (VStr s) = display_string s.
Proof.
  unfold ref_inspect. cbn [display_value].
  destruct (String.length (display_string s) <? 40)%nat; reflexivity.
Qed.

Lemma expect_text_equal_fail a b msg w :
  a <> b ->
  expect_deep_equal (ref_host test_code) (VStr a) msg (VStr b) w
  = (Throw (JsError AssertionError
              (chai_message msg
                 ("expected " +:+ display_string a
                  +:+ " to deeply equal " +:+ display_string b))), w).
Proof.
  intros Hne. rewrite expect_deep_equal_fail.
  - cbn [inspect ref_host]. rewrite !ref_inspect_text. reflexivity.
  - cbn [deep_eql ref_host]. rewrite ref_deep_eql_text.
    apply bool_decide_eq_false_2. exact Hne.
Qed.

Lemma expect_equal_bool host b msg c w :
  if Bool.eqb b c
  then expect_equal host (VBool b) msg (VBool c) w = (Ok tt, w)
  else exists e, expect_equal host (VBool b) msg (VBool c) w = (Throw e, w).
Proof.
  destruct (Bool.eqb b c) eqn:E.
  - apply Bool.eqb_prop in E. subst c. apply expect_equal_pass.
  - eexists. apply expect_equal_fail. intros H. injection H as ->.
    rewrite Bool.eqb_reflx in E. discriminate E.
Qed.

Lemma intact_grow w w' o :
  classes_intact w -> w_heap w' = w_heap w ++ [o] -> classes_intact w'.
Proof. unfold classes_intact. intros HI ->. apply extends_app. exact HI. Qed.

Lemma intact_same w w' : classes_intact w -> w_heap w' = w_heap w -> classes_intact w'.
Proof. unfold classes_intact. intros HI ->. exact HI. Qed.

Lemma fresh_at w w' o : w_heap w' = w_heap w ++ [o] -> w_heap w' !! length (w_heap w) = Some o.
Proof. intros ->. apply lookup_fresh. Qed.

Lemma kept_at w w' o l x :
  w_heap w' = w_heap w ++ [o] -> w_heap w !! l = Some x -> w_heap w' !! l = Some x.
Proof. intros -> H. apply lookup_app_l_Some. exact H. Qed.

Lemma for_in_chain_extends (base more : heap) f :
  prototypes_within base = true ->
  forall q seen,
    (q < length base)%nat ->
    for_in_chain f (base ++ more) (VRef q) seen = for_in_chain f base (VRef q) seen.
Proof.
  intros Hc. induction f as [| f IH]; intros q seen Hq; [reflexivity |].
  cbn [for_in_chain]. rewrite lookup_app_l by exact Hq.
  unfold loc in *.
  destruct (base !! q) as [o |] eqn:Ho; [| reflexivity].
  f_equal.
  destruct (o_proto o) as [| | | | | p] eqn:Hp; try (destruct f; reflexivity).
  apply IH. exact (prototypes_within_lookup _ _ _ _ Hc Ho Hp).
Qed.

Lemma copy_name (h : heap) l p name :
  h !! l = Some (named_instance p name) ->
  copy_own_props (VRef l) (VRef (length h)) ["name"] (h ++ [object_literal []])
  = (Ok tt, h ++ [object_literal [("name", name)]]).
Proof.
  intros Hl.
  assert (Hl' : (h ++ [object_literal []]) !! l = Some (named_instance p name))
    by (apply lookup_app_l_Some; exact Hl).
  cbn [copy_own_props]. rewrite bind_read.
  unfold hasOwnProp. unfold loc in *. rewrite Hl'.
  change (mem "name" (own_keys (named_instance p name))) with true. cbv iota.
  rewrite (bind_ok _ _ _ _ _ (get_own_field l _ "name" _ name Hl' ltac:(discriminate) eq_refl)).
  cbv beta.
  rewrite (bind_ok _ _ _ _ _ (set_fresh h (object_literal []) "name" name ltac:(discriminate))).
  reflexivity.
Qed.

Section ClassSteps.
Context {c p : loc} {cname : string} {pre post : string -> string}.
Variable K : named_class c p cname pre post.
Variable w : world.
Hypothesis HI : classes_intact w.

Lemma for_in_keys_instance l name :
  w_heap w !! l = Some (named_instance p name) ->
  for_in_keys (w_heap w) (VRef l) = ["name"].
Proof.
  intros Hl. unfold for_in_keys, chain_fuel. cbn [for_in_chain].
  unfold loc in *. rewrite Hl. cbn [o_proto named_instance].
  destruct HI as [more Hmore]. rewrite Hmore.
  rewrite for_in_chain_extends;
    [| vm_compute; reflexivity | exact (proj1 (proj2 (nc_where _ _ _ _ _ K)))].
  rewrite (nc_hidden_members _ _ _ _ _ K). reflexivity.
Qed.

Lemma step_member l name key f fname body :
  w_heap w !! l = Some (named_instance p name) ->
  key <> "__proto__" -> key <> "name" ->
  lookup_within 3 test_heap (VRef p) key = Some (VRef f) ->
  function_of test_heap (VRef f) = Some (fname, body) ->
  get (VRef l) key (w_heap w) = (Ok (VRef f), w_heap w)
  /\ is_function (w_heap w) (VRef f) = true.
Proof.
  intros Hl Hk Hn Hm Hf. split.
  - apply (instance_member _ HI l p name); try assumption.
    exact (proj1 (proj2 (nc_where _ _ _ _ _ K))).
  - unfold is_function. rewrite (class_function _ HI f fname body Hf). reflexivity.
Qed.

Lemma step_fromJS s ctx :
  exists w',
    call test_code (VRef c) "fromJS" [VStr s; ctx] w = (Ok (VRef (length (w_heap w))), w')
    /\ w_heap w' = w_heap w ++ [named_instance p (VStr (pre s))].
Proof.
  destruct (nc_fromJS _ _ _ _ _ K) as (f & body & Hm & Hf & _).
  eexists. split.
  - apply (call_run test_code (VRef c) "fromJS" _ w (VRef f)).
    + apply (class_member _ HI); [discriminate | exact Hm |].
      exact (proj1 (nc_where _ _ _ _ _ K)).
    + unfold is_function. rewrite (class_function _ HI f _ _ Hf). reflexivity.
    + apply (class_fromJS_run K _ HI).
  - reflexivity.
Qed.

Lemma step_reader l name key :
  w_heap w !! l = Some (named_instance p name) ->
  In key ["toString"; "valueOf"; "toJSON"] ->
  exists w',
    call test_code (VRef l) key [] w = (Ok name, w') /\ w_heap w' = w_heap w.
Proof.
  intros Hl Hin.
  destruct (nc_reader _ _ _ _ _ K key Hin) as (f & body & Hm & Hf & _).
  assert (Hk : key <> "__proto__" /\ key <> "name").
  { simpl in Hin. split; intros ->; intuition discriminate. }
  destruct (step_member l name key f key body Hl (proj1 Hk) (proj2 Hk) Hm Hf) as [Hg Hfn].
  eexists. split.
  - eapply (call_run test_code (VRef l) key [] w (VRef f)); [exact Hg | exact Hfn |].
    apply (class_reader_run K _ HI l name key [] Hl Hin).
  - reflexivity.
Qed.

Lemma step_toJS l n :
  w_heap w !! l = Some (named_instance p (VStr n)) ->
  exists w',
    call test_code (VRef l) "toJS" [] w = (Ok (VStr (post n)), w') /\ w_heap w' = w_heap w.
Proof.
  intros Hl.
  destruct (nc_toJS _ _ _ _ _ K) as (f & body & Hm & Hf & _).
  destruct (step_member l _ "toJS" f "toJS" body Hl ltac:(discriminate) ltac:(discriminate)
              Hm Hf) as [Hg Hfn].
  eexists. split.
  - eapply (call_run test_code (VRef l) "toJS" [] w (VRef f)); [exact Hg | exact Hfn |].
    apply (class_toJS_run K _ HI l n [] Hl).
  - reflexivity.
Qed.

Lemma step_equals_member l name :
  w_heap w !! l = Some (named_instance p name) ->
  exists f,
    get (VRef l) "equals" (w_heap w) = (Ok (VRef f), w_heap w)
    /\ is_function (w_heap w) (VRef f) = true.
Proof.
  intros Hl.
  destruct (nc_equals _ _ _ _ _ K) as (f & body & Hm & Hf & _).
  exists f.
  exact (step_member l name "equals" f "equals" body Hl ltac:(discriminate)
           ltac:(discriminate) Hm Hf).
Qed.

Lemma step_equals_instance l name b theirs :
  w_heap w !! l = Some (named_instance p name) ->
  w_heap w !! b = Some (named_instance p theirs) ->
  exists w',
    call test_code (VRef l) "equals" [VRef b] w = (Ok (VBool (strict_equal name theirs)), w')
    /\ w_heap w' = w_heap w.
Proof.
  intros Hl Hb. destruct (step_equals_member l name Hl) as (f & Hg & Hf).
  eexists. split.
  - eapply (call_run test_code (VRef l) "equals" _ w (VRef f)); [exact Hg | exact Hf |].
    exact (class_equals_instance K _ HI l name b theirs [] Hl Hb).
  - reflexivity.
Qed.

Lemma step_equals_stranger l name other :
  w_heap w !! l = Some (named_instance p name) ->
  is_ref other = false
  \/ (exists b o, other = VRef b /\ w_heap w !! b = Some o
                  /\ (o_proto o = VRef Object_prototype \/ o_proto o = VRef Array_prototype)) ->
  exists w',
    call test_code (VRef l) "equals" [other] w = (Ok (VBool false), w')
    /\ w_heap w' = w_heap w.
Proof.
  intros Hl Ho. destruct (step_equals_member l name Hl) as (f & Hg & Hf).
  eexists. split.
  - eapply (call_run test_code (VRef l) "equals" _ w (VRef f)); [exact Hg | exact Hf |].
    exact (class_equals_stranger K _ HI l name other [] Hl Ho).
  - reflexivity.
Qed.

Lemma step_new v :
  exists w',
    new_ test_code (VRef c) [v] w = (Ok (VRef (length (w_heap w))), w')
    /\ w_heap w' = w_heap w ++ [named_instance p v].
Proof.
  eexists. split.
  - unfold new_. rewrite bind_read. rewrite (class_is_function K _ HI).
    unfold bind at 1. unfold record. cbv beta iota.
    apply lift_to. cbn [w_heap].
    apply (construct_named test_code (VRef c) cname cname p v).
    + apply (class_function _ HI). exact (nc_constructor _ _ _ _ _ K).
    + exact (class_prototype K _ HI).
    + exact (nc_new _ _ _ _ _ K).
  - reflexivity.
Qed.

Lemma step_stringify_instance l n :
  w_heap w !! l = Some (named_instance p (VStr n)) ->
  lift (ref_stringify test_code (VRef l)) w = (Ok (VStr (json_quote n)), w).
Proof.
  intros Hl. apply lift_same.
  destruct (nc_reader _ _ _ _ _ K "toJSON" ltac:(simpl; tauto))
    as (f & body & Hm & Hf & _ & _ & Hbody).
  apply (ref_stringify_via_toJSON test_code l (w_heap w) (VRef f) "toJSON" body).
  - exact (proj1 (step_member l _ "toJSON" f "toJSON" body Hl ltac:(discriminate)
                    ltac:(discriminate) Hm Hf)).
  - apply (class_function _ HI). exact Hf.
  - rewrite Hbody. exact (instance_name _ l p (VStr n) Hl).
Qed.
End ClassSteps.

(** ** The checks of the methods and of the descriptors *)

Section ClassMethods.
Context {c p : loc} {cname : string} {pre post : string -> string}.
Variable K : named_class c p cname pre post.
Variable options : TesterOptions.
Variable samples : list value.
Variable className : string.

Local Abbreviation host := (ref_host test_code).

Lemma class_check_methods s w :
  nth 0 samples VUndefined = VStr s ->
  classes_intact w ->
  exists w',
    check_methods test_code host (VRef c) samples options className w = (Ok tt, w')
    /\ classes_intact w'.
Proof.
  intros Hs HI. unfold check_methods. cbv zeta. unfold objects_at. rewrite Hs.
  destruct (nc_fromJS _ _ _ _ _ K) as (ff & fbody & Hfm & Hff & _).
  rewrite (bind_ok _ _ _ _ _
             (lift_same _ w _ (class_member _ HI c "fromJS" (VRef ff)
                                 ltac:(discriminate) Hfm (proj1 (nc_where _ _ _ _ _ K))))).
  cbv beta.
  rewrite (bind_ok _ _ _ _ _ (expect_a_function host (VRef ff) _ w
             ltac:(unfold is_function; rewrite (class_function _ HI ff _ _ Hff); reflexivity))).
  cbv beta.
  destruct (step_fromJS K w HI s (context options)) as (w1 & Hcall & Hh1).
  rewrite (bind_ok _ _ _ _ _ Hcall). cbv beta.
  pose proof (intact_grow _ _ _ HI Hh1) as HI1.
  pose proof (fresh_at _ _ _ Hh1) as Hinst.
  set (inst := length (w_heap w)) in *.
  (* valueOf *)
  destruct (nc_reader _ _ _ _ _ K "valueOf" ltac:(simpl; tauto))
    as (fv & bv & Hvm & Hvf & Hv6 & _ & _).
  destruct (step_member K w1 HI1 inst _ "valueOf" fv _ bv Hinst
              ltac:(discriminate) ltac:(discriminate) Hvm Hvf) as [G1 _].
  rewrite (bind_ok _ _ _ _ _ (lift_same _ w1 _ G1)). cbv beta.
  rewrite (bind_ok _ _ _ _ _
             (lift_same _ w1 _ (class_member _ HI1 0 "valueOf" (VRef 6)
                                  ltac:(discriminate) ltac:(vm_compute; reflexivity) ltac:(lia)))).
  cbv beta.
  rewrite (bind_ok _ _ _ _ _ (expect_not_equal_pass host (VRef fv) _ (VRef 6) w1
                                ltac:(congruence))).
  cbv beta.
  (* toString *)
  destruct (nc_reader _ _ _ _ _ K "toString" ltac:(simpl; tauto))
    as (fs & bs & Hsm & Hsf & _ & Hs7 & _).
  destruct (step_member K w1 HI1 inst _ "toString" fs _ bs Hinst
              ltac:(discriminate) ltac:(discriminate) Hsm Hsf) as [G2 _].
  rewrite (bind_ok _ _ _ _ _ (lift_same _ w1 _ G2)). cbv beta.
  rewrite (bind_ok _ _ _ _ _
             (lift_same _ w1 _ (class_member _ HI1 0 "toString" (VRef 7)
                                  ltac:(discriminate) ltac:(vm_compute; reflexivity) ltac:(lia)))).
  cbv beta.
  rewrite (bind_ok _ _ _ _ _ (expect_not_equal_pass host (VRef fs) _ (VRef 7) w1
                                ltac:(congruence))).
  cbv beta.
  (* toJS *)
  destruct (nc_toJS _ _ _ _ _ K) as (fj & bj & Hjm & Hjf & _).
  destruct (step_member K w1 HI1 inst _ "toJS" fj _ bj Hinst
              ltac:(discriminate) ltac:(discriminate) Hjm Hjf) as [G3 F3].
  rewrite (bind_ok _ _ _ _ _ (lift_same _ w1 _ G3)). cbv beta.
  rewrite (bind_ok _ _ _ _ _ (expect_a_function host (VRef fj) _ w1 F3)). cbv beta.
  (* toJSON *)
  destruct (nc_reader _ _ _ _ _ K "toJSON" ltac:(simpl; tauto))
    as (fo & bo & Hom & Hof & _).
  destruct (step_member K w1 HI1 inst _ "toJSON" fo _ bo Hinst
              ltac:(discriminate) ltac:(discriminate) Hom Hof) as [G4 F4].
  rewrite (bind_ok _ _ _ _ _ (lift_same _ w1 _ G4)). cbv beta.
  rewrite (bind_ok _ _ _ _ _ (expect_a_function host (VRef fo) _ w1 F4)). cbv beta.
  (* equals *)
  destruct (step_equals_member K w1 HI1 inst _ Hinst) as (fe & G5 & F5).
  rewrite (bind_ok _ _ _ _ _ (lift_same _ w1 _ G5)). cbv beta.
  exists w1. split; [exact (expect_a_function host (VRef fe) _ w1 F5) | exact HI1].
Qed.

Lemma class_check_properties w :
  classes_intact w -> check_properties host (VRef c) w = (Ok tt, w).
Proof.
  intros HI. unfold check_properties.
  rewrite (bind_ok _ _ _ _ _
             (lift_same _ w _ (class_member _ HI c "PROPERTIES" VUndefined
                                 ltac:(discriminate) (nc_no_PROPERTIES _ _ _ _ _ K)
                                 (proj1 (nc_where _ _ _ _ _ K))))).
  reflexivity.
Qed.
End ClassMethods.

(** ** The checks of one sample *)

Section ClassSample.
Context {c p : loc} {cname : string} {pre post : string -> string}.
Variable K : named_class c p cname pre post.
Variable options : TesterOptions.
Variable samples : list value.
Variable className : string.

Local Abbreviation host := (ref_host test_code).

(** The checks of the sample [s]: the fixed point assertion fails with its
    message when [post (pre s)] is not [s]; otherwise the checks pass exactly
    when [newThrows] is not set and [pre] leaves [pre s] as it is. *)
Lemma class_check_sample i s w :
  nth i samples VUndefined = VStr s ->
  classes_intact w ->
  if String.eqb (post (pre s)) s
  then
    if negb (default false (newThrows options)) && String.eqb (pre (pre s)) (pre s)
    then exists w',
           check_sample test_code host (VRef c) samples options className i w = (Ok tt, w')
           /\ classes_intact w'
    else exists e w',
           check_sample test_code host (VRef c) samples options className i w = (Throw e, w')
  else exists w',
         check_sample test_code host (VRef c) samples options className i w
         = (Throw (JsError AssertionError
                     (chai_message
                        (className
                         +:+ ".fromJS(obj).toJS() was not a fixed point (did not deep equal obj) "
                         +:+ "[in object " +:+ show_nat i +:+ "]")
                        ("expected " +:+ display_string (post (pre s))
                         +:+ " to deeply equal " +:+ display_string s))), w').
Proof.
  intros Hs HI. unfold check_sample. cbv zeta. unfold objects_at. rewrite Hs.
  cbn [JSON_stringify JSON_parse ref_host].
  rewrite (bind_ok _ _ _ _ _ (lift_same _ w _ (ref_stringify_text test_code s (w_heap w)))).
  cbv beta.
  rewrite (bind_ok _ _ _ _ _ (lift_same _ w _ (ref_parse_quote s (w_heap w)))). cbv beta.
  rewrite (bind_ok _ _ _ _ _ (lift_same _ w _ (ref_parse_quote s (w_heap w)))). cbv beta.
  (* fromJS *)
  destruct (step_fromJS K w HI s (context options)) as (w1 & Hcall & Hh1).
  rewrite (bind_ok _ _ _ _ _ Hcall). cbv beta.
  pose proof (intact_grow _ _ _ HI Hh1) as HI1.
  pose proof (fresh_at _ _ _ Hh1) as Hi1.
  set (inst := length (w_heap w)) in *.
  set (n := pre s) in *.
  rewrite (bind_ok _ _ _ _ _ (expect_text_equal_pass s _ w1)). cbv beta.
  (* instanceOf *)
  rewrite (bind_ok _ _ _ _ _
             (expect_instanceOf_pass host (VRef inst) _ (VRef c) w1
                (class_instanceof_instance K _ HI1 inst _ Hi1))).
  cbv beta.
  (* toString *)
  destruct (step_reader K w1 HI1 inst (VStr n) "toString" Hi1 ltac:(simpl; tauto))
    as (w2 & Hstr & Hh2).
  rewrite (bind_ok _ _ _ _ _ Hstr). cbv beta.
  rewrite (bind_ok _ _ _ _ _ (expect_a_text host n _ w2)). cbv beta.
  pose proof (intact_same _ _ HI1 Hh2) as HI2.
  assert (Hi2 : w_heap w2 !! inst = Some (named_instance p (VStr n)))
    by (rewrite Hh2; exact Hi1).
  (* equals(null) *)
  destruct (step_equals_stranger K w2 HI2 inst (VStr n) VNull Hi2 ltac:(left; reflexivity))
    as (w3 & Hnull & Hh3).
  rewrite (bind_ok _ _ _ _ _ Hnull). cbv beta.
  rewrite (bind_ok _ _ _ _ _ (expect_equal_pass host (VBool false) _ w3)). cbv beta.
  pose proof (intact_same _ _ HI2 Hh3) as HI3.
  assert (Hi3 : w_heap w3 !! inst = Some (named_instance p (VStr n)))
    by (rewrite Hh3; exact Hi2).
  (* equals([]) *)
  rewrite (bind_ok _ _ _ _ _ (lift_alloc (array_literal []) w3)). cbv beta.
  set (w4 := mk_world (w_heap w3 ++ [array_literal []]) (w_calls w3)).
  assert (Hh4 : w_heap w4 = w_heap w3 ++ [array_literal []]) by reflexivity.
  pose proof (intact_grow _ _ _ HI3 Hh4) as HI4.
  pose proof (kept_at _ _ _ _ _ Hh4 Hi3) as Hi4.
  destruct (step_equals_stranger K w4 HI4 inst (VStr n) (VRef (length (w_heap w3))) Hi4
              ltac:(right; exists (length (w_heap w3)), (array_literal []);
                    split; [reflexivity |]; split; [exact (fresh_at _ _ _ Hh4) | right; reflexivity]))
    as (w5 & Hempty & Hh5).
  rewrite (bind_ok _ _ _ _ _ Hempty). cbv beta.
  rewrite (bind_ok _ _ _ _ _ (expect_equal_pass host (VBool false) _ w5)). cbv beta.
  pose proof (intact_same _ _ HI4 Hh5) as HI5.
  assert (Hi5 : w_heap w5 !! inst = Some (named_instance p (VStr n)))
    by (rewrite Hh5; exact Hi4).
  (* toJS: the fixed point *)
  destruct (step_toJS K w5 HI5 inst n Hi5) as (w6 & Hjs & Hh6).
  rewrite (bind_ok _ _ _ _ _ Hjs). cbv beta.
  pose proof (intact_same _ _ HI5 Hh6) as HI6.
  assert (Hi6 : w_heap w6 !! inst = Some (named_instance p (VStr n)))
    by (rewrite Hh6; exact Hi5).
  destruct (String.eqb (post n) s) eqn:Hfixb.
  2: { apply String.eqb_neq in Hfixb. exists w6. apply bind_throw.
       apply expect_text_equal_fail. exact Hfixb. }
  apply String.eqb_eq in Hfixb.
  assert (Hfixed : expect_deep_equal host (VStr (post n))
                     (className
                      +:+ ".fromJS(obj).toJS() was not a fixed point (did not deep equal obj) "
                      +:+ "[in object " +:+ show_nat i +:+ "]") (VStr s) w6 = (Ok tt, w6)).
  { rewrite Hfixb. apply expect_text_equal_pass. }
  rewrite (bind_ok _ _ _ _ _ Hfixed). cbv beta.
  (* valueOf *)
  destruct (step_reader K w6 HI6 inst (VStr n) "valueOf" Hi6 ltac:(simpl; tauto))
    as (w7 & Hval & Hh7).
  rewrite (bind_ok _ _ _ _ _ Hval). cbv beta.
  pose proof (intact_same _ _ HI6 Hh7) as HI7.
  assert (Hi7 : w_heap w7 !! inst = Some (named_instance p (VStr n)))
    by (rewrite Hh7; exact Hi6).
  destruct (step_equals_stranger K w7 HI7 inst (VStr n) (VStr n) Hi7 ltac:(left; reflexivity))
    as (w8 & Heqv & Hh8).
  rewrite (bind_ok _ _ _ _ _ Heqv). cbv beta.
  rewrite (bind_ok _ _ _ _ _ (expect_equal_pass host (VBool false) _ w8)). cbv beta.
  pose proof (intact_same _ _ HI7 Hh8) as HI8.
  assert (Hi8 : w_heap w8 !! inst = Some (named_instance p (VStr n)))
    by (rewrite Hh8; exact Hi7).
  (* the lazy copy *)
  rewrite (bind_ok _ _ _ _ _ (lift_alloc (object_literal []) w8)). cbv beta.
  set (w9 := mk_world (w_heap w8 ++ [object_literal []]) (w_calls w8)).
  assert (Hh9 : w_heap w9 = w_heap w8 ++ [object_literal []]) by reflexivity.
  pose proof (intact_grow _ _ _ HI8 Hh9) as HI9.
  pose proof (kept_at _ _ _ _ _ Hh9 Hi8) as Hi9.
  rewrite bind_read. rewrite (for_in_keys_instance K w9 HI9 inst (VStr n) Hi9).
  rewrite (bind_ok _ _ _ _ _ (lift_to _ w9 _ _ (copy_name (w_heap w8) inst p (VStr n) Hi8))).
  cbv beta.
  set (w10 := mk_world (w_heap w8 ++ [object_literal [("name", VStr n)]]) (w_calls w9)).
  assert (Hh10 : w_heap w10 = w_heap w8 ++ [object_literal [("name", VStr n)]]) by reflexivity.
  pose proof (intact_grow _ _ _ HI8 Hh10) as HI10.
  pose proof (kept_at _ _ _ _ _ Hh10 Hi8) as Hi10.
  destruct (step_equals_stranger K w10 HI10 inst (VStr n) (VRef (length (w_heap w8))) Hi10
              ltac:(right; exists (length (w_heap w8)), (object_literal [("name", VStr n)]);
                    split; [reflexivity |]; split; [exact (fresh_at _ _ _ Hh10) | left; reflexivity]))
    as (w11 & Hlazy & Hh11).
  rewrite (bind_ok _ _ _ _ _ Hlazy). cbv beta.
  rewrite (bind_ok _ _ _ _ _ (expect_equal_pass host (VBool false) _ w11)). cbv beta.
  pose proof (intact_same _ _ HI10 Hh11) as HI11.
  assert (Hi11 : w_heap w11 !! inst = Some (named_instance p (VStr n)))
    by (rewrite Hh11; exact Hi10).
  (* new ClassFn(instValueOf) *)
  destruct (step_new K w11 HI11 (VStr n)) as (w12 & Hnew & Hh12).
  pose proof (intact_grow _ _ _ HI11 Hh12) as HI12.
  pose proof (kept_at _ _ _ _ _ Hh12 Hi11) as Hi12.
  pose proof (fresh_at _ _ _ Hh12) as Hc12.
  destruct (default false (newThrows options)) eqn:Hnt.
  { cbn [negb andb]. cbv iota.
    eexists. eexists. apply bind_throw. unfold expect_throw. rewrite Hnew. reflexivity. }
  cbn [negb andb]. cbv iota.
  set (copy := length (w_heap w11)) in *.
  assert (Hbranch :
    exists w16,
      bind (new_ test_code (VRef c) [VStr n]) (fun instValueCopy =>
        bind (call test_code (VRef inst) "equals" [instValueCopy]) (fun eqValueCopy =>
          bind (expect_equal host eqValueCopy
                  ("new " +:+ className +:+ "().toJS() is not equal to the original "
                   +:+ "[in object " +:+ show_nat i +:+ "]") (VBool true)) (fun _ =>
            bind (call test_code instValueCopy "toJS" []) (fun copyJS =>
              bind (call test_code (VRef inst) "toJS" []) (fun instJS =>
                expect_deep_equal host copyJS
                  ("new " +:+ className +:+ "(" +:+ instanceName className
                   +:+ ".valueOf()).toJS() returned something bad "
                   +:+ "[in object " +:+ show_nat i +:+ "]") instJS))))) w11
      = (Ok tt, w16)
      /\ classes_intact w16
      /\ w_heap w16 !! inst = Some (named_instance p (VStr n))).
  { rewrite (bind_ok _ _ _ _ _ Hnew). cbv beta.
    destruct (step_equals_instance K w12 HI12 inst (VStr n) copy (VStr n) Hi12 Hc12)
      as (w13 & Heqc & Hh13).
    rewrite (bind_ok _ _ _ _ _ Heqc). cbv beta.
    unfold strict_equal at 1. rewrite bool_decide_eq_true_2 by reflexivity.
    rewrite (bind_ok _ _ _ _ _ (expect_equal_pass host (VBool true) _ w13)). cbv beta.
    pose proof (intact_same _ _ HI12 Hh13) as HI13.
    assert (Hi13 : w_heap w13 !! inst = Some (named_instance p (VStr n)))
      by (rewrite Hh13; exact Hi12).
    assert (Hc13 : w_heap w13 !! copy = Some (named_instance p (VStr n)))
      by (rewrite Hh13; exact Hc12).
    destruct (step_toJS K w13 HI13 copy n Hc13) as (w14 & Hcjs & Hh14).
    rewrite (bind_ok _ _ _ _ _ Hcjs). cbv beta.
    pose proof (intact_same _ _ HI13 Hh14) as HI14.
    assert (Hi14 : w_heap w14 !! inst = Some (named_instance p (VStr n)))
      by (rewrite Hh14; exact Hi13).
    destruct (step_toJS K w14 HI14 inst n Hi14) as (w15 & Hijs & Hh15).
    rewrite (bind_ok _ _ _ _ _ Hijs). cbv beta.
    exists w15. split; [exact (expect_text_equal_pass (post n) _ w15) |].
    split; [exact (intact_same _ _ HI14 Hh15) | rewrite Hh15; exact Hi14]. }
  destruct Hbranch as (w16 & Hbranch & HI16 & Hi16).
  rewrite (bind_ok _ _ _ _ _ Hbranch). cbv beta.
  (* the JSON copy of the instance *)
  rewrite (bind_ok _ _ _ _ _ (step_stringify_instance K w16 HI16 inst n Hi16)). cbv beta.
  rewrite (bind_ok _ _ _ _ _ (lift_same _ w16 _ (ref_parse_quote n (w_heap w16)))). cbv beta.
  destruct (step_fromJS K w16 HI16 n (context options)) as (w17 & Hjc & Hh17).
  rewrite (bind_ok _ _ _ _ _ Hjc). cbv beta.
  pose proof (intact_grow _ _ _ HI16 Hh17) as HI17.
  pose proof (kept_at _ _ _ _ _ Hh17 Hi16) as Hi17.
  pose proof (fresh_at _ _ _ Hh17) as Hc17.
  set (jcopy := length (w_heap w16)) in *.
  destruct (step_equals_instance K w17 HI17 inst (VStr n) jcopy (VStr (pre n)) Hi17 Hc17)
    as (w18 & Heqj & Hh18).
  rewrite (bind_ok _ _ _ _ _ Heqj). cbv beta.
  destruct (String.eqb (pre n) n) eqn:Hidem.
  2: { apply String.eqb_neq in Hidem.
       eexists. eexists. apply bind_throw. apply expect_equal_fail.
       unfold strict_equal. rewrite bool_decide_eq_false_2; [discriminate | congruence]. }
  apply String.eqb_eq in Hidem. rewrite Hidem in *.
  unfold strict_equal at 1. rewrite bool_decide_eq_true_2 by reflexivity.
  rewrite (bind_ok _ _ _ _ _ (expect_equal_pass host (VBool true) _ w18)). cbv beta.
  pose proof (intact_same _ _ HI17 Hh18) as HI18.
  assert (Hi18 : w_heap w18 !! inst = Some (named_instance p (VStr n)))
    by (rewrite Hh18; exact Hi17).
  assert (Hc18 : w_heap w18 !! jcopy = Some (named_instance p (VStr n)))
    by (rewrite Hh18; exact Hc17).
  destruct (step_toJS K w18 HI18 jcopy n Hc18) as (w19 & Hcjs & Hh19).
  rewrite (bind_ok _ _ _ _ _ Hcjs). cbv beta.
  pose proof (intact_same _ _ HI18 Hh19) as HI19.
  assert (Hi19 : w_heap w19 !! inst = Some (named_instance p (VStr n)))
    by (rewrite Hh19; exact Hi18).
  destruct (step_toJS K w19 HI19 inst n Hi19) as (w20 & Hijs & Hh20).
  rewrite (bind_ok _ _ _ _ _ Hijs). cbv beta.
  exists w20. split; [exact (expect_text_equal_pass (post n) _ w20) |].
  exact (intact_same _ _ HI19 Hh20).
Qed.

Lemma class_check_sample_decided i s w :
  nth i samples VUndefined = VStr s ->
  classes_intact w ->
  if sample_verdict pre post options s
  then exists w',
         check_sample test_code host (VRef c) samples options className i w = (Ok tt, w')
         /\ classes_intact w'
  else exists e w',
         check_sample test_code host (VRef c) samples options className i w = (Throw e, w').
Proof.
  intros Hs HI. pose proof (class_check_sample i s w Hs HI) as H.
  unfold sample_verdict. rewrite <- andb_assoc.
  destruct (String.eqb (post (pre s)) s); cbn [andb].
  - exact H.
  - destruct H as (w' & H). eauto.
Qed.
End ClassSample.

(** ** The loops *)

(** A loop whose body, under an invariant, ends well exactly on the good
    indices: it ends well when all its indices are good, and throws
    otherwise. *)
Lemma for_upto_decided {St} (P : St -> Prop) (good : nat -> bool)
  (body : nat -> ST St unit) n :
  forall start s,
    P s ->
    (forall i s, (start <= i < start + n)%nat -> P s ->
       if good i then exists s', body i s = (Ok tt, s') /\ P s'
       else exists e s', body i s = (Throw e, s')) ->
    if forallb good (seq start n)
    then exists s', for_upto n start body s = (Ok tt, s') /\ P s'
    else exists e s', for_upto n start body s = (Throw e, s').
Proof.
  induction n as [| n IH]; intros start s HP Hbody.
  - simpl. exists s. split; [reflexivity | exact HP].
  - cbn [seq forallb for_upto].
    pose proof (Hbody start s ltac:(lia) HP) as Hfirst.
    destruct (good start).
    + destruct Hfirst as (s1 & Hrun & HP1). cbn [andb].
      rewrite (bind_ok _ _ _ _ _ Hrun).
      apply (IH (S start) s1 HP1). intros i s' Hi. apply Hbody. lia.
    + destruct Hfirst as (e & s1 & Hrun). cbn [andb].
      exists e, s1. apply bind_throw. exact Hrun.
Qed.

Lemma forallb_seq (good : nat -> bool) start n :
  forallb good (seq start n) = true <-> forall i, (start <= i < start + n)%nat -> good i = true.
Proof.
  rewrite forallb_forall. split.
  - intros H i Hi. apply H. apply in_seq. exact Hi.
  - intros H i Hi. apply H. apply in_seq. exact Hi.
Qed.

Lemma strict_equal_text a b : strict_equal (VStr a) (VStr b) = String.eqb a b.
Proof.
  unfold strict_equal. destruct (String.eqb a b) eqn:E.
  - apply String.eqb_eq in E. subst b. apply bool_decide_eq_true_2. reflexivity.
  - apply String.eqb_neq in E. apply bool_decide_eq_false_2. congruence.
Qed.

Lemma sample_at (names : list string) i :
  (i < length names)%nat ->
  nth i (List.map VStr names) VUndefined = VStr (name_at names i).
Proof.
  intros Hi. unfold name_at.
  rewrite (nth_indep _ VUndefined (VStr "")) by (rewrite length_map; exact Hi).
  apply map_nth.
Qed.

Section ClassRun.
Context {c p : loc} {cname : string} {pre post : string -> string}.
Variable K : named_class c p cname pre post.
Variable options : TesterOptions.
Variable names : list string.

Local Abbreviation host := (ref_host test_code).
Local Abbreviation samples := (List.map VStr names).

Lemma class_check_pair j lj k w :
  (k < length names)%nat ->
  classes_intact w ->
  w_heap w !! lj = Some (named_instance p (VStr (pre (name_at names j)))) ->
  if pair_verdict pre names j k
  then exists w',
         check_pair test_code host (VRef c) samples options j (VRef lj) k w = (Ok tt, w')
         /\ classes_intact w'
         /\ w_heap w' !! lj = Some (named_instance p (VStr (pre (name_at names j))))
  else exists e w',
         check_pair test_code host (VRef c) samples options j (VRef lj) k w = (Throw e, w').
Proof.
  intros Hk HI Hj. unfold check_pair, objects_at. rewrite (sample_at names k Hk).
  destruct (step_fromJS K w HI (name_at names k) (context options)) as (w1 & Hcall & Hh1).
  rewrite (bind_ok _ _ _ _ _ Hcall). cbv beta.
  pose proof (intact_grow _ _ _ HI Hh1) as HI1.
  pose proof (kept_at _ _ _ _ _ Hh1 Hj) as Hj1.
  pose proof (fresh_at _ _ _ Hh1) as Hk1.
  destruct (step_equals_instance K w1 HI1 lj _ (length (w_heap w)) _ Hj1 Hk1)
    as (w2 & Heq & Hh2).
  rewrite (bind_ok _ _ _ _ _ Heq). cbv beta.
  rewrite strict_equal_text. unfold pair_verdict.
  pose proof (expect_equal_bool host
                (String.eqb (pre (name_at names j)) (pre (name_at names k)))
                ("Equality of objects " +:+ show_nat j +:+ " and " +:+ show_nat k
                 +:+ " was wrong")
                (Nat.eqb j k) w2) as Hexp.
  destruct (Bool.eqb _ _).
  - exists w2. split; [exact Hexp |]. split; [exact (intact_same _ _ HI1 Hh2) |].
    rewrite Hh2. exact Hj1.
  - destruct Hexp as [e He]. exists e, w2. exact He.
Qed.

Lemma class_check_equalities j w :
  (j < length names)%nat ->
  classes_intact w ->
  if equalities_verdict pre names j
  then exists w',
         check_equalities test_code host (VRef c) samples options j w = (Ok tt, w')
         /\ classes_intact w'
  else exists e w',
         check_equalities test_code host (VRef c) samples options j w = (Throw e, w').
Proof.
  intros Hj HI. unfold check_equalities, objects_at. rewrite (sample_at names j Hj).
  destruct (step_fromJS K w HI (name_at names j) (context options)) as (w1 & Hcall & Hh1).
  rewrite (bind_ok _ _ _ _ _ Hcall). cbv beta.
  pose proof (intact_grow _ _ _ HI Hh1) as HI1.
  pose proof (fresh_at _ _ _ Hh1) as Hj1.
  unfold for_range. rewrite length_map.
  pose proof (for_upto_decided
                (fun w' => classes_intact w'
                           /\ w_heap w' !! length (w_heap w)
                              = Some (named_instance p (VStr (pre (name_at names j)))))
                (pair_verdict pre names j)
                (check_pair test_code host (VRef c) samples options j (VRef (length (w_heap w))))
                (length names - j) j w1 (conj HI1 Hj1)) as Hloop.
  assert (Hbody : forall k w', (j <= k < j + (length names - j))%nat ->
            classes_intact w'
            /\ w_heap w' !! length (w_heap w)
               = Some (named_instance p (VStr (pre (name_at names j)))) ->
            if pair_verdict pre names j k
            then exists s',
                   check_pair test_code host (VRef c) samples options j
                     (VRef (length (w_heap w))) k w' = (Ok tt, s')
                   /\ classes_intact s'
                   /\ w_heap s' !! length (w_heap w)
                      = Some (named_instance p (VStr (pre (name_at names j))))
            else exists e s',
                   check_pair test_code host (VRef c) samples options j
                     (VRef (length (w_heap w))) k w' = (Throw e, s')).
  { intros k w' Hk [HI' Hj'].
    exact (class_check_pair j (length (w_heap w)) k w' ltac:(lia) HI' Hj'). }
  specialize (Hloop Hbody).
  unfold equalities_verdict.
  destruct (forallb (pair_verdict pre names j) (seq j (length names - j))).
  - destruct Hloop as (w2 & Hrun & HI2 & _). eauto.
  - exact Hloop.
Qed.

(** The whole run on a non-empty list of names, from the entry on. *)
Lemma class_run_decided :
  if run_verdict pre post options names
  then verdict (run_checker test_code test_heap (VRef c) samples options) = Ok tt
  else exists e, verdict (run_checker test_code test_heap (VRef c) samples options) = Throw e.
Proof.
  unfold run_verdict, verdict, run_checker.
  destruct (Nat.eqb (length names) 0) eqn:Hlen0.
  { cbn [negb andb]. apply Nat.eqb_eq in Hlen0.
    destruct names; [| discriminate Hlen0].
    eexists. unfold testImmutableClass.
    assert (Ha : check_arguments (VRef c) (VRef (length test_heap)) (start test_heap [])
                 = (Throw (JsError TypeError "objects must be a non-empty array of js to test"),
                    start test_heap [])).
    { unfold check_arguments. rewrite bind_read.
      assert (HI0 : classes_intact (start test_heap []))
        by (exists [array_literal []]; reflexivity).
      rewrite (class_is_function K _ HI0). cbn [negb]. cbv iota.
      rewrite bind_read. unfold array_elems, start. cbn [w_heap].
      rewrite lookup_fresh. reflexivity. }
    rewrite (bind_throw _ _ _ _ _ Ha). reflexivity. }
  apply Nat.eqb_neq in Hlen0.
  assert (Hlen : (0 < length names)%nat) by lia.
  cbn [negb andb].
  set (w0 := start test_heap samples).
  assert (HI0 : classes_intact w0) by (exists [array_literal samples]; reflexivity).
  unfold testImmutableClass.
  assert (Ha : check_arguments (VRef c) (VRef (length test_heap)) w0
               = (Ok (samples, cname), w0)).
  { rewrite <- (class_name K _ HI0). apply check_arguments_ok.
    - exact (class_is_function K _ HI0).
    - unfold array_elems, w0, start. cbn [w_heap]. rewrite lookup_fresh. reflexivity.
    - destruct names; [simpl in Hlen; lia | discriminate].
    - rewrite (class_name K _ HI0). exact (nc_name _ _ _ _ _ K). }
  rewrite (bind_ok _ _ _ _ _ Ha). cbv beta iota.
  destruct (class_check_methods K options samples cname (name_at names 0) w0
              (sample_at names 0 Hlen) HI0) as (w1 & Hm & HI1).
  rewrite (bind_ok _ _ _ _ _ Hm). cbv beta.
  rewrite (bind_ok _ _ _ _ _ (class_check_properties K w1 HI1)). cbv beta.
  unfold for_range. rewrite !Nat.sub_0_r, length_map.
  pose proof (for_upto_decided classes_intact
                (fun i => sample_verdict pre post options (name_at names i))
                (check_sample test_code host (VRef c) samples options cname)
                (length names) 0 w1 HI1) as Hsamples.
  assert (Hsbody : forall i w, (0 <= i < 0 + length names)%nat -> classes_intact w ->
            if sample_verdict pre post options (name_at names i)
            then exists s',
                   check_sample test_code host (VRef c) samples options cname i w = (Ok tt, s')
                   /\ classes_intact s'
            else exists e s',
                   check_sample test_code host (VRef c) samples options cname i w
                   = (Throw e, s')).
  { intros i w Hi HI.
    exact (class_check_sample_decided K options samples cname i (name_at names i) w
             (sample_at names i ltac:(lia)) HI). }
  specialize (Hsamples Hsbody).
  destruct (forallb (fun i => sample_verdict pre post options (name_at names i))
              (seq 0 (length names))).
  - destruct Hsamples as (w2 & Hs & HI2).
    rewrite (bind_ok _ _ _ _ _ Hs). cbv beta. cbn [andb].
    pose proof (for_upto_decided classes_intact (equalities_verdict pre names)
                  (check_equalities test_code host (VRef c) samples options)
                  (length names) 0 w2 HI2) as Hpairs.
    assert (Hpbody : forall j w, (0 <= j < 0 + length names)%nat -> classes_intact w ->
              if equalities_verdict pre names j
              then exists s',
                     check_equalities test_code host (VRef c) samples options j w = (Ok tt, s')
                     /\ classes_intact s'
              else exists e s',
                     check_equalities test_code host (VRef c) samples options j w
                     = (Throw e, s')).
    { intros j w Hj HI. exact (class_check_equalities j w ltac:(lia) HI). }
    specialize (Hpairs Hpbody).
    destruct (forallb (equalities_verdict pre names) (seq 0 (length names))).
    + destruct Hpairs as (w3 & Hp & _). rewrite Hp. reflexivity.
    + destruct Hpairs as (e & w3 & Hp). exists e. rewrite Hp. reflexivity.
  - destruct Hsamples as (e & w2 & Hs).
    cbn [andb]. exists e. rewrite (bind_throw _ _ _ _ _ Hs). reflexivity.
Qed.

(** The run whose first sample breaks the fixed point law ends there. *)
Lemma class_run_first_sample_not_fixed s rest :
  post (pre s) <> s ->
  verdict (run_checker test_code test_heap (VRef c) (VStr s :: rest) options)
  = Throw (JsError AssertionError
             (chai_message
                (cname
                 +:+ ".fromJS(obj).toJS() was not a fixed point (did not deep equal obj) "
                 +:+ "[in object " +:+ show_nat 0 +:+ "]")
                ("expected " +:+ display_string (post (pre s))
                 +:+ " to deeply equal " +:+ display_string s))).
Proof.
  intros Hne. unfold verdict, run_checker.
  set (all := VStr s :: rest).
  set (w0 := start test_heap all).
  assert (HI0 : classes_intact w0) by (exists [array_literal all]; reflexivity).
  unfold testImmutableClass.
  assert (Ha : check_arguments (VRef c) (VRef (length test_heap)) w0 = (Ok (all, cname), w0)).
  { rewrite <- (class_name K _ HI0). apply check_arguments_ok.
    - exact (class_is_function K _ HI0).
    - unfold array_elems, w0, start. cbn [w_heap]. rewrite lookup_fresh. reflexivity.
    - discriminate.
    - rewrite (class_name K _ HI0). exact (nc_name _ _ _ _ _ K). }
  rewrite (bind_ok _ _ _ _ _ Ha). cbv beta iota.
  destruct (class_check_methods K options all cname s w0 eq_refl HI0) as (w1 & Hm & HI1).
  rewrite (bind_ok _ _ _ _ _ Hm). cbv beta.
  rewrite (bind_ok _ _ _ _ _ (class_check_properties K w1 HI1)). cbv beta.
  pose proof (class_check_sample K options all cname 0 s w1 eq_refl HI1) as Hs.
  apply String.eqb_neq in Hne. rewrite Hne in Hs. destruct Hs as (w2 & Hs).
  unfold for_range. change (length all - 0)%nat with (S (length rest)). cbn [for_upto].
  rewrite (bind_throw _ _ _ _ _ (bind_throw _ _ _ _ _ Hs)). reflexivity.
Qed.
End ClassRun.

Section ClassRunAt.
Context {c p : loc} {cname : string} {pre post : string -> string}.
Variable K : named_class c p cname pre post.
Variable options : TesterOptions.
Variable names : list string.

Local Abbreviation host := (ref_host test_code).
Local Abbreviation samples := (List.map VStr names).

(** The run whose samples before sample [i] pass and whose sample [i]
    breaks the fixed point law ends at sample [i]. *)
Lemma class_run_sample_not_fixed i :
  (i < length names)%nat ->
  (forall k, (k < i)%nat -> sample_verdict pre post options (name_at names k) = true) ->
  post (pre (name_at names i)) <> name_at names i ->
  verdict (run_checker test_code test_heap (VRef c) samples options)
  = Throw (JsError AssertionError
             (chai_message
                (cname
                 +:+ ".fromJS(obj).toJS() was not a fixed point (did not deep equal obj) "
                 +:+ "[in object " +:+ show_nat i +:+ "]")
                ("expected " +:+ display_string (post (pre (name_at names i)))
                 +:+ " to deeply equal " +:+ display_string (name_at names i)))).
Proof.
  intros Hi Hbefore Hne. unfold verdict, run_checker.
  set (w0 := start test_heap samples).
  assert (HI0 : classes_intact w0) by (exists [array_literal samples]; reflexivity).
  unfold testImmutableClass.
  assert (Ha : check_arguments (VRef c) (VRef (length test_heap)) w0
               = (Ok (samples, cname), w0)).
  { rewrite <- (class_name K _ HI0). apply check_arguments_ok.
    - exact (class_is_function K _ HI0).
    - unfold array_elems, w0, start. cbn [w_heap]. rewrite lookup_fresh. reflexivity.
    - destruct names; [simpl in Hi; lia | discriminate].
    - rewrite (class_name K _ HI0). exact (nc_name _ _ _ _ _ K). }
  rewrite (bind_ok _ _ _ _ _ Ha). cbv beta iota.
  destruct (class_check_methods K options samples cname (name_at names 0) w0
              (sample_at names 0 ltac:(lia)) HI0) as (w1 & Hm & HI1).
  rewrite (bind_ok _ _ _ _ _ Hm). cbv beta.
  rewrite (bind_ok _ _ _ _ _ (class_check_properties K w1 HI1)). cbv beta.
  pose proof (for_upto_decided classes_intact
                (fun k => sample_verdict pre post options (name_at names k))
                (check_sample test_code host (VRef c) samples options cname)
                i 0 w1 HI1) as Hprefix.
  assert (Hsbody : forall k w, (0 <= k < 0 + i)%nat -> classes_intact w ->
            if sample_verdict pre post options (name_at names k)
            then exists s',
                   check_sample test_code host (VRef c) samples options cname k w = (Ok tt, s')
                   /\ classes_intact s'
            else exists e s',
                   check_sample test_code host (VRef c) samples options cname k w
                   = (Throw e, s')).
  { intros k w Hk HI.
    exact (class_check_sample_decided K options samples cname k (name_at names k) w
             (sample_at names k ltac:(lia)) HI). }
  specialize (Hprefix Hsbody).
  replace (forallb (fun k => sample_verdict pre post options (name_at names k)) (seq 0 i))
    with true in Hprefix
    by (symmetry; apply forallb_seq; intros k Hk; apply Hbefore; lia).
  destruct Hprefix as (wi & Hpre & HIi).
  pose proof (class_check_sample K options samples cname i (name_at names i) wi
                (sample_at names i Hi) HIi) as Hs.
  apply String.eqb_neq in Hne. rewrite Hne in Hs. destruct Hs as (w2 & Hs).
  rewrite (bind_throw _ _ _ _ _
             (for_range_throw _ 0 (length samples) i w1 wi _ w2
                ltac:(rewrite length_map; lia)
                ltac:(unfold for_range; rewrite Nat.sub_0_r; exact Hpre) Hs)).
  reflexivity.
Qed.
End ClassRunAt.

(** ** The classes [Animal] and [AnimalBadToJS] *)

Lemma Animal_keeps_a_name :
  named_class 11 10 "Animal" without_hashtag (fun n => n).
Proof.
  constructor.
  - reflexivity.
  - discriminate.
  - reflexivity.
  - reflexivity.
  - repeat split; first [lia | discriminate].
  - reflexivity.
  - intros [| [| [| fuel]]] seen; reflexivity.
  - exists 17%nat, "Animal.fromJS". split; [reflexivity |]. split; [reflexivity |].
    intros this s rest h.
    change (test_code "Animal.fromJS" this (VStr s :: rest))
      with (bind (strip_hash (VStr s))
              (fun name => instantiate Animal (fun this => name_constructor this [name]))).
    rewrite (bind_ok _ _ _ _ _ (strip_hash_text s h)). reflexivity.
  - intros key Hin. simpl in Hin.
    destruct Hin as [<- | [<- | [<- | []]]].
    + exists 12%nat, "Animal.toString". repeat split; first [reflexivity | discriminate].
    + exists 13%nat, "Animal.valueOf". repeat split; first [reflexivity | discriminate].
    + exists 15%nat, "Animal.toJSON". repeat split; first [reflexivity | discriminate].
  - exists 14%nat, "Animal.toJS". split; [reflexivity |]. split; [reflexivity |].
    intros this args h n Hn. exact Hn.
  - exists 16%nat, "Animal.equals". repeat split; reflexivity.
Qed.

Lemma AnimalBadToJS_keeps_a_name :
  named_class 23 22 "AnimalBadToJS" (fun s => s) (fun n => "Bad " +:+ n).
Proof.
  constructor.
  - reflexivity.
  - discriminate.
  - reflexivity.
  - reflexivity.
  - repeat split; first [lia | discriminate].
  - reflexivity.
  - intros [| [| [| fuel]]] seen; reflexivity.
  - exists 29%nat, "AnimalBadToJS.fromJS". split; [reflexivity |]. split; [reflexivity |].
    intros this s rest h. reflexivity.
  - intros key Hin. simpl in Hin.
    destruct Hin as [<- | [<- | [<- | []]]].
    + exists 24%nat, "AnimalBadToJS.toString". repeat split; first [reflexivity | discriminate].
    + exists 25%nat, "AnimalBadToJS.valueOf". repeat split; first [reflexivity | discriminate].
    + exists 27%nat, "AnimalBadToJS.toJSON". repeat split; first [reflexivity | discriminate].
  - exists 26%nat, "AnimalBadToJS.toJS". split; [reflexivity |]. split; [reflexivity |].
    intros this args h n Hn.
    change (test_code "AnimalBadToJS.toJS" this args)
      with (bind (get this "name") (fun name => ret (VStr ("Bad " +:+ to_text name)))).
    rewrite (bind_ok _ _ _ _ _ Hn). reflexivity.
  - exists 28%nat, "AnimalBadToJS.equals". repeat split; reflexivity.
Qed.

Lemma Forall_name_at (P : string -> Prop) (names : list string) :
  Forall P names <-> forall i, (i < length names)%nat -> P (name_at names i).
Proof.
  unfold name_at. rewrite List.Forall_forall. split.
  - intros H i Hi. apply H. apply nth_In. exact Hi.
  - intros H s Hs. destruct (In_nth _ _ "" Hs) as (i & Hi & <-). apply H. exact Hi.
Qed.

Lemma Animal_sample_verdict options s :
  sample_verdict without_hashtag (fun n => n) options s = true
  <-> starts_with "#" s = false /\ newThrows options <> Some true.
Proof.
  unfold sample_verdict. rewrite !andb_true_iff, negb_true_iff, !String.eqb_eq.
  rewrite without_hashtag_fixed.
  assert (Hnt : default false (newThrows options) = false <-> newThrows options <> Some true).
  { destruct (newThrows options) as [[|] |]; simpl; split; congruence. }
  rewrite Hnt. split.
  - intros [[Hs Hn] _]. auto.
  - intros [Hs Hn]. split; [auto |].
    apply without_hashtag_fixed in Hs. rewrite Hs. exact Hs.
Qed.

Lemma Animal_run_verdict (options : TesterOptions) (names : list string) :
  run_verdict without_hashtag (fun n => n) options names = true
  <-> names <> []
      /\ Forall (fun s => starts_with "#" s = false) names
      /\ List.NoDup names
      /\ newThrows options <> Some true.
Proof.
  unfold run_verdict. rewrite !andb_true_iff, negb_true_iff, Nat.eqb_neq.
  rewrite !forallb_seq.
  split.
  - intros [[Hlen Hs] Hp].
    assert (Hne : names <> []) by (intros ->; apply Hlen; reflexivity).
    assert (Hhash : forall i, (i < length names)%nat ->
                              starts_with "#" (name_at names i) = false).
    { intros i Hi. apply (Animal_sample_verdict options (name_at names i)). apply Hs. lia. }
    split; [exact Hne |]. split; [apply Forall_name_at; exact Hhash |]. split.
    + apply (NoDup_nth names "").
      assert (Hle : forall j k, (j <= k < length names)%nat ->
                                nth j names "" = nth k names "" -> j = k).
      { intros j k Hjk Heq.
        pose proof (Hp j ltac:(lia)) as Hj. unfold equalities_verdict in Hj.
        rewrite forallb_seq in Hj. specialize (Hj k ltac:(lia)).
        unfold pair_verdict in Hj. apply Bool.eqb_prop in Hj.
        unfold name_at in Hj. rewrite Heq, String.eqb_refl in Hj.
        symmetry in Hj. apply Nat.eqb_eq in Hj. exact Hj. }
      intros j k Hj Hk Heq.
      destruct (Nat.le_ge_cases j k) as [Hjk | Hkj].
      * apply Hle; [lia | exact Heq].
      * symmetry. apply Hle; [lia | symmetry; exact Heq].
    + destruct names as [| s0 rest]; [congruence |].
      apply (Animal_sample_verdict options (name_at (s0 :: rest) 0)). apply Hs. simpl. lia.
  - intros (Hne & Hhash & Hnd & Hnew).
    rewrite Forall_name_at in Hhash.
    split; [split |].
    + destruct names; [congruence | simpl; lia].
    + intros i Hi. apply Animal_sample_verdict. split; [apply Hhash; lia | exact Hnew].
    + intros j Hj. unfold equalities_verdict. apply forallb_seq. intros k Hk.
      unfold pair_verdict.
      rewrite (proj2 (without_hashtag_fixed _) (Hhash j ltac:(lia))).
      rewrite (proj2 (without_hashtag_fixed _) (Hhash k ltac:(lia))).
      destruct (Nat.eqb j k) eqn:Ejk.
      * apply Nat.eqb_eq in Ejk. subst k. rewrite String.eqb_refl. reflexivity.
      * apply Nat.eqb_neq in Ejk.
        replace (String.eqb (name_at names j) (name_at names k)) with false; [reflexivity |].
        symmetry. apply String.eqb_neq. intros Heq. apply Ejk. unfold name_at in Heq.
        apply (proj1 (NoDup_nth names "") Hnd j k); [lia | lia | exact Heq].
Qed.

(** X15. The checker passes the class [Animal] on a list of names exactly
    when the list is not empty, no name starts with a hashtag, no name comes
    twice and [newThrows] is not set (the first test of index.mocha.ts is one
    such list). *)
Theorem Animal_passes_exactly_on_distinct_plain_names
  (names : list string) (options : TesterOptions) :
  verdict (run_checker test_code test_heap Animal (List.map VStr names) options) = Ok tt
  <-> names <> []
      /\ Forall (fun s => starts_with "#" s = false) names
      /\ List.NoDup names
      /\ newThrows options <> Some true.
Proof.
  rewrite <- Animal_run_verdict.
  pose proof (class_run_decided Animal_keeps_a_name options names) as H.
  change (VRef 11) with Animal in H.
  destruct (run_verdict without_hashtag (fun n => n) options names).
  - split; [reflexivity | intros _; exact H].
  - destruct H as [e He]. rewrite He. split; discriminate.
Qed.

Lemma prefix_name_at (before : list string) s after k :
  (k < length before)%nat -> name_at (before ++ s :: after) k = name_at before k.
Proof. intros Hk. unfold name_at. apply app_nth1. exact Hk. Qed.

Lemma middle_name_at (before : list string) s after :
  name_at (before ++ s :: after) (length before) = s.
Proof. unfold name_at. rewrite app_nth2 by lia. rewrite Nat.sub_diag. reflexivity. Qed.

(** X16. The second test of index.mocha.ts at any place: when the first name
    with a hashtag is sample [i], the run on the class [Animal] ends with
    "Animal.fromJS(obj).toJS() was not a fixed point (did not deep equal obj)
    [in object i]: expected '<name without the hashtag>' to deeply equal
    '<name>'", whatever follows that sample. *)
Theorem Animal_hashtag_reported_at_its_index
  (before after : list string) (s : string) (options : TesterOptions) :
  Forall (fun s => starts_with "#" s = false) before ->
  newThrows options <> Some true ->
  starts_with "#" s = true ->
  verdict (run_checker test_code test_heap Animal
             (List.map VStr (before ++ s :: after)) options)
  = Throw (JsError AssertionError
             ("Animal.fromJS(obj).toJS() was not a fixed point (did not deep equal obj) [in object "
              +:+ show_nat (length before) +:+ "]: expected "
              +:+ display_string (without_hashtag s)
              +:+ " to deeply equal " +:+ display_string s)).
Proof.
  intros Hbefore Hnew Hhash.
  pose proof (class_run_sample_not_fixed Animal_keeps_a_name options
                (before ++ s :: after) (length before)) as H.
  rewrite middle_name_at in H.
  change (VRef 11) with Animal in H. rewrite H.
  - f_equal. f_equal. unfold chai_message.
    change (String.eqb _ "") with false. cbv iota.
    rewrite !append_assoc. reflexivity.
  - rewrite length_app. simpl. lia.
  - intros k Hk. rewrite prefix_name_at by exact Hk.
    apply Animal_sample_verdict. split; [| exact Hnew].
    apply (proj1 (Forall_name_at _ before) Hbefore). exact Hk.
  - intros Hfix. apply without_hashtag_fixed in Hfix. congruence.
Qed.

(** X17. The class [AnimalBadToJS] is rejected whatever the samples: when the
    first is the text [s], the run ends at sample 0 with the fixed point
    message, "expected 'Bad s' to deeply equal 's'" (lines 87-121 and the
    fourth test). *)
Theorem AnimalBadToJS_fails_at_the_first_sample
  (s : string) (rest : list value) (options : TesterOptions) :
  verdict (run_checker test_code test_heap AnimalBadToJS (VStr s :: rest) options)
  = Throw (JsError AssertionError
             ("AnimalBadToJS.fromJS(obj).toJS() was not a fixed point (did not deep equal obj) [in object 0]: expected "
              +:+ display_string ("Bad " +:+ s)
              +:+ " to deeply equal " +:+ display_string s)).
Proof.
  pose proof (class_run_first_sample_not_fixed AnimalBadToJS_keeps_a_name options s rest) as H.
  change (VRef 23) with AnimalBadToJS in H. rewrite H.
  - reflexivity.
  - intros Heq. apply (f_equal String.length) in Heq.
    change ("Bad " +:+ s) with (String "B" (String "a" (String "d" (String " " s)))) in Heq.
    cbn [String.length] in Heq. lia.
Qed.

(** ** The class [Animal] on its own (index.mocha.ts, lines 36-72) *)

(** X19. [Animal.fromJS(s).toJS()] is [s] without its leading hashtag, in
    every heap that holds the classes: [fromJS] returns an [instanceof
    Animal], only adds to the heap, and [toJS] gives back [s] itself exactly
    when [s] does not start with a hashtag (lines 37-41, 49-51, 61-63). *)
Theorem Animal_round_trip (h : heap) (s : string) (rest : list value) :
  extends test_heap h ->
  exists inst h1,
    call_method test_code Animal "fromJS" (VStr s :: rest) h = (Ok inst, h1)
    /\ extends h h1
    /\ instanceof inst Animal h1 = (Ok true, h1)
    /\ call_method test_code inst "toJS" [] h1 = (Ok (VStr (without_hashtag s)), h1)
    /\ (without_hashtag s = s <-> starts_with "#" s = false).
Proof.
  intros Hext.
  exists (VRef (length h)), (h ++ [named_instance 10 (VStr (without_hashtag s))]).
  pose proof (extends_app _ _ [named_instance 10 (VStr (without_hashtag s))] Hext) as Hext1.
  split; [exact (class_fromJS_run Animal_keeps_a_name h Hext s rest) |].
  split; [eexists; reflexivity |].
  split.
  - exact (class_instanceof_instance Animal_keeps_a_name _ Hext1 _ _ (lookup_fresh h _)).
  - split; [| exact (without_hashtag_fixed s)].
    exact (class_toJS_run Animal_keeps_a_name _ Hext1 _ _ [] (lookup_fresh h _)).
Qed.


(** ** The class [AnimalWithContext] (index.mocha.ts, lines 123-164) *)

Lemma lookup_before_last (h : heap) a b : ((h ++ [a]) ++ [b]) !! length h = Some a.
Proof. apply lookup_app_l_Some. apply lookup_fresh. Qed.

(** X21. [AnimalWithContext.fromJS(s, animalWeights)] (lines 124-131,
    140-143): without a context it is a [TypeError] on reading
    [animalWeights[s]]; with a falsy weight it throws "unknown animal (it has
    no weight)", the heap untouched; with a truthy weight [w] it allocates the
    literal [{n: s, w: w}] and then the instance, with [name = s] and
    [weight = w]. *)
Theorem AnimalWithContext_fromJS_needs_a_weight
  (h : heap) (s : string) (animalWeights : value) (rest : list value) :
  extends test_heap h ->
  (animalWeights = VUndefined \/ animalWeights = VNull ->
   call_method test_code AnimalWithContext "fromJS" (VStr s :: animalWeights :: rest) h
   = (Throw (JsError TypeError
               ("Cannot read property '" +:+ s +:+ "' of " +:+ show_nullish animalWeights)),
      h))
  /\ (forall w,
        get animalWeights s h = (Ok w, h) ->
        truthy w = false ->
        call_method test_code AnimalWithContext "fromJS" (VStr s :: animalWeights :: rest) h
        = (Throw (JsError PlainError "unknown animal (it has no weight)"), h))
  /\ (forall w,
        get animalWeights s h = (Ok w, h) ->
        truthy w = true ->
        call_method test_code AnimalWithContext "fromJS" (VStr s :: animalWeights :: rest) h
        = (Ok (VRef (S (length h))),
           h ++ [object_literal [("n", VStr s); ("w", w)];
                 weighted_instance (VStr s) w])).
Proof.
  intros Hext.
  assert (Hcall : call_method test_code AnimalWithContext "fromJS"
                    (VStr s :: animalWeights :: rest) h
                  = test_code "AnimalWithContext.fromJS" AnimalWithContext
                      (VStr s :: animalWeights :: rest) h).
  { apply (call_method_run test_code AnimalWithContext "fromJS" _ h (VRef 38) "fromJS").
    - apply (class_member h Hext); [discriminate | vm_compute; reflexivity | lia].
    - apply (class_function h Hext). vm_compute; reflexivity. }
  rewrite Hcall.
  change (test_code "AnimalWithContext.fromJS" AnimalWithContext
            (VStr s :: animalWeights :: rest))
    with (bind (get animalWeights s) (fun w =>
            if negb (truthy w)
            then throw (JsError PlainError "unknown animal (it has no weight)")
            else
              bind (alloc (object_literal [("n", VStr s); ("w", w)])) (fun p =>
                instantiate AnimalWithContext (fun this =>
                  bind (get p "n") (fun n =>
                    bind (set this "name" n) (fun _ =>
                      bind (get p "w") (fun w =>
                        bind (set this "weight" w) (fun _ => ret VUndefined)))))))).
  split; [| split].
  - intros [-> | ->]; reflexivity.
  - intros w Hw Ht. rewrite (bind_ok _ _ _ _ _ Hw). cbv beta. rewrite Ht. reflexivity.
  - intros w Hw Ht. rewrite (bind_ok _ _ _ _ _ Hw). cbv beta. rewrite Ht.
    cbn [negb]. cbv iota.
    unfold bind at 1. unfold alloc at 1.
    set (p := object_literal [("n", VStr s); ("w", w)]).
    assert (Hext1 : extends test_heap (h ++ [p])) by (apply extends_app; exact Hext).
    unfold instantiate.
    rewrite (bind_ok _ _ _ _ _
               (class_member _ Hext1 32 "prototype" (VRef 31)
                  ltac:(discriminate) ltac:(vm_compute; reflexivity) ltac:(lia))).
    cbv beta. cbn [is_ref].
    unfold bind at 1. unfold alloc at 1.
    set (this0 := mk_object KObject (VRef 31) []).
    assert (Hp : forall o, ((h ++ [p]) ++ [o]) !! length h = Some p)
      by (intros o; apply lookup_before_last).
    match goal with
    | |- bind ?init _ _ = _ =>
        assert (Hinit : init ((h ++ [p]) ++ [this0])
                        = (Ok VUndefined,
                           (h ++ [p])
                           ++ [mk_object KObject (VRef 31)
                                 [("name", mk_prop (VStr s) true);
                                  ("weight", mk_prop w true)]]))
    end.
    { rewrite (bind_ok _ _ _ _ _
                 (get_own_field (length h) p "n" _ (VStr s) (Hp this0)
                    ltac:(discriminate) eq_refl)).
      cbv beta.
      rewrite (bind_ok _ _ _ _ _
                 (set_fresh (h ++ [p]) this0 "name" (VStr s) ltac:(discriminate))).
      cbv beta.
      rewrite (bind_ok _ _ _ _ _
                 (get_own_field (length h) p "w" _ w (Hp _) ltac:(discriminate) eq_refl)).
      cbv beta.
      rewrite (bind_ok _ _ _ _ _
                 (set_fresh (h ++ [p]) _ "weight" w ltac:(discriminate))).
      reflexivity. }
    rewrite (bind_ok _ _ _ _ _ Hinit). cbv beta. cbn [is_ref]. unfold ret.
    rewrite <- app_assoc, length_app. cbn [length app]. rewrite Nat.add_1_r. reflexivity.
Qed.

Section WithContext.
Variable h : heap.
Hypothesis Hext : extends test_heap h.

Lemma weighted_method l name weight key f :
  h !! l = Some (weighted_instance name weight) ->
  In key ["toString"; "valueOf"; "toJS"; "toJSON"; "equals"] ->
  lookup_within 3 test_heap (VRef 31) key = Some (VRef f) ->
  forall args,
    call_method test_code (VRef l) key args h
    = match function_of test_heap (VRef f) with
      | Some (_, body) => test_code body (VRef l) args h
      | None => call_method test_code (VRef l) key args h
      end.
Proof.
  intros Hl Hin Hm args.
  assert (Hg : get (VRef l) key h = (Ok (VRef f), h)).
  { apply (get_inherited l _ 31 key h (VRef f) Hl).
    - simpl in Hin. intros ->. intuition discriminate.
    - simpl in Hin.
      destruct Hin as [<- | [<- | [<- | [<- | [<- | []]]]]]; reflexivity.
    - reflexivity.
    - apply (class_lookup h Hext); [exact Hm | lia].
    - pose proof (test_classes_length h Hext). lia. }
  destruct (function_of test_heap (VRef f)) as [[fname body] |] eqn:Hf; [| reflexivity].
  apply (call_method_run test_code (VRef l) key args h (VRef f) fname body Hg).
  apply (class_function h Hext). exact Hf.
Qed.

Lemma weighted_name l name weight :
  h !! l = Some (weighted_instance name weight) ->
  get (VRef l) "name" h = (Ok name, h).
Proof.
  intros Hl. apply (get_own_field l _ "name" h name Hl); [discriminate | reflexivity].
Qed.

Lemma AnimalWithContext_is_function : is_function h AnimalWithContext = true.
Proof.
  unfold is_function, AnimalWithContext.
  rewrite (class_function h Hext 32 "AnimalWithContext" "AnimalWithContext" eq_refl).
  reflexivity.
Qed.

Lemma AnimalWithContext_prototype :
  get AnimalWithContext "prototype" h = (Ok (VRef 31), h).
Proof.
  apply (class_member h Hext); [discriminate | vm_compute; reflexivity | lia].
Qed.

Lemma weighted_is_instance b name weight :
  h !! b = Some (weighted_instance name weight) ->
  isInstanceOf (VRef b) AnimalWithContext h = (Ok true, h).
Proof.
  intros Hb. apply isInstanceOf_of_instanceof.
  exact (instanceof_of_instance h b AnimalWithContext 31 _
           AnimalWithContext_is_function AnimalWithContext_prototype Hb eq_refl).
Qed.

Lemma literal_is_no_AnimalWithContext b fields :
  h !! b = Some (object_literal fields) ->
  isInstanceOf (VRef b) AnimalWithContext h = (Ok false, h).
Proof.
  intros Hb. apply isInstanceOf_without_constructor.
  - unfold instanceof. rewrite AnimalWithContext_is_function. simpl negb. cbv iota.
    change AnimalWithContext with (VRef 32).
    rewrite (get_ref_inv 32 "prototype" h _ AnimalWithContext_prototype) by discriminate.
    f_equal. f_equal.
    apply (not_instance_of_class h Hext b _ Object_prototype 31 Hb eq_refl);
      [vm_compute; lia | discriminate |].
    intros f. apply plain_chain. discriminate.
  - unfold proto_of. unfold loc in *. rewrite Hb.
    apply (no_constructor_in_realm h Hext). simpl. tauto.
Qed.

Lemma weighted_equals l name weight other rest :
  h !! l = Some (weighted_instance name weight) ->
  call_method test_code (VRef l) "equals" (other :: rest) h
  = equals_by_name AnimalWithContext (VRef l) other h.
Proof.
  intros Hl.
  rewrite (weighted_method l name weight "equals" 37 Hl); [reflexivity | | reflexivity].
  simpl. tauto.
Qed.
End WithContext.

(** X22. The value form of an [AnimalWithContext] forgets the weight (lines
    140-163): [valueOf()] allocates a new plain object [{n: name}], which the
    instance does not equal; [new AnimalWithContext] of it is an instance
    with the same name and the weight [undefined], which the instance does
    equal, [equals] comparing names only; both give the name for [toJS()]. *)
Theorem AnimalWithContext_value_form_forgets_the_weight
  (h : heap) (l : loc) (name weight : value) :
  extends test_heap h ->
  h !! l = Some (weighted_instance name weight) ->
  let value := VRef (length h) in
  let copy := VRef (S (length h)) in
  let h1 := h ++ [object_literal [("n", name)]] in
  let h2 := h1 ++ [weighted_instance name VUndefined] in
  call_method test_code (VRef l) "valueOf" [] h = (Ok value, h1)
  /\ call_method test_code (VRef l) "equals" [value] h1 = (Ok (VBool false), h1)
  /\ construct test_code AnimalWithContext [value] h1 = (Ok copy, h2)
  /\ call_method test_code (VRef l) "equals" [copy] h2 = (Ok (VBool true), h2)
  /\ call_method test_code copy "toJS" [] h2 = (Ok name, h2)
  /\ call_method test_code (VRef l) "toJS" [] h2 = (Ok name, h2).
Proof.
  intros Hext Hl value copy h1 h2.
  assert (Hext1 : extends test_heap h1) by (apply extends_app; exact Hext).
  assert (Hext2 : extends test_heap h2) by (apply extends_app; exact Hext1).
  assert (Hl1 : h1 !! l = Some (weighted_instance name weight))
    by (apply lookup_app_l_Some; exact Hl).
  assert (Hl2 : h2 !! l = Some (weighted_instance name weight))
    by (apply lookup_app_l_Some; exact Hl1).
  assert (Hv1 : h1 !! length h = Some (object_literal [("n", name)]))
    by apply lookup_fresh.
  assert (Hc2 : h2 !! S (length h) = Some (weighted_instance name VUndefined)).
  { replace (S (length h)) with (length h1)
      by (unfold h1; rewrite length_app; cbn [length]; lia).
    apply lookup_fresh. }
  split; [| split; [| split; [| split; [| split]]]].
  - rewrite (weighted_method h Hext l name weight "valueOf" 34 Hl);
      [| simpl; tauto | reflexivity].
    change (bind (get (VRef l) "name") (fun name => alloc (object_literal [("n", name)])) h
            = (Ok value, h1)).
    rewrite (bind_ok _ _ _ _ _ (weighted_name h l name weight Hl)). reflexivity.
  - rewrite (weighted_equals h1 Hext1 l name weight value [] Hl1).
    apply equals_by_name_of_stranger.
    exact (literal_is_no_AnimalWithContext h1 Hext1 (length h) _ Hv1).
  - unfold construct. change AnimalWithContext with (VRef 32).
    rewrite (class_function h1 Hext1 32 "AnimalWithContext" "AnimalWithContext" eq_refl).
    rewrite (bind_ok _ _ _ _ _ (AnimalWithContext_prototype h1 Hext1)). cbv beta.
    cbn [is_ref]. unfold bind at 1. unfold alloc at 1.
    set (this0 := mk_object KObject (VRef 31) []).
    assert (Hp : forall o, (h1 ++ [o]) !! length h = Some (object_literal [("n", name)]))
      by (intros o; apply lookup_before_last).
    change (test_code "AnimalWithContext" (VRef (length h1)) [value])
      with (bind (get value "n") (fun n =>
              bind (set (VRef (length h1)) "name" n) (fun _ =>
                bind (get value "w") (fun w =>
                  bind (set (VRef (length h1)) "weight" w) (fun _ => ret VUndefined))))).
    match goal with
    | |- bind ?init _ _ = _ =>
        assert (Hinit : init (h1 ++ [this0])
                        = (Ok VUndefined, h1 ++ [weighted_instance name VUndefined]))
    end.
    { rewrite (bind_ok _ _ _ _ _
                 (get_own_field (length h) _ "n" _ name (Hp this0)
                    ltac:(discriminate) eq_refl)).
      cbv beta.
      rewrite (bind_ok _ _ _ _ _ (set_fresh h1 this0 "name" name ltac:(discriminate))).
      cbv beta.
      assert (Hw : get value "w" (h1 ++ [mk_object (o_kind this0) (o_proto this0)
                                           (update_prop "name" name (o_props this0))])
                   = (Ok VUndefined, h1 ++ [mk_object (o_kind this0) (o_proto this0)
                                              (update_prop "name" name (o_props this0))])).
      { apply (get_inherited (length h) _ Object_prototype "w" _ VUndefined (Hp _));
          [discriminate | reflexivity | reflexivity | |].
        - apply (class_lookup _ (extends_app _ _ _ Hext1));
            [vm_compute; reflexivity | vm_compute; lia].
        - pose proof (extends_length _ _ (extends_app _ _ [mk_object (o_kind this0)
                        (o_proto this0) (update_prop "name" name (o_props this0))] Hext1)).
          change (length test_heap) with 40%nat in *. lia. }
      rewrite (bind_ok _ _ _ _ _ Hw). cbv beta.
      rewrite (bind_ok _ _ _ _ _ (set_fresh h1 _ "weight" VUndefined ltac:(discriminate))).
      reflexivity. }
    rewrite (bind_ok _ _ _ _ _ Hinit). cbv beta. cbn [is_ref]. unfold ret, copy, h2.
    replace (length h1) with (S (length h))
      by (unfold h1; rewrite length_app; cbn [length]; lia).
    reflexivity.
  - rewrite (weighted_equals h2 Hext2 l name weight copy [] Hl2).
    rewrite (equals_by_name_of_instance AnimalWithContext (VRef l) copy h2 name name).
    + unfold strict_equal. rewrite bool_decide_eq_true_2 by reflexivity. reflexivity.
    + exact (weighted_is_instance h2 Hext2 _ _ _ Hc2).
    + exact (weighted_name h2 l name weight Hl2).
    + exact (weighted_name h2 _ name VUndefined Hc2).
  - rewrite (weighted_method h2 Hext2 _ name VUndefined "toJS" 35 Hc2);
      [| simpl; tauto | reflexivity].
    exact (weighted_name h2 _ name VUndefined Hc2).
  - rewrite (weighted_method h2 Hext2 l name weight "toJS" 35 Hl2);
      [| simpl; tauto | reflexivity].
    exact (weighted_name h2 l name weight Hl2).
Qed.

(** ** The class [AnimalNoFromJS] (index.mocha.ts, lines 74-84) *)

(** X18. The class [AnimalNoFromJS] is rejected on every non-empty array of
    samples, with "AnimalNoFromJS.fromJS should exist: expected undefined to
    be a function", before any call: the state is the one of the entry
    (lines 74-84 and the third test). *)
Theorem AnimalNoFromJS_is_always_rejected (samples : list value) (options : TesterOptions) :
  samples <> [] ->
  run_checker test_code test_heap AnimalNoFromJS samples options
  = (Throw (JsError AssertionError
              "AnimalNoFromJS.fromJS should exist: expected undefined to be a function"),
     start test_heap samples).
Proof.
  intros Hne. unfold run_checker.
  set (w0 := start test_heap samples).
  assert (HI0 : extends test_heap (w_heap w0)) by (exists [array_literal samples]; reflexivity).
  assert (Hf : function_of (w_heap w0) AnimalNoFromJS = Some ("AnimalNoFromJS", "AnimalNoFromJS"))
    by (apply (class_function _ HI0); reflexivity).
  rewrite (run_without_fromJS test_code (ref_host test_code) AnimalNoFromJS
             (VRef (length test_heap)) options w0 samples "AnimalNoFromJS" VUndefined).
  - reflexivity.
  - replace "AnimalNoFromJS" with (function_name (w_heap w0) AnimalNoFromJS) at 2
      by (unfold function_name; rewrite Hf; reflexivity).
    apply check_arguments_ok.
    + unfold is_function. rewrite Hf. reflexivity.
    + unfold array_elems, w0, start. cbn [w_heap]. rewrite lookup_fresh. reflexivity.
    + exact Hne.
    + unfold function_name. rewrite Hf. discriminate.
  - apply (class_member _ HI0); [discriminate | reflexivity | lia].
  - reflexivity.
Qed.

(** ** The theorems on the classes at work *)

Lemma Animal_passes_exactly_on_distinct_plain_names_witness :
  verdict (run_checker test_code test_heap Animal koalas no_options) = Ok tt
  /\ verdict (run_checker test_code test_heap Animal hash_cat no_options) <> Ok tt
  /\ verdict (run_checker test_code test_heap Animal
                [VStr "Koala"; VStr "Snake"; VStr "Koala"] no_options) <> Ok tt
  /\ verdict (run_checker test_code test_heap Animal koalas (mk_options (Some true) VUndefined))
     <> Ok tt.
Proof.
  split; [| split; [| split]].
  - apply (proj2 (Animal_passes_exactly_on_distinct_plain_names
                    ["Koala"; "Snake"; "Dog"; "Cat"] no_options)).
    split; [discriminate |].
    split; [repeat constructor |].
    split; [| discriminate].
    repeat constructor; cbn [In]; intuition discriminate.
  - intros H.
    apply (proj1 (Animal_passes_exactly_on_distinct_plain_names
                    ["Koala"; "Snake"; "Dog"; "#Cat"] no_options)) in H.
    destruct H as (_ & H & _).
    inversion_clear H as [| ? ? _ H1]. inversion_clear H1 as [| ? ? _ H2].
    inversion_clear H2 as [| ? ? _ H3]. inversion_clear H3 as [| ? ? H4 _].
    discriminate H4.
  - intros H.
    apply (proj1 (Animal_passes_exactly_on_distinct_plain_names
                    ["Koala"; "Snake"; "Koala"] no_options)) in H.
    destruct H as (_ & _ & H & _).
    inversion_clear H as [| ? ? H1 _]. apply H1. cbn [In]. tauto.
  - intros H.
    apply (proj1 (Animal_passes_exactly_on_distinct_plain_names
                    ["Koala"; "Snake"; "Dog"; "Cat"] (mk_options (Some true) VUndefined))) in H.
    destruct H as (_ & _ & _ & H). apply H. reflexivity.
Defined.

Lemma Animal_hashtag_reported_at_its_index_witness :
  verdict (run_checker test_code test_heap Animal hash_cat no_options)
  = Throw (JsError AssertionError
             "Animal.fromJS(obj).toJS() was not a fixed point (did not deep equal obj) [in object 3]: expected 'Cat' to deeply equal '#Cat'").
Proof.
  exact (Animal_hashtag_reported_at_its_index ["Koala"; "Snake"; "Dog"] [] "#Cat" no_options
           ltac:(repeat constructor) ltac:(discriminate) eq_refl).
Defined.

Lemma AnimalBadToJS_fails_at_the_first_sample_witness :
  verdict (run_checker test_code test_heap AnimalBadToJS
             [VStr "Koala"; VStr "Snake"; VStr "Dog"] no_options)
  = Throw (JsError AssertionError
             "AnimalBadToJS.fromJS(obj).toJS() was not a fixed point (did not deep equal obj) [in object 0]: expected 'Bad Koala' to deeply equal 'Koala'").
Proof.
  exact (AnimalBadToJS_fails_at_the_first_sample "Koala" [VStr "Snake"; VStr "Dog"] no_options).
Defined.

Lemma Animal_round_trip_witness :
  extends test_heap test_heap
  /\ exists inst h1,
       call_method test_code Animal "fromJS" [VStr "#Cat"] test_heap = (Ok inst, h1)
       /\ extends test_heap h1
       /\ instanceof inst Animal h1 = (Ok true, h1)
       /\ call_method test_code inst "toJS" [] h1 = (Ok (VStr "Cat"), h1)
       /\ (without_hashtag "#Cat" = "#Cat" <-> starts_with "#" "#Cat" = false).
Proof.
  split; [exists []; symmetry; apply app_nil_r |].
  apply (Animal_round_trip test_heap "#Cat" []).
  exists []. symmetry. apply app_nil_r.
Defined.


Lemma AnimalWithContext_fromJS_needs_a_weight_witness :
  let h := test_heap ++ [animalWeights] in
  extends test_heap h
  /\ call_method test_code AnimalWithContext "fromJS" [VStr "Koala"; VUndefined] h
     = (Throw (JsError TypeError "Cannot read property 'Koala' of undefined"), h)
  /\ call_method test_code AnimalWithContext "fromJS" [VStr "Unicorn"; VRef 40] h
     = (Throw (JsError PlainError "unknown animal (it has no weight)"), h)
  /\ call_method test_code AnimalWithContext "fromJS" [VStr "Koala"; VRef 40] h
     = (Ok (VRef 42),
        h ++ [object_literal [("n", VStr "Koala"); ("w", VNum 5)];
              weighted_instance (VStr "Koala") (VNum 5)]).
Proof.
  intros h.
  assert (He : extends test_heap h) by (eexists; reflexivity).
  split; [exact He |].
  split; [| split].
  - exact (proj1 (AnimalWithContext_fromJS_needs_a_weight h "Koala" VUndefined [] He)
             (or_introl eq_refl)).
  - exact (proj1 (proj2 (AnimalWithContext_fromJS_needs_a_weight h "Unicorn" (VRef 40) [] He))
             VUndefined eq_refl eq_refl).
  - exact (proj2 (proj2 (AnimalWithContext_fromJS_needs_a_weight h "Koala" (VRef 40) [] He))
             (VNum 5) eq_refl eq_refl).
Defined.

Lemma AnimalNoFromJS_is_always_rejected_witness :
  [VStr "Koala"; VStr "Snake"; VStr "Dog"] <> []
  /\ run_checker test_code test_heap AnimalNoFromJS [VStr "Koala"; VStr "Snake"; VStr "Dog"]
       no_options
     = (Throw (JsError AssertionError
                 "AnimalNoFromJS.fromJS should exist: expected undefined to be a function"),
        start test_heap [VStr "Koala"; VStr "Snake"; VStr "Dog"]).
Proof.
  split; [discriminate |].
  apply AnimalNoFromJS_is_always_rejected. discriminate.
Defined.

Lemma AnimalWithContext_value_form_forgets_the_weight_witness :
  let h := test_heap ++ [weighted_instance (VStr "Koala") (VNum 5)] in
  let h1 := h ++ [object_literal [("n", VStr "Koala")]] in
  let h2 := h1 ++ [weighted_instance (VStr "Koala") VUndefined] in
  extends test_heap h
  /\ h !! 40%nat = Some (weighted_instance (VStr "Koala") (VNum 5))
  /\ call_method test_code (VRef 40) "valueOf" [] h = (Ok (VRef 41), h1)
  /\ call_method test_code (VRef 40) "equals" [VRef 41] h1 = (Ok (VBool false), h1)
  /\ construct test_code AnimalWithContext [VRef 41] h1 = (Ok (VRef 42), h2)
  /\ call_method test_code (VRef 40) "equals" [VRef 42] h2 = (Ok (VBool true), h2)
  /\ call_method test_code (VRef 42) "toJS" [] h2 = (Ok (VStr "Koala"), h2)
  /\ call_method test_code (VRef 40) "toJS" [] h2 = (Ok (VStr "Koala"), h2).
Proof.
  intros h h1 h2.
  assert (He : extends test_heap h) by (eexists; reflexivity).
  assert (Hl : h !! 40%nat = Some (weighted_instance (VStr "Koala") (VNum 5))) by reflexivity.
  split; [exact He |]. split; [exact Hl |].
  exact (AnimalWithContext_value_form_forgets_the_weight h 40 (VStr "Koala") (VNum 5) He Hl).
Defined.
